(** * Customer segmentation dashboard (dashboard.py)

    A shallow embedding of the loader and of the aggregates that the
    dashboard script computes with pandas, followed by the properties of
    these computations.

    Conventions of the embedding.
    - A cell of a table is a [value]: a number, a string, a timestamp or
      the missing value (pandas' NaN / NaT).  A number is the rational
      that a 64-bit integer or a finite binary floating-point number
      stands for.
    - What NumPy computes on numbers (sums, means, rounding), and the
      order in which its quicksort leaves items with equal keys, is not
      computed here: these routines are a parameter of the embedding, a
      [pd.numpy], and the properties hold for every one of them.
    - A [DataFrame] is a schema (column labels with their dtype), the name
      and dtype of its index, and its rows (index label and cells).
    - Python exceptions are the [Raise] outcome of a [result].
    - The script binds data frames to variables and updates some of them
      in place; data frames therefore live in a heap, addressed by
      location, and the script is a computation in the monad [M] over a
      [world] (heap and rendered widgets). *)

From Stdlib Require Import QArith Qround ZArith List String Ascii Bool Lia.
From Stdlib Require Import Permutation Sorted DecimalString.
From stdpp Require Import list.
Import ListNotations.
Local Open Scope string_scope.
Local Open Scope list_scope.

(** ** Values, series and data frames *)

Inductive value : Type :=
| Num (q : Q)
| Str (s : string)
| Stamp (t : Z)
| NaN.

Inductive dtype : Type := Numeric | Object | Datetime.

Record row : Type := Row { label : value; cells : list value }.

Record Series : Type := MkSeries {
  s_name : option string;
  s_dtype : dtype;
  s_index_name : option string;
  s_index_dtype : dtype;
  items : list (value * value)
}.

Record DataFrame : Type := Frame {
  index_name : option string;
  index_dtype : dtype;
  schema : list (string * dtype);
  rows : list row
}.

Inductive exn : Type :=
| FileNotFoundError (path : string)
| EmptyDataError
| KeyError (key : string)
| IndexError
| TypeError (what : string)
| ValueError (what : string)
| DateParseError (text : string)
| NameError.

Inductive result (A : Type) : Type :=
| Ok (a : A)
| Raise (e : exn).

Arguments Ok {A} a.
Arguments Raise {A} e.

Definition rbind {A B : Type} (r : result A) (k : A -> result B) : result B :=
  match r with
  | Ok a => k a
  | Raise e => Raise e
  end.

(** ** The pandas operations the script calls *)

Module pd.

Definition is_nan (v : value) : bool :=
  match v with NaN => true | _ => false end.

Definition notna (v : value) : bool := negb (is_nan v).

(** Elementwise [==]: a missing value equals nothing, not even itself. *)
Definition value_eqb (a b : value) : bool :=
  match a, b with
  | Num x, Num y => Qeq_bool x y
  | Str x, Str y => String.eqb x y
  | Stamp x, Stamp y => Z.eqb x y
  | _, _ => false
  end.

(** Identity of keys in pandas' hash tables ([unique], [value_counts],
    [groupby]): as [==], but all missing values are one key. *)
Definition same_key (a b : value) : bool :=
  match a, b with
  | NaN, NaN => true
  | _, _ => value_eqb a b
  end.

(** Ascending order of sorted group keys; numbers come before timestamps
    and strings. *)
Definition value_leb (a b : value) : bool :=
  match a, b with
  | NaN, _ => true
  | _, NaN => false
  | Num x, Num y => Qle_bool x y
  | Num _, _ => true
  | Stamp _, Num _ => false
  | Stamp x, Stamp y => Z.leb x y
  | Stamp _, Str _ => true
  | Str x, Str y => String.leb x y
  | Str _, _ => false
  end.

(** Descending order with missing values last ([ascending=False],
    [na_position='last']): [desc_before a b] when [a] may stand before
    [b]. *)
Definition desc_before (a b : value) : bool :=
  match a, b with
  | _, NaN => true
  | NaN, _ => false
  | _, _ => value_leb b a
  end.

Definition to_num (v : value) : option Q :=
  match v with Num q => Some q | _ => None end.

Definition of_nat (n : nat) : value := Num (inject_Z (Z.of_nat n)).

(** Stable sorting by insertion; [before x y] says that [x] may stand
    before [y]. *)
Fixpoint insert_sorted {A : Type} (before : A -> A -> bool) (x : A) (l : list A) : list A :=
  match l with
  | [] => [x]
  | y :: t => if before x y then x :: y :: t else y :: insert_sorted before x t
  end.

Fixpoint stable_sort {A : Type} (before : A -> A -> bool) (l : list A) : list A :=
  match l with
  | [] => []
  | x :: t => insert_sorted before x (stable_sort before t)
  end.

(** *** NumPy's routines

    pandas adds up and averages a column, and the groups of a [groupby],
    in 64-bit integers or in binary floating point, with a routine for
    columns and another for groups; it rounds in binary floating point;
    and [sort_values] and [value_counts] sort with NumPy's quicksort,
    which leaves items with equal keys in no fixed order.  The embedding
    takes these routines as they are on the machine that runs the script.
    What they return for numbers is not specified.  A sort is a stable
    sort of the items in the order in which the routine visits them, and
    of that order only this is known, that it is an order of the same
    items. *)
Class numpy : Type := Numpy {
  add_up : list Q -> Q;
  average : list Q -> Q;
  average_stamps : list Z -> Z;
  group_add_up : list Q -> Q;
  group_average : list Q -> Q;
  group_average_stamps : list Z -> Z;
  around : Q -> Q;
  visit_counts : list (value * nat) -> list (value * nat);
  visit_items : list (value * value) -> list (value * value);
  visit_rows : nat -> list row -> list row;
  visit_counts_perm : forall l, Permutation (visit_counts l) l;
  visit_items_perm : forall l, Permutation (visit_items l) l;
  visit_rows_perm : forall i l, Permutation (visit_rows i l) l
}.

(** *** Columns *)

Definition columns (df : DataFrame) : list string := map fst (schema df).

(** [c in df.columns] *)
Definition has_column (c : string) (cols : list string) : bool :=
  existsb (String.eqb c) cols.

Fixpoint position (c : string) (cols : list string) : option nat :=
  match cols with
  | [] => None
  | x :: t => if String.eqb c x then Some O else option_map S (position c t)
  end.

Definition at_col (i : nat) (r : row) : value := nth i (cells r) NaN.

Definition dtype_at (i : nat) (df : DataFrame) : dtype :=
  nth i (map snd (schema df)) Object.

Definition dtype_of (c : string) (df : DataFrame) : option dtype :=
  option_map (fun i => dtype_at i df) (position c (columns df)).

(** [len(df)] *)
Definition len (df : DataFrame) : nat := length (rows df).

(** [df[c]] *)
Definition getitem (df : DataFrame) (c : string) : result Series :=
  match position c (columns df) with
  | None => Raise (KeyError c)
  | Some i =>
      Ok {| s_name := Some c;
            s_dtype := dtype_at i df;
            s_index_name := index_name df;
            s_index_dtype := index_dtype df;
            items := map (fun r => (label r, at_col i r)) (rows df) |}
  end.

Definition values (s : Series) : list value := map snd (items s).

(** [s == v], a boolean mask *)
Definition series_eq (s : Series) (v : value) : list bool :=
  map (fun x => value_eqb x v) (values s).

Fixpoint select_mask {A : Type} (mask : list bool) (l : list A) : list A :=
  match mask, l with
  | b :: m, x :: t => if b then x :: select_mask m t else select_mask m t
  | _, _ => []
  end.

(** [df[mask]] *)
Definition getitem_mask (df : DataFrame) (mask : list bool) : result DataFrame :=
  if Nat.eqb (length mask) (length (rows df))
  then Ok (Frame (index_name df) (index_dtype df) (schema df) (select_mask mask (rows df)))
  else Raise (ValueError "Item wrong length").

(** [df[[c1, ..., cn]]] *)
Fixpoint positions (cs : list string) (cols : list string) : result (list nat) :=
  match cs with
  | [] => Ok []
  | c :: t =>
      match position c cols with
      | None => Raise (KeyError c)
      | Some i => rbind (positions t cols) (fun l => Ok (i :: l))
      end
  end.

Definition getitem_list (df : DataFrame) (cs : list string) : result DataFrame :=
  rbind (positions cs (columns df)) (fun ps =>
    Ok (Frame (index_name df) (index_dtype df)
          (map (fun i => nth i (schema df) ("", Object)) ps)
          (map (fun r => Row (label r) (map (fun i => at_col i r) ps)) (rows df)))).

(** [df.head(n)] *)
Definition head (n : nat) (df : DataFrame) : DataFrame :=
  Frame (index_name df) (index_dtype df) (schema df) (firstn n (rows df)).

(** *** Index handling *)

(** The items of a list with their positions, counted from [i]. *)
Fixpoint indexed {A B : Type} (f : nat -> A -> B) (i : nat) (l : list A) : list B :=
  match l with
  | [] => []
  | x :: t => f i x :: indexed f (S i) t
  end.

(** The default index 0, 1, 2, ... *)
Definition range_index (rs : list row) : list row :=
  indexed (fun i r => Row (of_nat i) (cells r)) 0 rs.

(** [df.reset_index()]: the index becomes the first column. *)
Definition reset_index (df : DataFrame) : result DataFrame :=
  let cols := columns df in
  let name :=
    match index_name df with
    | Some n => n
    | None => if has_column "index" cols then "level_0" else "index"
    end in
  if has_column name cols
  then Raise (ValueError "cannot insert index, already exists")
  else Ok (Frame None Numeric ((name, index_dtype df) :: schema df)
             (range_index (map (fun r => Row (label r) (label r :: cells r)) (rows df)))).

(** [df.reset_index(drop=True)] *)
Definition reset_index_drop (df : DataFrame) : DataFrame :=
  Frame None Numeric (schema df) (range_index (rows df)).

(** [s.reset_index()] *)
Definition series_reset_index (s : Series) : result DataFrame :=
  let iname := match s_index_name s with Some n => n | None => "index" end in
  let vname := match s_name s with Some n => n | None => "0" end in
  if String.eqb iname vname
  then Raise (ValueError "cannot insert index, already exists")
  else Ok (Frame None Numeric [(iname, s_index_dtype s); (vname, s_dtype s)]
             (indexed (fun i kv => Row (of_nat i) [fst kv; snd kv]) 0 (items s))).

(** [df.rename(columns={old: new})] *)
Definition rename (old new : string) (df : DataFrame) : DataFrame :=
  Frame (index_name df) (index_dtype df)
    (map (fun cd => if String.eqb (fst cd) old then (new, snd cd) else cd) (schema df))
    (rows df).

(** [df.columns = names] *)
Definition set_columns (names : list string) (df : DataFrame) : result DataFrame :=
  if Nat.eqb (length names) (length (schema df))
  then Ok (Frame (index_name df) (index_dtype df)
             (map (fun nd => (fst nd, snd (snd nd))) (combine names (schema df)))
             (rows df))
  else Raise (ValueError "Length mismatch").

Fixpoint replace_nth {A : Type} (i : nat) (x : A) (l : list A) : list A :=
  match i, l with
  | _, [] => []
  | O, _ :: t => x :: t
  | S j, y :: t => y :: replace_nth j x t
  end.

(** [df[c] = vals] for a list or a series of values of dtype [d] *)
Definition setitem (c : string) (d : dtype) (vals : list value) (df : DataFrame) : result DataFrame :=
  if Nat.eqb (length vals) (length (rows df))
  then
    match position c (columns df) with
    | Some i =>
        Ok (Frame (index_name df) (index_dtype df)
              (replace_nth i (c, d) (schema df))
              (map (fun rv => Row (label (fst rv)) (replace_nth i (snd rv) (cells (fst rv))))
                 (combine (rows df) vals)))
    | None =>
        Ok (Frame (index_name df) (index_dtype df)
              (schema df ++ [(c, d)])
              (map (fun rv => Row (label (fst rv)) (cells (fst rv) ++ [snd rv]))
                 (combine (rows df) vals)))
    end
  else Raise (ValueError "Length of values does not match length of index").

(** *** Reductions of a column *)

Inductive aggfn : Type := Mean | Sum | Count.

Definition present (l : list value) : list Q := omap to_num l.

Definition stamps (l : list value) : list Z :=
  omap (fun v => match v with Stamp t => Some t | _ => None end) l.

(** [s.sum()] of numbers: missing values are skipped; the empty sum is
    0. *)
Definition sum {np : numpy} (l : list value) : Q :=
  match present l with
  | [] => 0%Q
  | p => add_up p
  end.

(** [s.count()]: the number of values that are not missing. *)
Definition count (l : list value) : nat := length (List.filter notna l).

(** [s.mean()] of numbers: missing values are skipped; the mean of no
    value is NaN. *)
Definition mean {np : numpy} (l : list value) : value :=
  match present l with
  | [] => NaN
  | p => Num (average p)
  end.

(** [s.mean()] of timestamps *)
Definition mean_stamps {np : numpy} (l : list value) : value :=
  match stamps l with
  | [] => NaN
  | ts => Stamp (average_stamps ts)
  end.

(** Whether pandas reduces the values [l] of a column of dtype [d] with
    [f]: numbers always; a column of dtype object when it holds no value
    (so the columns of a table without rows), but not text; timestamps
    are averaged, not added up.  Counting is defined on every column. *)
Definition reducible (f : aggfn) (d : dtype) (l : list value) : bool :=
  match f, d with
  | Count, _ => true
  | _, Numeric => true
  | _, Object => forallb is_nan l
  | Mean, Datetime => true
  | Sum, Datetime => false
  end.

Definition series_mean {np : numpy} (s : Series) : result value :=
  if reducible Mean (s_dtype s) (values s)
  then Ok (match s_dtype s with
           | Datetime => mean_stamps (values s)
           | _ => mean (values s)
           end)
  else Raise (TypeError "mean").

Definition series_sum {np : numpy} (s : Series) : result Q :=
  if reducible Sum (s_dtype s) (values s)
  then Ok (sum (values s))
  else Raise (TypeError "sum").

(** Rounding to two decimals: numbers are rounded by NumPy, other values
    are left as they are. *)
Definition round2 {np : numpy} (v : value) : value :=
  match v with
  | Num q => Num (around q)
  | _ => v
  end.

(** [df.round(2)] *)
Definition round {np : numpy} (df : DataFrame) : DataFrame :=
  Frame (index_name df) (index_dtype df) (schema df)
    (map (fun r => Row (label r) (map round2 (cells r))) (rows df)).

(** *** Distinct values and counts *)

(** [s.unique()]: the distinct values in order of first appearance; the
    missing value, when it occurs, is one of them. *)
Fixpoint unique (l : list value) : list value :=
  match l with
  | [] => []
  | x :: t => x :: List.filter (fun y => negb (same_key x y)) (unique t)
  end.

Definition occurrences (k : value) (l : list value) : nat :=
  length (List.filter (same_key k) l).

(** The distinct values that are not missing, each with the number of
    its occurrences, in descending order of that number. *)
Definition tally {np : numpy} (l : list value) : list (value * nat) :=
  let vals := List.filter notna l in
  stable_sort (fun a b => Nat.leb (snd b) (snd a))
    (visit_counts (map (fun k => (k, occurrences k vals)) (unique vals))).

(** [s.value_counts()], with its defaults [dropna=True], [sort=True],
    [ascending=False]: missing values are dropped, the remaining distinct
    values are counted and the counts sorted in descending order. *)
Definition value_counts {np : numpy} (s : Series) : Series :=
  {| s_name := Some "count";
     s_dtype := Numeric;
     s_index_name := s_name s;
     s_index_dtype := s_dtype s;
     items := map (fun kc => (fst kc, of_nat (snd kc))) (tally (values s)) |}.

(** *** Sorting and selection *)

(** [s.sort_values(ascending=False)], with its default
    [kind='quicksort'] *)
Definition series_sort_values {np : numpy} (s : Series) : Series :=
  {| s_name := s_name s;
     s_dtype := s_dtype s;
     s_index_name := s_index_name s;
     s_index_dtype := s_index_dtype s;
     items := stable_sort (fun a b => desc_before (snd a) (snd b)) (visit_items (items s)) |}.

Definition sort_rows (i : nat) (rs : list row) : list row :=
  stable_sort (fun a b => desc_before (at_col i a) (at_col i b)) rs.

(** [df.sort_values(c, ascending=False)], with its default
    [kind='quicksort'] *)
Definition sort_values {np : numpy} (c : string) (df : DataFrame) : result DataFrame :=
  match position c (columns df) with
  | None => Raise (KeyError c)
  | Some i =>
      Ok (Frame (index_name df) (index_dtype df) (schema df)
            (sort_rows i (visit_rows i (rows df))))
  end.

(** [df.nlargest(n, c)] with its default [keep='first']: the first [n]
    rows in descending order of column [c], rows with a missing value
    last, rows with equal values in their original order.  A column of
    dtype object is refused, with or without rows. *)
Definition nlargest (n : nat) (c : string) (df : DataFrame) : result DataFrame :=
  match position c (columns df) with
  | None => Raise (KeyError c)
  | Some i =>
      match dtype_at i df with
      | Object => Raise (TypeError "nlargest")
      | _ => Ok (Frame (index_name df) (index_dtype df) (schema df)
                   (firstn n (sort_rows i (rows df))))
      end
  end.

(** *** Grouping *)

Record GroupBy : Type := MkGroupBy {
  by_name : string;
  by_dtype : dtype;
  source : DataFrame;
  groups : list (value * list row)
}.

(** [df.groupby(c)], with its defaults [sort=True], [dropna=True]: one
    group per distinct value of column [c] that is not missing, in
    ascending order of the values. *)
Definition groupby (c : string) (df : DataFrame) : result GroupBy :=
  match position c (columns df) with
  | None => Raise (KeyError c)
  | Some i =>
      let keys := stable_sort value_leb
                    (unique (List.filter notna (map (at_col i) (rows df)))) in
      Ok {| by_name := c;
            by_dtype := dtype_at i df;
            source := df;
            groups := map (fun k => (k, List.filter (fun r => same_key k (at_col i r)) (rows df))) keys |}
  end.

(** The sum and the mean of the numbers of a group, as [groupby]
    computes them: missing values are skipped, the empty sum is 0, the
    mean of no value is NaN. *)
Definition group_sum_of {np : numpy} (l : list value) : Q :=
  match present l with
  | [] => 0%Q
  | p => group_add_up p
  end.

Definition group_mean_of {np : numpy} (d : dtype) (l : list value) : value :=
  match d with
  | Datetime =>
      match stamps l with
      | [] => NaN
      | ts => Stamp (group_average_stamps ts)
      end
  | _ =>
      match present l with
      | [] => NaN
      | p => Num (group_average p)
      end
  end.

Definition aggregate {np : numpy} (f : aggfn) (d : dtype) (l : list value) : value :=
  match f with
  | Mean => group_mean_of d l
  | Sum => Num (group_sum_of l)
  | Count => of_nat (count l)
  end.

(** The rows that are in a group. *)
Definition grouped (g : GroupBy) : list row := concat (map snd (groups g)).

(** One aggregated column: its label, the aggregated column's position,
    the function.  [rs] are the rows of the groups. *)
Fixpoint agg_plan (specs : list (string * string * aggfn)) (df : DataFrame) (rs : list row)
  : result (list (string * nat * aggfn)) :=
  match specs with
  | [] => Ok []
  | (lbl, c, f) :: t =>
      match position c (columns df) with
      | None => Raise (KeyError c)
      | Some i =>
          if reducible f (dtype_at i df) (map (at_col i) rs)
          then rbind (agg_plan t df rs) (fun l => Ok ((lbl, i, f) :: l))
          else Raise (TypeError "agg")
      end
  end.

(** The dtype of an aggregated column. *)
Definition agg_dtype (f : aggfn) (d : dtype) : dtype :=
  match f with
  | Count => Numeric
  | _ => d
  end.

(** [g.agg(...)]: one row per group, labelled by the group's key. *)
Definition agg {np : numpy} (specs : list (string * string * aggfn)) (g : GroupBy)
  : result DataFrame :=
  rbind (agg_plan specs (source g) (grouped g)) (fun plan =>
    Ok (Frame (Some (by_name g)) (by_dtype g)
          (map (fun p => (fst (fst p), agg_dtype (snd p) (dtype_at (snd (fst p)) (source g))))
             plan)
          (map (fun kg =>
                  Row (fst kg)
                    (map (fun p => aggregate (snd p) (dtype_at (snd (fst p)) (source g))
                                     (map (at_col (snd (fst p))) (snd kg))) plan))
             (groups g)))).

(** [g[cs].mean()] *)
Definition group_mean {np : numpy} (cs : list string) (g : GroupBy) : result DataFrame :=
  agg (map (fun c => (c, c, Mean)) cs) g.

(** [g[c].sum()] *)
Definition group_sum {np : numpy} (c : string) (g : GroupBy) : result Series :=
  match position c (columns (source g)) with
  | None => Raise (KeyError c)
  | Some i =>
      if reducible Sum (dtype_at i (source g)) (map (at_col i) (grouped g))
      then Ok {| s_name := Some c;
                 s_dtype := dtype_at i (source g);
                 s_index_name := Some (by_name g);
                 s_index_dtype := by_dtype g;
                 items := map (fun kg => (fst kg, Num (group_sum_of (map (at_col i) (snd kg)))))
                            (groups g) |}
      else Raise (TypeError "sum")
  end.

(** *** Input *)

(** A CSV file as pandas reads it: the header with the dtype inferred
    for every column, and the records, which hold the fields under the
    header.  When the lines of the file have one field more than the
    header, pandas takes their first fields as the index: [index_col] has
    these fields and their dtype. *)
Record csv : Type := Csv {
  header : list (string * dtype);
  records : list (list value);
  index_col : option (dtype * list value)
}.

Definition filesystem : Type := string -> option csv.

(** The index label of record [i]: its first field when the file has an
    index, else its number. *)
Definition label_at (f : csv) (i : nat) : value :=
  match index_col f with
  | Some (_, firsts) => nth i firsts NaN
  | None => of_nat i
  end.

Definition index_dtype_of (f : csv) : dtype :=
  match index_col f with
  | Some (d, _) => d
  | None => Numeric
  end.

(** [pd.read_csv(path)] *)
Definition read_csv (fs : filesystem) (path : string) : result DataFrame :=
  match fs path with
  | None => Raise (FileNotFoundError path)
  | Some f =>
      match header f with
      | [] => Raise EmptyDataError
      | h => Ok (Frame None (index_dtype_of f) h
                   (indexed (fun i r => Row (label_at f i) r) 0 (records f)))
      end
  end.

(** The library's reading of dates: [parse first text] is the time of
    the date [text], read in the format that pandas infers from the text
    [first], if [text] is a date in that format. *)
Definition date_parser : Type := string -> string -> option Z.

(** The quotient of a rational, rounded toward zero. *)
Definition truncate (q : Q) : Z := Z.quot (Qnum q) (Z.pos (Qden q)).

(** The first text of a column: pandas infers the format of the dates
    from it. *)
Definition first_text (l : list value) : option string :=
  List.head (omap (fun v => match v with Str s => Some s | _ => None end) l).

(** The reading of the texts of a column whose first text is [first]. *)
Definition reader (parse : date_parser) (l : list value)
  : string -> option Z :=
  match first_text l with
  | Some first => parse first
  | None => fun _ => None
  end.

Fixpoint parse_with (read : string -> option Z) (l : list value) : result (list value) :=
  match l with
  | [] => Ok []
  | v :: t =>
      rbind (match v with
             | Str s =>
                 match read s with
                 | Some ts => Ok (Stamp ts)
                 | None => Raise (DateParseError s)
                 end
             | Num q => Ok (Stamp (truncate q))
             | Stamp ts => Ok (Stamp ts)
             | NaN => Ok NaN
             end) (fun x =>
      rbind (parse_with read t) (fun r => Ok (x :: r)))
  end.

(** The values of a column as timestamps: numbers are nanoseconds, cut
    to an integer; texts are read in the format of the first text. *)
Definition parse_all (parse : date_parser) (l : list value)
  : result (list value) :=
  parse_with (reader parse l) l.

(** [pd.to_datetime(s)] with its default [errors='raise'];
    [parse first text] is the library's reading of the date [text] in the
    format that it infers from [first]. *)
Definition to_datetime (parse : date_parser) (s : Series) : result Series :=
  rbind (parse_all parse (values s)) (fun vs =>
    Ok {| s_name := s_name s;
          s_dtype := Datetime;
          s_index_name := s_index_name s;
          s_index_dtype := s_index_dtype s;
          items := combine (map fst (items s)) vs |}).

End pd.

(** ** The script's world: a heap of data frames and the rendered page *)

Definition loc : Type := nat.

(** The text of a metric, before formatting. *)
Inductive metric_value : Type :=
| Grouped (n : nat)
| Fixed1 (v : value)
| Dollars (q : Q)
| Text (s : string).

Inductive chart_kind : Type := Bar | Pie | Heatmap | Scatter3d (colored : bool) | Histogram (x : string).

Inductive widget : Type :=
| st_title (text : string)
| st_markdown (text : string)
| st_header (text : string)
| st_error (msg : string)
| st_warning (msg : string)
| st_write_columns (cols : list string)
| st_write_shape (nrows ncols : nat)
| st_write_frame (data : DataFrame)
| st_sidebar_header (text : string)
| st_sidebar_selectbox (label : string) (options : list value)
| st_metric (label : string) (v : metric_value)
| st_plotly_chart (kind : chart_kind) (title : string) (data : DataFrame)
| st_dataframe (data : DataFrame).

Record world : Type := World { heap : list DataFrame; page : list widget }.

Definition M (A : Type) : Type := world -> result A * world.

Definition ret {A : Type} (a : A) : M A := fun w => (Ok a, w).

Definition bind {A B : Type} (m : M A) (k : A -> M B) : M B :=
  fun w =>
    match m w with
    | (Ok a, w') => k a w'
    | (Raise e, w') => (Raise e, w')
    end.

Declare Scope script_scope.
Delimit Scope script_scope with script.
Notation "x <- m ;; k" := (bind m (fun x => k))
  (at level 200, m at level 99, k at level 200, right associativity) : script_scope.
Notation "m >> k" := (bind m (fun _ => k))
  (at level 200, k at level 200, right associativity) : script_scope.
Local Open Scope script_scope.

Definition lift {A : Type} (r : result A) : M A := fun w => (r, w).

(** [try: body  except Exception as e: handler(e)] *)
Definition try_except {A : Type} (body : M A) (handler : exn -> M A) : M A :=
  fun w =>
    match body w with
    | (Ok a, w') => (Ok a, w')
    | (Raise e, w') => handler e w'
    end.

(** A new data frame object. *)
Definition new (r : result DataFrame) : M loc :=
  fun w =>
    match r with
    | Ok df => (Ok (length (heap w)), World (heap w ++ [df]) (page w))
    | Raise e => (Raise e, w)
    end.

Definition get (l : loc) : M DataFrame :=
  fun w =>
    match heap w !! l with
    | Some df => (Ok df, w)
    | None => (Raise NameError, w)
    end.

(** An update in place of the object at [l]. *)
Definition update (l : loc) (f : DataFrame -> result DataFrame) : M unit :=
  fun w =>
    match heap w !! l with
    | Some df =>
        match f df with
        | Ok df' => (Ok tt, World (<[l := df']> (heap w)) (page w))
        | Raise e => (Raise e, w)
        end
    | None => (Raise NameError, w)
    end.

Definition emit (x : widget) : M unit :=
  fun w => (Ok tt, World (heap w) (page w ++ [x])).

(** [str(e)] *)
Definition describe (e : exn) : string :=
  match e with
  | FileNotFoundError p => String.append "No such file or directory: " p
  | EmptyDataError => "No columns to parse from file"
  | KeyError k => k
  | IndexError => "index 0 is out of bounds"
  | TypeError what => String.append "unsupported dtype for " what
  | ValueError what => what
  | DateParseError t => String.append "Unknown datetime string format: " t
  | NameError => "name is not defined"
  end.

(** [str(n)] *)
Definition str (n : nat) : string := NilEmpty.string_of_uint (Nat.to_uint n).

(** ** dashboard.py *)

Definition rfm_path : string := "data/rfm_analysis.csv".
Definition transactions_path : string := "data/cleaned_online_retail.csv".

(** Lines 22-33: the RFM table.  [fs] is the content of the data
    directory. *)
Definition load_rfm (fs : pd.filesystem) : M loc :=
  rfm <- new (pd.read_csv fs rfm_path) ;;
  t <- get rfm ;;
  first <- lift (match pd.columns t with c :: _ => Ok c | [] => Raise IndexError end) ;;
  (if pd.has_column first ["Unnamed: 0"; "index"]
   then update rfm (fun d => Ok (pd.rename first "CustomerID" d))
   else ret tt) >>
  t <- get rfm ;;
  if negb (pd.has_column "CustomerID" (pd.columns t))
  then
    rfm' <- new (pd.reset_index t) ;;
    t' <- get rfm' ;;
    (if pd.has_column "index" (pd.columns t')
     then update rfm' (fun d => Ok (pd.rename "index" "CustomerID" d))
     else ret tt) >>
    ret rfm'
  else ret rfm.

(** Lines 35-37: the transactions.  [parse] is the date parser of
    [pd.to_datetime]. *)
Definition load_transactions (fs : pd.filesystem) (parse : pd.date_parser) : M loc :=
  df <- new (pd.read_csv fs transactions_path) ;;
  d <- get df ;;
  dates <- lift (rbind (pd.getitem d "InvoiceDate") (pd.to_datetime parse)) ;;
  update df (pd.setitem "InvoiceDate" Datetime (pd.values dates)) >>
  ret df.

(** Lines 19-42.  The decorator [st.cache_data] memoises the result of
    the call; the embedding is the call itself. *)
Definition load_data (fs : pd.filesystem) (parse : pd.date_parser)
  : M (option loc * option loc) :=
  try_except
    (rfm <- load_rfm fs ;;
     df <- load_transactions fs parse ;;
     ret (Some rfm, Some df))
    (fun e =>
       emit (st_error (String.append "Error loading data: " (describe e))) >>
       ret (None, None)).

(** Lines 14-16. *)
Definition banner : M unit :=
  emit (st_title "📊 Customer Segmentation Analysis Dashboard") >>
  emit (st_markdown "### RFM-Based Customer Segmentation for E-Commerce") >>
  emit (st_markdown "---").

(** Lines 49-52. *)
Definition debug_info (rfm : loc) : M unit :=
  t <- get rfm ;;
  emit (st_write_columns (pd.columns t)) >>
  emit (st_write_shape (pd.len t) (length (pd.columns t))) >>
  emit (st_write_frame (pd.head 1 t)).

(** Lines 55-70: the sidebar filter.  [choice] is the entry of the select
    box that the user has picked; the result is [rfm_filtered] together
    with [selected_segment]. *)
Definition rfm_filtered (rfm : loc) (choice : value) : M (loc * value) :=
  emit (st_sidebar_header "🔍 Filters") >>
  t <- get rfm ;;
  if pd.has_column "Customer_Segment" (pd.columns t)
  then
    s <- lift (pd.getitem t "Customer_Segment") ;;
    emit (st_sidebar_selectbox "Select Customer Segment" (Str "All" :: pd.unique (pd.values s))) >>
    let selected_segment := choice in
    if negb (pd.value_eqb selected_segment (Str "All"))
    then
      s <- lift (pd.getitem t "Customer_Segment") ;;
      filtered <- new (pd.getitem_mask t (pd.series_eq s selected_segment)) ;;
      ret (filtered, selected_segment)
    else ret (rfm, selected_segment)
  else
    emit (st_warning "Customer_Segment column not found. Showing all data.") >>
    ret (rfm, Str "All").

(** Lines 76-92. *)
Definition key_metrics {np : pd.numpy} (rfm_filtered : loc) : M unit :=
  emit (st_header "📈 Key Metrics") >>
  t <- get rfm_filtered ;;
  emit (st_metric "Total Customers" (Grouped (pd.len t))) >>
  (if pd.has_column "Recency" (pd.columns t)
   then
     m <- lift (rbind (pd.getitem t "Recency") pd.series_mean) ;;
     emit (st_metric "Avg Recency (Days)" (Fixed1 m))
   else emit (st_metric "Avg Recency" (Text "N/A"))) >>
  (if pd.has_column "Frequency" (pd.columns t)
   then
     m <- lift (rbind (pd.getitem t "Frequency") pd.series_mean) ;;
     emit (st_metric "Avg Frequency" (Fixed1 m))
   else emit (st_metric "Avg Frequency" (Text "N/A"))) >>
  (if pd.has_column "Monetary" (pd.columns t)
   then
     m <- lift (rbind (pd.getitem t "Monetary") pd.series_sum) ;;
     emit (st_metric "Total Revenue" (Dollars m))
   else emit (st_metric "Total Revenue" (Text "N/A"))) >>
  emit (st_markdown "---").

(** Lines 103-104. *)
Definition segment_counts {np : pd.numpy} (rfm : loc) : M loc :=
  t <- get rfm ;;
  counts <- new (rbind (pd.getitem t "Customer_Segment")
                   (fun s => pd.series_reset_index (pd.value_counts s))) ;;
  update counts (pd.set_columns ["Segment"; "Count"]) >>
  ret counts.

(** Lines 97-121. *)
Definition segment_distribution {np : pd.numpy} (rfm : loc) : M unit :=
  t <- get rfm ;;
  if pd.has_column "Customer_Segment" (pd.columns t)
  then
    emit (st_header "👥 Customer Segment Distribution") >>
    counts <- segment_counts rfm ;;
    d <- get counts ;;
    emit (st_plotly_chart Bar "Customer Count by Segment" d) >>
    d <- get counts ;;
    emit (st_plotly_chart Pie "Segment Distribution (%)" d) >>
    emit (st_markdown "---")
  else ret tt.

Definition rfm_columns : list string := ["Recency"; "Frequency"; "Monetary"].

Definition has_rfm_columns (t : DataFrame) : bool :=
  forallb (fun c => pd.has_column c (pd.columns t)) rfm_columns.

(** Line 131. *)
Definition segment_rfm {np : pd.numpy} (rfm : loc) : M loc :=
  t <- get rfm ;;
  new (rbind (pd.groupby "Customer_Segment" t) (fun g =>
       rbind (pd.group_mean rfm_columns g) (fun m => Ok (pd.round m)))).

(** Lines 124-170. *)
Definition rfm_analysis {np : pd.numpy} (rfm rfm_filtered : loc) : M unit :=
  t <- get rfm ;;
  if has_rfm_columns t
  then
    emit (st_header "🔍 RFM Analysis") >>
    (if pd.has_column "Customer_Segment" (pd.columns t)
     then
       means <- segment_rfm rfm ;;
       d <- get means ;;
       emit (st_plotly_chart Heatmap "Average RFM Values by Segment" d)
     else ret tt) >>
    f <- get rfm_filtered ;;
    emit (st_plotly_chart
            (Scatter3d (pd.has_column "Customer_Segment" (pd.columns f)))
            "3D RFM Visualization" f) >>
    emit (st_markdown "---")
  else ret tt.

(** Lines 180-181. *)
Definition segment_revenue {np : pd.numpy} (rfm : loc) : M loc :=
  t <- get rfm ;;
  revenue <- new (rbind (pd.groupby "Customer_Segment" t) (fun g =>
                  rbind (pd.group_sum "Monetary" g) (fun s =>
                  pd.series_reset_index (pd.series_sort_values s)))) ;;
  update revenue (pd.set_columns ["Segment"; "Revenue"]) >>
  ret revenue.

(** Lines 192-193, for the [n] largest; the script takes 10. *)
Definition top_n_customers (n : nat) (rfm : loc) : M loc :=
  t <- get rfm ;;
  top <- new (rbind (pd.nlargest n "Monetary" t) (fun a =>
              rbind (pd.getitem_list a ["Monetary"]) (fun b =>
              Ok (pd.reset_index_drop b)))) ;;
  d <- get top ;;
  update top (pd.setitem "Customer" Object
                (map (fun i => Str (String.append "Customer " (str (i + 1))))
                   (seq 0 (pd.len d)))) >>
  ret top.

Definition top_customers : loc -> M loc := top_n_customers 10.

(** Lines 173-203. *)
Definition revenue_analysis {np : pd.numpy} (rfm : loc) : M unit :=
  t <- get rfm ;;
  if pd.has_column "Monetary" (pd.columns t)
  then
    emit (st_header "💰 Revenue Analysis") >>
    (if pd.has_column "Customer_Segment" (pd.columns t)
     then
       revenue <- segment_revenue rfm ;;
       d <- get revenue ;;
       emit (st_plotly_chart Bar "Total Revenue by Segment" d)
     else ret tt) >>
    top <- top_customers rfm ;;
    d <- get top ;;
    emit (st_plotly_chart Bar "Top 10 Customers by Revenue" d) >>
    emit (st_markdown "---")
  else ret tt.

(** Lines 206-231. *)
Definition distributions (rfm_filtered : loc) : M unit :=
  f <- get rfm_filtered ;;
  if has_rfm_columns f
  then
    emit (st_header "📊 RFM Distributions") >>
    emit (st_plotly_chart (Histogram "Recency") "Recency Distribution" f) >>
    emit (st_plotly_chart (Histogram "Frequency") "Frequency Distribution" f) >>
    emit (st_plotly_chart (Histogram "Monetary") "Monetary Distribution" f) >>
    emit (st_markdown "---")
  else ret tt.

(** Lines 236-243. *)
Definition segment_summary {np : pd.numpy} (rfm : loc) : M loc :=
  t <- get rfm ;;
  summary <- new (rbind (pd.groupby "Customer_Segment" t) (fun g =>
                  rbind (pd.agg [("('Recency', 'mean')", "Recency", pd.Mean);
                                 ("('Frequency', 'mean')", "Frequency", pd.Mean);
                                 ("('Monetary', 'mean')", "Monetary", pd.Mean);
                                 ("('Monetary', 'sum')", "Monetary", pd.Sum);
                                 ("('Monetary', 'count')", "Monetary", pd.Count)] g)
                    (fun a => Ok (pd.round a)))) ;;
  update summary (pd.set_columns ["Avg Recency"; "Avg Frequency"; "Avg Monetary";
                                  "Total Revenue"; "Customer Count"]) >>
  s <- get summary ;;
  new (pd.sort_values "Total Revenue" s).

(** Lines 234-247. *)
Definition segment_details {np : pd.numpy} (rfm : loc) : M unit :=
  t <- get rfm ;;
  if pd.has_column "Customer_Segment" (pd.columns t) && has_rfm_columns t
  then
    emit (st_header "📋 Segment Summary Table") >>
    summary <- segment_summary rfm ;;
    d <- get summary ;;
    emit (st_dataframe d) >>
    emit (st_markdown "---")
  else ret tt.

(** Lines 250-251. *)
Definition raw_data_sample (rfm_filtered : loc) : M unit :=
  emit (st_header "📄 Raw Data Sample") >>
  f <- get rfm_filtered ;;
  emit (st_dataframe (pd.head 20 f)).

(** Lines 254-256. *)
Definition footer : M unit :=
  emit (st_markdown "---") >>
  emit (st_markdown "**Created by:** Your Name | **Data Source:** UCI Online Retail Dataset") >>
  emit (st_markdown "**Tech Stack:** Python, Pandas, Scikit-learn, Plotly, Streamlit").

(** Lines 46-256: the page for loaded tables. *)
Definition render {np : pd.numpy} (rfm df : loc) (choice : value) : M unit :=
  debug_info rfm >>
  sel <- rfm_filtered rfm choice ;;
  key_metrics (fst sel) >>
  segment_distribution rfm >>
  rfm_analysis rfm (fst sel) >>
  revenue_analysis rfm >>
  distributions (fst sel) >>
  segment_details rfm >>
  raw_data_sample (fst sel) >>
  footer.

(** The whole script. *)
Definition dashboard {np : pd.numpy} (fs : pd.filesystem) (parse : pd.date_parser) (choice : value)
  : M unit :=
  banner >>
  loaded <- load_data fs parse ;;
  match loaded with
  | (Some rfm, Some df) => render rfm df choice
  | _ => emit (st_error "❌ Could not load data files. Please check that 'rfm_analysis.csv' and 'cleaned_online_retail.csv' exist in the 'data' folder.")
  end.

(** ** Vocabulary of the properties *)

(** The value of column [c] in row [r] of table [T]. *)
Definition field (c : string) (T : DataFrame) (r : row) : value :=
  match pd.position c (pd.columns T) with
  | Some i => pd.at_col i r
  | None => NaN
  end.

Definition segment : DataFrame -> row -> value := field "Customer_Segment".

(** The order that a sort by [before] establishes. *)
Definition sorted_by {A : Type} (before : A -> A -> bool) (x y : A) : Prop :=
  before x y = true.

(** [value_ge a b]: [a] is not below [b], missing values being lowest. *)
Definition value_ge (a b : value) : Prop := pd.desc_before a b = true.


(** The data frame that a computation returns: the object at the
    returned location, or the exception raised. *)
Definition outcome (rw : result loc * world) : result DataFrame :=
  match fst rw with
  | Ok l =>
      match heap (snd rw) !! l with
      | Some d => Ok d
      | None => Raise NameError
      end
  | Raise e => Raise e
  end.

(** What a run from [w] to [w'] has added to the page. *)
Definition rendered (w w' : world) : list widget :=
  drop (length (page w)) (page w').

(** The columns that the script aggregates have a numeric dtype when the
    table has them. *)
Definition rfm_typed (T : DataFrame) : Prop :=
  forall c, In c rfm_columns ->
    pd.has_column c (pd.columns T) = true -> pd.dtype_of c T = Some Numeric.

(** A column that pandas adds up and averages: a column of numbers, or
    a column of a table without rows that pandas has read from a file
    with a header only, where no dtype can be inferred and every column
    has the dtype object. *)
Definition addable (c : string) (T : DataFrame) : Prop :=
  pd.dtype_of c T = Some Numeric \/ (pd.dtype_of c T = Some Object /\ rows T = []).

(** The columns that the script aggregates can be added up when the
    table has them. *)
Definition rfm_data (T : DataFrame) : Prop :=
  forall c, In c rfm_columns -> pd.has_column c (pd.columns T) = true -> addable c T.

(** The distinct segment values of a table, as the select box lists them
    after its first entry. *)
Definition segments (T : DataFrame) : list value :=
  pd.unique (map (segment T) (rows T)).

(** The table that the sidebar filter yields for a selection, and its
    number of rows. *)
Definition filter_by_segment (w : world) (rfm : loc) (selection : value) : option DataFrame :=
  match rfm_filtered rfm selection w with
  | (Ok (f, _), w') => heap w' !! f
  | (Raise _, _) => None
  end.

Definition count_rows (t : option DataFrame) : nat :=
  match t with
  | Some F => pd.len F
  | None => 0
  end.

(** ** Example tables *)

Definition rfm_schema : list (string * dtype) :=
  [("CustomerID", Numeric); ("Recency", Numeric); ("Frequency", Numeric);
   ("Monetary", Numeric); ("Customer_Segment", Object)].

(** Three customers in two segments. *)
Definition example_rfm : DataFrame :=
  Frame None Numeric rfm_schema
    [Row (Num 0) [Num 1; Num 10; Num 2; Num 100; Str "A"];
     Row (Num 1) [Num 2; Num 5; Num 1; Num 50; Str "B"];
     Row (Num 2) [Num 3; Num 20; Num 5; Num 300; Str "A"]].

(** The same customers, the second one without a segment. *)
Definition example_unsegmented : DataFrame :=
  Frame None Numeric rfm_schema
    [Row (Num 0) [Num 1; Num 10; Num 2; Num 100; Str "A"];
     Row (Num 1) [Num 2; Num 5; Num 1; Num 50; NaN];
     Row (Num 2) [Num 3; Num 20; Num 5; Num 300; Str "A"]].

Definition world_of (T : DataFrame) : world := World [T] [].

(** A count read back from a cell, and the counts of a table with a
    column "Count" added up. *)
Definition as_count (v : value) : nat :=
  match v with
  | Num q => Z.to_nat (Qfloor q)
  | _ => 0
  end.

Definition total_count (D : DataFrame) : nat :=
  sum_list (map (fun r => as_count (field "Count" D r)) (rows D)).

(** ** The derived tables, for a table with the segments in column [i]
    and the monetary values in column [m] *)

(** The revenue of the groups, before sorting. *)
Definition revenue_items {np : pd.numpy} (i m : nat) (T : DataFrame) : list (value * value) :=
  map (fun k => (k, Num (pd.group_sum_of
                           (map (pd.at_col m)
                              (List.filter (fun r => pd.same_key k (pd.at_col i r)) (rows T))))))
    (pd.stable_sort pd.value_leb
       (pd.unique (List.filter pd.notna (map (pd.at_col i) (rows T))))).

Definition revenue_frame {np : pd.numpy} (i m : nat) (T : DataFrame) : DataFrame :=
  Frame None Numeric [("Segment", pd.dtype_at i T); ("Revenue", pd.dtype_at m T)]
    (pd.indexed (fun j kv => Row (pd.of_nat j) [fst kv; snd kv]) 0
       (pd.stable_sort (fun a b => pd.desc_before (snd a) (snd b))
          (pd.visit_items (revenue_items i m T)))).

(** The rows that [nlargest] selects. *)
Definition largest_rows (n m : nat) (T : DataFrame) : list row :=
  firstn n (pd.sort_rows m (rows T)).

Definition customer_labels (n : nat) : list value :=
  map (fun i => Str (String.append "Customer " (str (i + 1)))) (seq 0 n).

Definition top_frame (n m : nat) (T : DataFrame) : DataFrame :=
  let d := pd.indexed (fun i r => Row (pd.of_nat i) [pd.at_col m r]) 0 (largest_rows n m T) in
  Frame None Numeric [("Monetary", Numeric); ("Customer", Object)]
    (map (fun rv => Row (label (fst rv)) (cells (fst rv) ++ [snd rv]))
       (combine d (customer_labels (length d)))).

(** The values of column [c] of a table. *)
Definition column (c : string) (T : DataFrame) : list value :=
  map (field c T) (rows T).

(** The metrics shown for a table. *)
Definition recency_metric {np : pd.numpy} (F : DataFrame) : widget :=
  if pd.has_column "Recency" (pd.columns F)
  then st_metric "Avg Recency (Days)" (Fixed1 (pd.mean (column "Recency" F)))
  else st_metric "Avg Recency" (Text "N/A").

Definition frequency_metric {np : pd.numpy} (F : DataFrame) : widget :=
  if pd.has_column "Frequency" (pd.columns F)
  then st_metric "Avg Frequency" (Fixed1 (pd.mean (column "Frequency" F)))
  else st_metric "Avg Frequency" (Text "N/A").

Definition revenue_metric {np : pd.numpy} (F : DataFrame) : widget :=
  if pd.has_column "Monetary" (pd.columns F)
  then st_metric "Total Revenue" (Dollars (pd.sum (column "Monetary" F)))
  else st_metric "Total Revenue" (Text "N/A").

(** A table without rows. *)
Definition example_empty : DataFrame := Frame None Numeric rfm_schema [].

(** The worlds reached from a heap [h0]: the objects of [h0] are as they
    were, objects may have been added, and the page satisfies [P]. *)
Definition inv (h0 : list DataFrame) (P : list widget -> Prop) (w : world) : Prop :=
  (exists hs, heap w = h0 ++ hs) /\ P (page w).

(** [keeps h0 P m Q]: the computation [m] stays within these worlds, and
    a value that it returns satisfies [Q]. *)
Definition keeps {A : Type} (h0 : list DataFrame) (P : list widget -> Prop)
    (m : M A) (Q : A -> Prop) : Prop :=
  forall w, inv h0 P w ->
    inv h0 P (snd (m w)) /\ forall a, fst (m w) = Ok a -> Q a.

(** The failures of loading: a file is missing, the RFM file has no
    columns, the transactions have no column "InvoiceDate", or one of
    their records has a date that does not parse in the format of the
    column. *)
Inductive load_failure (fs : pd.filesystem) (parse : pd.date_parser) : Prop :=
| rfm_file_missing :
    fs rfm_path = None -> load_failure fs parse
| rfm_file_without_columns (f : pd.csv) :
    fs rfm_path = Some f -> pd.header f = [] -> load_failure fs parse
| transactions_file_missing :
    fs transactions_path = None -> load_failure fs parse
| invoice_date_column_missing (tx : pd.csv) :
    fs transactions_path = Some tx ->
    pd.position "InvoiceDate" (map fst (pd.header tx)) = None ->
    load_failure fs parse
| invoice_date_unparseable (tx : pd.csv) (i : nat) (record : list value) (text : string) :
    fs transactions_path = Some tx ->
    pd.position "InvoiceDate" (map fst (pd.header tx)) = Some i ->
    In record (pd.records tx) ->
    nth i record NaN = Str text ->
    pd.reader parse (map (fun r => nth i r NaN) (pd.records tx)) text = None ->
    load_failure fs parse.

(** Example files: the three customers, saved with their index, and two
    invoices; in [bad_files] the date of the second invoice is damaged. *)
Definition example_rfm_csv : pd.csv :=
  pd.Csv [("Unnamed: 0", Numeric); ("Recency", Numeric); ("Frequency", Numeric);
          ("Monetary", Numeric); ("Customer_Segment", Object)]
    [[Num 1; Num 10; Num 2; Num 100; Str "A"];
     [Num 2; Num 5; Num 1; Num 50; Str "B"];
     [Num 3; Num 20; Num 5; Num 300; Str "A"]]
    None.

Definition example_transactions_csv (second_date : string) : pd.csv :=
  pd.Csv [("InvoiceNo", Numeric); ("InvoiceDate", Object)]
    [[Num 536365; Str "2010-12-01 08:26:00"];
     [Num 536366; Str second_date]]
    None.

Definition files (second_date : string) : pd.filesystem :=
  fun path =>
    if String.eqb path rfm_path then Some example_rfm_csv
    else if String.eqb path transactions_path
         then Some (example_transactions_csv second_date)
         else None.

Definition good_files : pd.filesystem := files "2010-12-01 08:28:00".
Definition bad_files : pd.filesystem := files "2010-13-45".

(** A date parser for the examples: the length of a text stands for its
    format and for the time, so a text is a date in the format of the
    first one when it is as long. *)
Definition example_parse : pd.date_parser :=
  fun first text =>
    if Nat.eqb (String.length text) (String.length first)
    then Some (Z.of_nat (String.length text))
    else None.

Definition empty_world : world := World [] [].

(** [shows rfm f T F m ws]: in every world that holds the table [T] at
    [rfm] and the table [F] at [f], the block [m] succeeds, adds the
    widgets [ws] to the page and leaves the objects of the heap as they
    are. *)
Definition shows (rfm f : loc) (T F : DataFrame) (m : M unit) (ws : list widget) : Prop :=
  forall w, heap w !! rfm = Some T -> heap w !! f = Some F ->
    exists hs, m w = (Ok tt, World (heap w ++ hs) (page w ++ ws)).

(** The view of a table for a selection: the table itself for "All" or
    without a segment column, else the rows of the selected segment. *)
Definition selected_view (T : DataFrame) (choice : value) : DataFrame :=
  if pd.has_column "Customer_Segment" (pd.columns T) && negb (pd.value_eqb choice (Str "All"))
  then Frame (index_name T) (index_dtype T) (schema T)
         (List.filter (fun r => pd.value_eqb (segment T r) choice) (rows T))
  else T.

(** The aggregates on a page: the charts of the segment counts, of the
    mean RFM values, of the revenue by segment and of the top customers,
    and the table under the header of the segment summary.
    [in_summary] tells whether the last header was that one. *)
Definition aggregate_title (title : string) : bool :=
  pd.has_column title
    ["Customer Count by Segment"; "Segment Distribution (%)";
     "Average RFM Values by Segment"; "Total Revenue by Segment";
     "Top 10 Customers by Revenue"].

Fixpoint aggregates (in_summary : bool) (shown : list widget) : list widget :=
  match shown with
  | [] => []
  | st_header h :: rest => aggregates (String.eqb h "📋 Segment Summary Table") rest
  | st_plotly_chart k title d :: rest =>
      if aggregate_title title
      then st_plotly_chart k title d :: aggregates in_summary rest
      else aggregates in_summary rest
  | st_dataframe d :: rest =>
      if in_summary
      then st_dataframe d :: aggregates in_summary rest
      else aggregates in_summary rest
  | _ :: rest => aggregates in_summary rest
  end.

(** Whether the last header of the widgets shown is the one of the
    segment summary. *)
Fixpoint summary_open (in_summary : bool) (shown : list widget) : bool :=
  match shown with
  | [] => in_summary
  | st_header h :: rest => summary_open (String.eqb h "📋 Segment Summary Table") rest
  | _ :: rest => summary_open in_summary rest
  end.

(** Two pieces of a page that show the same aggregates, wherever they
    stand on the page. *)
Definition same_aggregates (l1 l2 : list widget) : Prop :=
  forall st, aggregates st l1 = aggregates st l2 /\ summary_open st l1 = summary_open st l2.

(** The widgets of the sidebar. *)
Definition sidebar_widgets (T : DataFrame) : list widget :=
  st_sidebar_header "🔍 Filters" ::
  (if pd.has_column "Customer_Segment" (pd.columns T)
   then [st_sidebar_selectbox "Select Customer Segment" (Str "All" :: segments T)]
   else [st_warning "Customer_Segment column not found. Showing all data."]).

(** The page for a table [T] and the view [F] of the selection, given
    the widgets of the four blocks that aggregate the whole table: first
    the debug information and the sidebar, then the blocks. *)
Definition page_head (T : DataFrame) : list widget :=
  [st_write_columns (pd.columns T);
   st_write_shape (pd.len T) (length (pd.columns T));
   st_write_frame (pd.head 1 T)] ++
  sidebar_widgets T.

Definition page_body {np : pd.numpy} (T F : DataFrame) (counts heat revenue summary : list widget)
  : list widget :=
  [st_header "📈 Key Metrics";
   st_metric "Total Customers" (Grouped (pd.len F));
   recency_metric F; frequency_metric F; revenue_metric F;
   st_markdown "---"] ++
  counts ++
  (if has_rfm_columns T
   then [st_header "🔍 RFM Analysis"] ++ heat ++
        [st_plotly_chart (Scatter3d (pd.has_column "Customer_Segment" (pd.columns T)))
           "3D RFM Visualization" F;
         st_markdown "---"]
   else []) ++
  revenue ++
  (if has_rfm_columns F
   then [st_header "📊 RFM Distributions";
         st_plotly_chart (Histogram "Recency") "Recency Distribution" F;
         st_plotly_chart (Histogram "Frequency") "Frequency Distribution" F;
         st_plotly_chart (Histogram "Monetary") "Monetary Distribution" F;
         st_markdown "---"]
   else []) ++
  summary ++
  [st_header "📄 Raw Data Sample"; st_dataframe (pd.head 20 F)] ++
  [st_markdown "---";
   st_markdown "**Created by:** Your Name | **Data Source:** UCI Online Retail Dataset";
   st_markdown "**Tech Stack:** Python, Pandas, Scikit-learn, Plotly, Streamlit"].

Definition layout {np : pd.numpy} (T F : DataFrame) (counts heat revenue summary : list widget)
  : list widget :=
  page_head T ++ page_body T F counts heat revenue summary.

(** The table as read from the file. *)
Definition file_table (f : pd.csv) : DataFrame :=
  Frame None (pd.index_dtype_of f) (pd.header f)
    (pd.indexed (fun i r => Row (pd.label_at f i) r) 0 (pd.records f)).

(** The example files with another RFM file. *)
Definition with_rfm (f : pd.csv) : pd.filesystem :=
  fun path => if String.eqb path rfm_path then Some f else good_files path.

(** RFM files: saved with the customers' identifiers as an index
    without a name, so that the lines have one field more than the
    header; saved without an index; with a labelled identifier; with a
    column "index" that is not the first; and with the columns "index"
    and "level_0". *)
Definition indexed_csv : pd.csv :=
  pd.Csv [("Recency", Numeric); ("Monetary", Numeric)]
    [[Num 10; Num 100]; [Num 5; Num 50]]
    (Some (Numeric, [Num 17850; Num 13047])).

Definition unlabelled_csv : pd.csv :=
  pd.Csv [("Recency", Numeric); ("Monetary", Numeric)]
    [[Num 10; Num 100]; [Num 5; Num 50]]
    None.

Definition labelled_csv : pd.csv :=
  pd.Csv [("Recency", Numeric); ("CustomerID", Numeric)]
    [[Num 10; Num 17850]; [Num 5; Num 13047]]
    None.

Definition index_inside_csv : pd.csv :=
  pd.Csv [("Recency", Numeric); ("index", Numeric)]
    [[Num 10; Num 17850]; [Num 5; Num 13047]]
    None.

Definition index_clash_csv : pd.csv :=
  pd.Csv [("Recency", Numeric); ("index", Numeric); ("level_0", Numeric)]
    [[Num 10; Num 17850; Num 0]; [Num 5; Num 13047; Num 1]]
    None.

(** The timestamp that [pd.to_datetime] makes of a cell whose text
    [read] reads: numbers count from the epoch, cut to an integer; a
    missing value stays missing. *)
Definition to_stamp (read : string -> option Z) (v : value) : value :=
  match v with
  | Str s => match read s with Some t => Stamp t | None => NaN end
  | Num q => Stamp (pd.truncate q)
  | Stamp t => Stamp t
  | NaN => NaN
  end.

(** The reading of the dates in column [i] of a file: every text is
    read in the format of the first text of the column. *)
Definition date_reader (parse : pd.date_parser) (tx : pd.csv) (i : nat) : string -> option Z :=
  pd.reader parse (map (fun record => nth i record NaN) (pd.records tx)).

(** The revenue block of a table without a segment column: the chart of
    the top customers alone. *)
Definition top_customers_block (T : DataFrame) : list widget :=
  match pd.position "Monetary" (pd.columns T) with
  | Some m =>
      [st_header "💰 Revenue Analysis";
       st_plotly_chart Bar "Top 10 Customers by Revenue" (top_frame 10 m T);
       st_markdown "---"]
  | None => []
  end.

(** The three customers, without their segments. *)
Definition example_plain : DataFrame :=
  Frame None Numeric
    [("CustomerID", Numeric); ("Recency", Numeric); ("Frequency", Numeric);
     ("Monetary", Numeric)]
    [Row (Num 0) [Num 1; Num 10; Num 2; Num 100];
     Row (Num 1) [Num 2; Num 5; Num 1; Num 50];
     Row (Num 2) [Num 3; Num 20; Num 5; Num 300]].

(** The keys of the groups by the segments in column [i], and the rows of
    the group of key [k]. *)
Definition segment_keys (i : nat) (T : DataFrame) : list value :=
  pd.stable_sort pd.value_leb (pd.unique (List.filter pd.notna (map (pd.at_col i) (rows T)))).

Definition segment_rows (i : nat) (k : value) (T : DataFrame) : list row :=
  List.filter (fun r => pd.same_key k (pd.at_col i r)) (rows T).

(** The table of the mean RFM values by segment, for a table with the
    RFM values in columns [r], [f] and [m]. *)
Definition means_frame {np : pd.numpy} (i r f m : nat) (T : DataFrame) : DataFrame :=
  Frame (Some "Customer_Segment") (pd.dtype_at i T)
    [("Recency", Numeric); ("Frequency", Numeric); ("Monetary", Numeric)]
    (map (fun k =>
            Row k [pd.round2 (pd.group_mean_of Numeric (map (pd.at_col r) (segment_rows i k T)));
                   pd.round2 (pd.group_mean_of Numeric (map (pd.at_col f) (segment_rows i k T)));
                   pd.round2 (pd.group_mean_of Numeric (map (pd.at_col m) (segment_rows i k T)))])
       (segment_keys i T)).

(** The segment summary, before and after it is sorted: the sort visits
    the rows in an order of its own. *)
Definition summary_rows {np : pd.numpy} (i r f m : nat) (T : DataFrame) : list row :=
  map (fun k =>
         Row k [pd.round2 (pd.group_mean_of Numeric (map (pd.at_col r) (segment_rows i k T)));
                pd.round2 (pd.group_mean_of Numeric (map (pd.at_col f) (segment_rows i k T)));
                pd.round2 (pd.group_mean_of Numeric (map (pd.at_col m) (segment_rows i k T)));
                pd.round2 (Num (pd.group_sum_of (map (pd.at_col m) (segment_rows i k T))));
                pd.round2 (pd.of_nat (pd.count (map (pd.at_col m) (segment_rows i k T))))])
    (segment_keys i T).

Definition summary_frame {np : pd.numpy} (i r f m : nat) (T : DataFrame) : DataFrame :=
  Frame (Some "Customer_Segment") (pd.dtype_at i T)
    [("Avg Recency", Numeric); ("Avg Frequency", Numeric); ("Avg Monetary", Numeric);
     ("Total Revenue", Numeric); ("Customer Count", Numeric)]
    (pd.sort_rows 3 (pd.visit_rows 3 (summary_rows i r f m T))).

(** An RFM file with a header and no records, and the table that pandas
    reads from it. *)
Definition header_only_csv : pd.csv :=
  pd.Csv [("CustomerID", Object); ("Recency", Object); ("Frequency", Object);
          ("Monetary", Object); ("Customer_Segment", Object)]
    [] None.

Definition example_header_only : DataFrame :=
  Frame None Numeric
    [("CustomerID", Object); ("Recency", Object); ("Frequency", Object);
     ("Monetary", Object); ("Customer_Segment", Object)]
    [].


(** ** Examples of NumPy's routines *)

(** Rounding to the nearest integer, halves to the even neighbour. *)
Definition rint (q : Q) : Z :=
  let f := Qfloor q in
  match Qcompare (q - inject_Z f)%Q (1 # 2)%Q with
  | Lt => f
  | Gt => (f + 1)%Z
  | Eq => if Z.even f then f else (f + 1)%Z
  end.

Definition exact_sum (p : list Q) : Q := Qred (fold_left Qplus p 0%Q).

Definition exact_mean (p : list Q) : Q :=
  Qred (fold_left Qplus p 0%Q / inject_Z (Z.of_nat (length p)))%Q.

Definition exact_mean_stamps (ts : list Z) : Z :=
  (fold_left Z.add ts 0 / Z.of_nat (length ts))%Z.

Definition exact_round (q : Q) : Q := Qred (inject_Z (rint (q * 100)%Q) / 100)%Q.

(** Exact arithmetic, and a sort that visits the items in their order:
    routines on which the properties can be evaluated.  The sums of the
    small whole numbers of the examples are the sums that NumPy computes;
    a mean is the exact quotient, which NumPy rounds to the nearest
    floating-point number. *)
Definition exact : pd.numpy :=
  {| pd.add_up := exact_sum;
     pd.average := exact_mean;
     pd.average_stamps := exact_mean_stamps;
     pd.group_add_up := exact_sum;
     pd.group_average := exact_mean;
     pd.group_average_stamps := exact_mean_stamps;
     pd.around := exact_round;
     pd.visit_counts := fun l => l;
     pd.visit_items := fun l => l;
     pd.visit_rows := fun _ l => l;
     pd.visit_counts_perm := fun l => Permutation_refl l;
     pd.visit_items_perm := fun l => Permutation_refl l;
     pd.visit_rows_perm := fun _ l => Permutation_refl l |}.


(** * Properties *)

(** ** Stable sorting *)

Section StableSort.
Context {A : Type} (before : A -> A -> bool).


Lemma insert_sorted_perm (x : A) (l : list A) :
  Permutation (pd.insert_sorted before x l) (x :: l).
Proof.
  induction l as [|y t IH]; simpl.
  - reflexivity.
  - destruct (before x y).
    + reflexivity.
    + rewrite IH. apply perm_swap.
Qed.

Lemma stable_sort_perm (l : list A) : Permutation (pd.stable_sort before l) l.
Proof.
  induction l as [|x t IH]; simpl.
  - reflexivity.
  - rewrite insert_sorted_perm. now constructor.
Qed.




Lemma insert_sorted_first (x : A) (l : list A) :
  Forall ((sorted_by before) x) l -> pd.insert_sorted before x l = x :: l.
Proof.
  intros H. destruct l as [|y t]; [reflexivity|].
  inversion H as [|? ? Hy _]; subst. simpl. now rewrite Hy.
Qed.

(** A sorted list is left as it is. *)
Lemma stable_sort_sorted_id (l : list A) :
  StronglySorted (sorted_by before) l -> pd.stable_sort before l = l.
Proof.
  induction 1 as [|x t Hs IH Hx]; simpl.
  - reflexivity.
  - rewrite IH. now apply insert_sorted_first.
Qed.

Hypothesis before_total : forall x y, before x y = true \/ before y x = true.
Hypothesis before_trans :
  forall x y z, before x y = true -> before y z = true -> before x z = true.

Lemma insert_sorted_sorted (x : A) (l : list A) :
  StronglySorted (sorted_by before) l ->
  StronglySorted (sorted_by before) (pd.insert_sorted before x l).
Proof.
  induction 1 as [|y t Hs IH Hy]; simpl.
  - repeat constructor.
  - destruct (before x y) eqn:Hxy.
    + constructor; [now constructor|].
      constructor; [exact Hxy|].
      eapply List.Forall_impl; [|exact Hy]. intros z Hz. eapply before_trans; eauto.
    + constructor; [exact IH|].
      eapply Permutation_Forall; [symmetry; apply insert_sorted_perm|].
      constructor; [|exact Hy].
      destruct (before_total x y) as [H|H]; [congruence|exact H].
Qed.

Lemma stable_sort_sorted (l : list A) :
  StronglySorted (sorted_by before) (pd.stable_sort before l).
Proof.
  induction l as [|x t IH]; simpl.
  - constructor.
  - now apply insert_sorted_sorted.
Qed.

(** Sorting a second time changes nothing. *)
Lemma stable_sort_idempotent (l : list A) :
  pd.stable_sort before (pd.stable_sort before l) = pd.stable_sort before l.
Proof. apply stable_sort_sorted_id, stable_sort_sorted. Qed.



End StableSort.

(** ** The order of values *)

Lemma ascii_compare_lt_trans (x y z : ascii) :
  Ascii.compare x y = Lt -> Ascii.compare y z = Lt -> Ascii.compare x z = Lt.
Proof.
  unfold Ascii.compare. rewrite !N.compare_lt_iff. apply N.lt_trans.
Qed.

Lemma string_leb_trans (a b c : string) :
  String.leb a b = true -> String.leb b c = true -> String.leb a c = true.
Proof.
  unfold String.leb. revert b c.
  induction a as [|x a IH]; intros [|y b] [|z c]; simpl; try easy.
  destruct (Ascii.compare x y) eqn:Hxy; try easy.
  - apply Ascii.compare_eq_iff in Hxy. subst y.
    destruct (Ascii.compare x z) eqn:Hxz; try easy. apply IH.
  - destruct (Ascii.compare y z) eqn:Hyz; try easy.
    + apply Ascii.compare_eq_iff in Hyz. subst z. now rewrite Hxy.
    + now rewrite (ascii_compare_lt_trans x y z Hxy Hyz).
Qed.

Lemma Qle_bool_total (x y : Q) : Qle_bool x y = true \/ Qle_bool y x = true.
Proof.
  rewrite !Qle_bool_iff. destruct (Qlt_le_dec x y) as [H|H].
  - left. now apply Qlt_le_weak.
  - now right.
Qed.

Lemma Qle_bool_trans (x y z : Q) :
  Qle_bool x y = true -> Qle_bool y z = true -> Qle_bool x z = true.
Proof. rewrite !Qle_bool_iff. apply Qle_trans. Qed.

Lemma value_leb_total (a b : value) :
  pd.value_leb a b = true \/ pd.value_leb b a = true.
Proof.
  destruct a, b; simpl; auto using Qle_bool_total, String.leb_total.
  destruct (Z.leb_spec t t0); [now left|right]. apply Z.leb_le. lia.
Qed.

Lemma value_leb_trans (a b c : value) :
  pd.value_leb a b = true -> pd.value_leb b c = true -> pd.value_leb a c = true.
Proof.
  destruct a, b, c; simpl; try easy.
  - apply Qle_bool_trans.
  - apply string_leb_trans.
  - rewrite !Z.leb_le. lia.
Qed.

Lemma desc_before_total (a b : value) :
  pd.desc_before a b = true \/ pd.desc_before b a = true.
Proof.
  destruct (value_leb_total a b) as [H|H];
    destruct a, b; simpl in *; auto; discriminate.
Qed.

Lemma desc_before_trans (a b c : value) :
  pd.desc_before a b = true -> pd.desc_before b c = true -> pd.desc_before a c = true.
Proof.
  intros Hab Hbc.
  destruct c; [| | |now destruct a];
    (destruct b; [| | |now destruct a]);
    (destruct a; [| | |discriminate Hab]);
    match goal with
    | |- pd.desc_before ?x ?z = true =>
        match type of Hab with
        | pd.desc_before _ ?y = true => exact (value_leb_trans z y x Hbc Hab)
        end
    end.
Qed.

(** On numbers the descending order is [>=]. *)
Lemma desc_before_num (x y : Q) :
  pd.desc_before (Num x) (Num y) = true <-> (y <= x)%Q.
Proof. simpl. apply Qle_bool_iff. Qed.

(** ** Steps of the script *)

Lemma bind_get {A : Type} (l : loc) (k : DataFrame -> M A) (w : world) (d : DataFrame) :
  heap w !! l = Some d -> bind (get l) k w = k d w.
Proof. intros H. unfold bind, get. now rewrite H. Qed.

Lemma bind_lift {A B : Type} (r : result A) (k : A -> M B) (w : world) :
  bind (lift r) k w = match r with Ok a => k a w | Raise e => (Raise e, w) end.
Proof. unfold bind, lift. now destruct r. Qed.

Lemma bind_new {A : Type} (r : result DataFrame) (k : loc -> M A) (w : world) :
  bind (new r) k w =
  match r with
  | Ok d => k (length (heap w)) (World (heap w ++ [d]) (page w))
  | Raise e => (Raise e, w)
  end.
Proof. unfold bind, new. now destruct r. Qed.

Lemma bind_emit {A : Type} (x : widget) (k : unit -> M A) (w : world) :
  bind (emit x) k w = k tt (World (heap w) (page w ++ [x])).
Proof. reflexivity. Qed.

Lemma bind_ret {A B : Type} (a : A) (k : A -> M B) (w : world) :
  bind (ret a) k w = k a w.
Proof. reflexivity. Qed.

Lemma bind_update {A : Type} (l : loc) (f : DataFrame -> result DataFrame)
    (k : unit -> M A) (w : world) (d : DataFrame) :
  heap w !! l = Some d ->
  bind (update l f) k w =
  match f d with
  | Ok d' => k tt (World (<[l := d']> (heap w)) (page w))
  | Raise e => (Raise e, w)
  end.
Proof. intros H. unfold bind, update. rewrite H. now destruct (f d). Qed.

Lemma lookup_fresh (h : list DataFrame) (d : DataFrame) :
  (h ++ [d]) !! length h = Some d.
Proof. now apply list_lookup_middle. Qed.

Lemma lookup_kept (h hs : list DataFrame) (l : loc) (d : DataFrame) :
  h !! l = Some d -> (h ++ hs) !! l = Some d.
Proof. apply lookup_app_l_Some. Qed.

Lemma insert_fresh (h : list DataFrame) (d d' : DataFrame) :
  <[length h := d']> (h ++ [d]) = h ++ [d'].
Proof.
  rewrite insert_app_r_alt by lia. now rewrite Nat.sub_diag.
Qed.

Lemma bind_get_fresh {A : Type} (k : DataFrame -> M A)
    (h : list DataFrame) (d : DataFrame) (p : list widget) :
  bind (get (length h)) k (World (h ++ [d]) p) = k d (World (h ++ [d]) p).
Proof. apply bind_get, lookup_fresh. Qed.

Lemma bind_get_kept {A : Type} (l : loc) (k : DataFrame -> M A)
    (h hs : list DataFrame) (d : DataFrame) (p : list widget) :
  h !! l = Some d ->
  bind (get l) k (World (h ++ hs) p) = k d (World (h ++ hs) p).
Proof. intros H. apply bind_get. now apply lookup_kept. Qed.

Lemma bind_update_fresh {A : Type} (f : DataFrame -> result DataFrame)
    (k : unit -> M A) (h : list DataFrame) (d : DataFrame) (p : list widget) :
  bind (update (length h) f) k (World (h ++ [d]) p) =
  match f d with
  | Ok d' => k tt (World (h ++ [d']) p)
  | Raise e => (Raise e, World (h ++ [d]) p)
  end.
Proof.
  rewrite (bind_update _ _ _ _ d) by apply lookup_fresh.
  destruct (f d); [|reflexivity].
  cbn [heap page]. now rewrite insert_fresh.
Qed.

(** ** Columns and masks *)

Lemma has_column_position (c : string) (cols : list string) :
  pd.has_column c cols = true -> exists i, pd.position c cols = Some i.
Proof.
  induction cols as [|x t IH]; simpl; [discriminate|].
  destruct (String.eqb c x); simpl; [eauto|].
  intros H. destruct (IH H) as [i Hi]. rewrite Hi. simpl. eauto.
Qed.

Lemma position_has_column (c : string) (cols : list string) (i : nat) :
  pd.position c cols = Some i -> pd.has_column c cols = true.
Proof.
  revert i. induction cols as [|x t IH]; simpl; [discriminate|]. intros i.
  destruct (String.eqb c x); simpl; [reflexivity|].
  destruct (pd.position c t); simpl; [eauto|discriminate].
Qed.

Lemma position_nth (c : string) (cols : list string) (i : nat) :
  pd.position c cols = Some i -> nth i cols "" = c.
Proof.
  revert i. induction cols as [|x t IH]; simpl; [discriminate|]. intros i.
  destruct (String.eqb_spec c x).
  - intros [= <-]. now subst.
  - destruct (pd.position c t); simpl; [|discriminate].
    intros [= <-]. now apply IH.
Qed.

Lemma select_mask_filter {A : Type} (p : A -> bool) (l : list A) :
  pd.select_mask (map p l) l = List.filter p l.
Proof.
  induction l as [|x t IH]; simpl; [reflexivity|]. now rewrite IH.
Qed.

Lemma getitem_values (T : DataFrame) (c : string) (i : nat) :
  pd.position c (pd.columns T) = Some i ->
  exists s, pd.getitem T c = Ok s /\
            pd.values s = map (pd.at_col i) (rows T) /\
            s_dtype s = pd.dtype_at i T /\
            s_name s = Some c.
Proof.
  intros H. unfold pd.getitem. rewrite H. eexists. split; [reflexivity|].
  unfold pd.values. simpl. rewrite List.map_map. simpl. auto.
Qed.

Lemma getitem_missing (T : DataFrame) (c : string) :
  pd.position c (pd.columns T) = None -> pd.getitem T c = Raise (KeyError c).
Proof. intros H. unfold pd.getitem. now rewrite H. Qed.

Lemma series_eq_mask (s : Series) (T : DataFrame) (i : nat) (v : value) :
  pd.values s = map (pd.at_col i) (rows T) ->
  pd.series_eq s v = map (fun r => pd.value_eqb (pd.at_col i r) v) (rows T).
Proof. intros H. unfold pd.series_eq. now rewrite H, List.map_map. Qed.

Lemma getitem_mask_filter (T : DataFrame) (p : row -> bool) :
  pd.getitem_mask T (map p (rows T)) =
  Ok (Frame (index_name T) (index_dtype T) (schema T) (List.filter p (rows T))).
Proof.
  unfold pd.getitem_mask. rewrite length_map, Nat.eqb_refl.
  now rewrite select_mask_filter.
Qed.

(** ** The sidebar filter *)

(** The rows that the filter keeps for the selection [v]. *)
Lemma rfm_filtered_run (w : world) (rfm : loc) (T : DataFrame) (choice : value) :
  heap w !! rfm = Some T ->
  rfm_filtered rfm choice w =
  let w1 := World (heap w) (page w ++ [st_sidebar_header "🔍 Filters"]) in
  if pd.has_column "Customer_Segment" (pd.columns T)
  then
    let w2 := World (heap w)
                (page w1 ++ [st_sidebar_selectbox "Select Customer Segment"
                               (Str "All" :: pd.unique (map (segment T) (rows T)))]) in
    if pd.value_eqb choice (Str "All")
    then (Ok (rfm, choice), w2)
    else (Ok (length (heap w), choice),
          World (heap w ++ [Frame (index_name T) (index_dtype T) (schema T)
                              (List.filter (fun r => pd.value_eqb (segment T r) choice) (rows T))])
            (page w2))
  else (Ok (rfm, Str "All"),
        World (heap w)
          (page w1 ++ [st_warning "Customer_Segment column not found. Showing all data."])).
Proof.
  intros H. unfold rfm_filtered. rewrite bind_emit.
  rewrite (bind_get _ _ _ T) by exact H.
  destruct (pd.has_column "Customer_Segment" (pd.columns T)) eqn:Hc; [|reflexivity].
  destruct (has_column_position _ _ Hc) as [i Hi].
  destruct (getitem_values T _ i Hi) as (s & Hs & Hv & _).
  rewrite bind_lift, Hs, bind_emit. cbn [heap page].
  assert (Hseg : map (segment T) (rows T) = pd.values s).
  { rewrite Hv. unfold segment, field. now rewrite Hi. }
  rewrite Hseg.
  destruct (pd.value_eqb choice (Str "All")) eqn:Ha; cbn [negb]; [reflexivity|].
  rewrite bind_lift, bind_new.
  rewrite (series_eq_mask s T i choice Hv), getitem_mask_filter.
  cbn [heap page]. unfold ret. repeat f_equal.
  unfold segment, field. now rewrite Hi.
Qed.

(** ** Keys and distinct values *)

Lemma Qeq_bool_sym (x y : Q) : Qeq_bool x y = Qeq_bool y x.
Proof.
  destruct (Qeq_bool x y) eqn:H1, (Qeq_bool y x) eqn:H2; try reflexivity.
  - apply Qeq_bool_iff in H1. symmetry in H1. apply Qeq_bool_iff in H1. congruence.
  - apply Qeq_bool_iff in H2. symmetry in H2. apply Qeq_bool_iff in H2. congruence.
Qed.

Lemma same_key_refl (a : value) : pd.same_key a a = true.
Proof.
  destruct a; simpl; auto using String.eqb_refl, Z.eqb_refl.
  apply Qeq_bool_iff. reflexivity.
Qed.

Lemma same_key_sym (a b : value) : pd.same_key a b = pd.same_key b a.
Proof.
  destruct a, b; simpl; auto using String.eqb_sym, Z.eqb_sym, Qeq_bool_sym.
Qed.

Lemma same_key_trans (a b c : value) :
  pd.same_key a b = true -> pd.same_key b c = true -> pd.same_key a c = true.
Proof.
  destruct a, b, c; simpl; try easy.
  - rewrite !Qeq_bool_iff. apply Qeq_trans.
  - rewrite !String.eqb_eq. congruence.
  - rewrite !Z.eqb_eq. congruence.
Qed.

(** [==] is the identity of keys, except on the missing value. *)
Lemma value_eqb_same_key (a b : value) :
  pd.value_eqb a b = pd.notna b && pd.same_key a b.
Proof. destruct a, b; reflexivity. Qed.

Lemma value_eqb_all (v : value) : pd.value_eqb v (Str "All") = true <-> v = Str "All".
Proof.
  destruct v; simpl; try easy. rewrite String.eqb_eq. split; congruence.
Qed.

(** Counting pairs by rows or by columns. *)
Lemma double_count {A B : Type} (rel : A -> B -> bool) (ks : list A) (vs : list B) :
  sum_list (map (fun k => length (List.filter (fun v => rel k v) vs)) ks) =
  sum_list (map (fun v => length (List.filter (fun k => rel k v) ks)) vs).
Proof.
  induction ks as [|k ks IH]; simpl.
  - induction vs as [|v vs IHv]; simpl; [reflexivity|]. now rewrite <- IHv.
  - rewrite IH. clear IH. induction vs as [|v vs IHv]; simpl; [reflexivity|].
    destruct (rel k v); simpl; lia.
Qed.

Lemma filter_none {A : Type} (p : A -> bool) (l : list A) :
  (forall x, In x l -> p x = false) -> List.filter p l = [].
Proof.
  induction l as [|x t IH]; simpl; intros H; [reflexivity|].
  rewrite (H x) by auto. apply IH. auto.
Qed.

Lemma filter_filter_same {A : Type} (p q : A -> bool) (l : list A) :
  (forall x, p x = true -> q x = true) ->
  List.filter p (List.filter q l) = List.filter p l.
Proof.
  intros H. induction l as [|x t IH]; simpl; [reflexivity|].
  destruct (q x) eqn:Hq; simpl.
  - now rewrite IH.
  - destruct (p x) eqn:Hp; [|exact IH]. rewrite (H x Hp) in Hq. discriminate.
Qed.

(** Every value of a list has exactly one key among its distinct values. *)
Lemma unique_one_key (l : list value) (v : value) :
  In v l -> length (List.filter (fun k => pd.same_key k v) (pd.unique l)) = 1.
Proof.
  induction l as [|x t IH]; [easy|]. intros Hin. cbn [pd.unique List.filter].
  destruct (pd.same_key x v) eqn:Hxv.
  - cbn [length]. f_equal. rewrite filter_none; [reflexivity|].
    intros k Hk. apply List.filter_In in Hk as [_ Hk].
    destruct (pd.same_key k v) eqn:Hkv; [|reflexivity].
    rewrite (same_key_trans x v k Hxv) in Hk; [discriminate|].
    now rewrite same_key_sym.
  - destruct Hin as [->|Hin]; [now rewrite same_key_refl in Hxv|].
    rewrite filter_filter_same; [now apply IH|].
    intros k Hk. destruct (pd.same_key x k) eqn:Hxk; [|reflexivity].
    now rewrite (same_key_trans x k v Hxk Hk) in Hxv.
Qed.

Lemma unique_subset (l : list value) (k : value) : In k (pd.unique l) -> In k l.
Proof.
  revert k. induction l as [|x t IH]; simpl; [easy|]. intros k [->|H]; [auto|].
  apply List.filter_In in H as [H _]. auto.
Qed.

(** The distinct values [==] to a given value: one if it is present,
    none if it is missing. *)
Lemma unique_one_equal (l : list value) (v : value) :
  In v l ->
  length (List.filter (fun k => pd.value_eqb v k) (pd.unique l)) =
  if pd.notna v then 1 else 0.
Proof.
  intros Hin. destruct v; cbn [pd.notna pd.is_nan negb];
    try (rewrite <- (unique_one_key l _ Hin); f_equal;
         apply List.filter_ext; intros k; now destruct k;
           simpl; auto using String.eqb_sym, Z.eqb_sym, Qeq_bool_sym).
  rewrite filter_none; [reflexivity|]. now intros [].
Qed.

Lemma sum_list_ext {A : Type} (f g : A -> nat) (l : list A) :
  (forall x, In x l -> f x = g x) -> sum_list (map f l) = sum_list (map g l).
Proof.
  induction l as [|x t IH]; simpl; intros H; [reflexivity|].
  rewrite (H x), IH; auto.
Qed.

Lemma sum_list_indicator {A : Type} (p : A -> bool) (l : list A) :
  sum_list (map (fun x => if p x then 1 else 0) l) = length (List.filter p l).
Proof.
  induction l as [|x t IH]; simpl; [reflexivity|].
  rewrite IH. now destruct (p x).
Qed.

(** The selections [==] to the distinct values of a column cover every
    row with a value exactly once, and no row without one. *)
Lemma equal_classes_partition (l : list value) :
  sum_list (map (fun k => length (List.filter (fun v => pd.value_eqb v k) l)) (pd.unique l)) =
  length (List.filter pd.notna l).
Proof.
  rewrite (double_count (fun k v => pd.value_eqb v k)).
  rewrite (sum_list_ext _ (fun v => if pd.notna v then 1 else 0)).
  - apply sum_list_indicator.
  - intros v Hv. now apply unique_one_equal.
Qed.

(** ** The filtered view *)

Lemma filter_map_length {A B : Type} (f : A -> B) (p : B -> bool) (l : list A) :
  length (List.filter (fun x => p (f x)) l) = length (List.filter p (map f l)).
Proof.
  induction l as [|x t IH]; simpl; [reflexivity|].
  destruct (p (f x)); simpl; now rewrite IH.
Qed.

Lemma filter_notna_all {A : Type} (f : A -> value) (l : list A) :
  (forall r, In r l -> f r <> NaN) ->
  length (List.filter (fun r => pd.notna (f r)) l) = length l.
Proof.
  induction l as [|r t IH]; intros H; simpl; [reflexivity|].
  destruct (f r) eqn:Hr; simpl;
    try (f_equal; apply IH; intros; apply H; now right).
  exfalso. exact (H r (or_introl eq_refl) Hr).
Qed.

Lemma filter_by_segment_rows (w : world) (rfm : loc) (T : DataFrame) (s : value) :
  heap w !! rfm = Some T ->
  pd.has_column "Customer_Segment" (pd.columns T) = true ->
  pd.value_eqb s (Str "All") = false ->
  filter_by_segment w rfm s =
  Some (Frame (index_name T) (index_dtype T) (schema T)
          (List.filter (fun r => pd.value_eqb (segment T r) s) (rows T))).
Proof.
  intros H Hc Hs. unfold filter_by_segment.
  rewrite (rfm_filtered_run w rfm T s H). cbn zeta. rewrite Hc, Hs.
  cbn [heap]. apply lookup_fresh.
Qed.

(** C6. The filter hands on the selection it is given (and "All" when
    the table has no segment column, where nothing can be selected).  For
    the selection "All", and for a table without a segment column, it is
    the identity: the view is the loaded table itself, with as many rows,
    and no table is made.  For any other selection the view is a new
    table with the rows whose segment equals the selection, in their
    original order, under the same index and columns. *)
Theorem filter_by_segment_all_is_identity_else_subsequence
    (w : world) (rfm : loc) (T : DataFrame) (choice : value) :
  heap w !! rfm = Some T ->
  exists (f : loc) (w' : world) (F : DataFrame),
    rfm_filtered rfm choice w =
      (Ok (f, if pd.has_column "Customer_Segment" (pd.columns T) then choice else Str "All"),
       w') /\
    heap w' !! f = Some F /\
    heap w' !! rfm = Some T /\
    (choice = Str "All" \/ pd.has_column "Customer_Segment" (pd.columns T) = false ->
       f = rfm /\ F = T /\ pd.len F = pd.len T /\ heap w' = heap w) /\
    (choice <> Str "All" -> pd.has_column "Customer_Segment" (pd.columns T) = true ->
       f = length (heap w) /\
       index_name F = index_name T /\ index_dtype F = index_dtype T /\
       schema F = schema T /\
       rows F = List.filter (fun r => pd.value_eqb (segment T r) choice) (rows T)).
Proof.
  intros H. rewrite (rfm_filtered_run w rfm T choice H). cbn zeta.
  destruct (pd.has_column "Customer_Segment" (pd.columns T)).
  - destruct (pd.value_eqb choice (Str "All")) eqn:Ha.
    + apply value_eqb_all in Ha. subst choice.
      exists rfm. eexists. exists T.
      repeat split; auto; congruence.
    + do 3 eexists. split; [reflexivity|]. split; [apply lookup_fresh|].
      split; [cbn [heap]; now apply lookup_app_l_Some|]. split.
      * intros [->|Hn]; discriminate.
      * intros _ _. repeat split.
  - exists rfm. eexists. exists T.
    repeat split; auto; congruence.
Qed.

Lemma filter_by_segment_all_is_identity_else_subsequence_witness :
  exists (f : loc) (w' : world) (F : DataFrame),
    rfm_filtered 0 (Str "A") (world_of example_rfm) =
      (Ok (f, if pd.has_column "Customer_Segment" (pd.columns example_rfm)
              then Str "A" else Str "All"),
       w') /\
    heap w' !! f = Some F /\
    heap w' !! 0 = Some example_rfm /\
    (Str "A" = Str "All" \/
     pd.has_column "Customer_Segment" (pd.columns example_rfm) = false ->
       f = 0 /\ F = example_rfm /\ pd.len F = pd.len example_rfm /\
       heap w' = heap (world_of example_rfm)) /\
    (Str "A" <> Str "All" ->
     pd.has_column "Customer_Segment" (pd.columns example_rfm) = true ->
       f = length (heap (world_of example_rfm)) /\
       index_name F = index_name example_rfm /\ index_dtype F = index_dtype example_rfm /\
       schema F = schema example_rfm /\
       rows F = List.filter (fun r => pd.value_eqb (segment example_rfm r) (Str "A"))
                  (rows example_rfm)).
Proof.
  exact (filter_by_segment_all_is_identity_else_subsequence
           (world_of example_rfm) 0 example_rfm (Str "A") eq_refl).
Defined.

(** The view of segment "A" of the three customers: the first and the
    third, in that order. *)
Example view_of_segment_A :
  exists w',
    rfm_filtered 0 (Str "A") (world_of example_rfm) = (Ok (1, Str "A"), w') /\
    heap w' !! 1 = Some (Frame None Numeric rfm_schema
                           [nth 0 (rows example_rfm) (Row NaN []);
                            nth 2 (rows example_rfm) (Row NaN [])]).
Proof. eexists. split; vm_compute; reflexivity. Qed.

(** C5, as the specification states it, fails: a row without a segment is
    in no filtered view, so the views of the distinct segment values hold
    two of the three rows of [example_unsegmented]. *)
Lemma segment_views_miss_unsegmented_rows :
  sum_list (map (fun s => count_rows (filter_by_segment (world_of example_unsegmented) 0 s))
              (segments example_unsegmented)) <>
  pd.len example_unsegmented.
Proof. vm_compute. discriminate. Qed.

(** C5, amended.  In a table with a segment column where no segment is
    the text "All", the sizes of the views for the distinct segment
    values add up to the number of rows that have a segment; that is the
    number of all rows when no segment is missing. *)
Theorem segment_views_partition_segmented_rows
    (w : world) (rfm : loc) (T : DataFrame) :
  heap w !! rfm = Some T ->
  pd.has_column "Customer_Segment" (pd.columns T) = true ->
  (forall r, In r (rows T) -> segment T r <> Str "All") ->
  sum_list (map (fun s => count_rows (filter_by_segment w rfm s)) (segments T)) =
    length (List.filter (fun r => pd.notna (segment T r)) (rows T)) /\
  ((forall r, In r (rows T) -> segment T r <> NaN) ->
   sum_list (map (fun s => count_rows (filter_by_segment w rfm s)) (segments T)) =
     pd.len T).
Proof.
  intros H Hc Hall.
  assert (E : sum_list (map (fun s => count_rows (filter_by_segment w rfm s)) (segments T)) =
              length (List.filter (fun r => pd.notna (segment T r)) (rows T))).
  { rewrite (filter_map_length (segment T) pd.notna).
    rewrite <- equal_classes_partition. apply sum_list_ext.
    intros s Hs. apply unique_subset, in_map_iff in Hs as (r & <- & Hr).
    rewrite (filter_by_segment_rows w rfm T _ H Hc).
    - cbn [count_rows pd.len rows].
      apply (filter_map_length (segment T) (fun v => pd.value_eqb v (segment T r))).
    - destruct (pd.value_eqb (segment T r) (Str "All")) eqn:Ha; [|reflexivity].
      apply value_eqb_all in Ha. now apply Hall in Ha. }
  split; [exact E|].
  intros Hna. rewrite E. now apply filter_notna_all.
Qed.

Lemma segment_views_partition_segmented_rows_witness :
  sum_list (map (fun s => count_rows (filter_by_segment (world_of example_rfm) 0 s))
              (segments example_rfm)) =
    length (List.filter (fun r => pd.notna (segment example_rfm r)) (rows example_rfm)) /\
  ((forall r, In r (rows example_rfm) -> segment example_rfm r <> NaN) ->
   sum_list (map (fun s => count_rows (filter_by_segment (world_of example_rfm) 0 s))
               (segments example_rfm)) =
     pd.len example_rfm).
Proof.
  apply (segment_views_partition_segmented_rows (world_of example_rfm) 0 example_rfm).
  - reflexivity.
  - reflexivity.
  - intros r Hr. simpl in Hr. intuition (subst; discriminate).
Defined.

(** ** Counting customers by segment *)

Lemma indexed_map {A B C : Type} (f : nat -> B -> C) (g : A -> B) (i : nat) (l : list A) :
  pd.indexed f i (map g l) = pd.indexed (fun j x => f j (g x)) i l.
Proof.
  revert i. induction l as [|x t IH]; intros i; simpl; [reflexivity|].
  now rewrite IH.
Qed.

Lemma map_indexed {A B C : Type} (g : B -> C) (f : nat -> A -> B) (h : A -> C)
    (i : nat) (l : list A) :
  (forall j x, g (f j x) = h x) -> map g (pd.indexed f i l) = map h l.
Proof.
  intros H. revert i. induction l as [|x t IH]; intros i; simpl; [reflexivity|].
  now rewrite H, IH.
Qed.

Lemma indexed_length {A B : Type} (f : nat -> A -> B) (i : nat) (l : list A) :
  length (pd.indexed f i l) = length l.
Proof.
  revert i. induction l as [|x t IH]; intros i; simpl; [reflexivity|].
  now rewrite IH.
Qed.

Lemma indexed_in {A B : Type} (f : nat -> A -> B) (i : nat) (l : list A) (e : B) :
  In e (pd.indexed f i l) -> exists j x, In x l /\ e = f j x.
Proof.
  revert i. induction l as [|x t IH]; intros i; simpl; [easy|].
  intros [<-|He].
  - exists i, x. auto.
  - destruct (IH _ He) as (j & y & Hy & ->). exists j, y. auto.
Qed.

Lemma field_of_counts (d : dtype) (rs : list row) (j k n : value) :
  field "Segment" (Frame None Numeric [("Segment", d); ("Count", Numeric)] rs) (Row j [k; n]) = k /\
  field "Count" (Frame None Numeric [("Segment", d); ("Count", Numeric)] rs) (Row j [k; n]) = n.
Proof. split; reflexivity. Qed.

(** The table of counts that the script builds from column [i]. *)
Lemma segment_counts_run {np : pd.numpy} (w : world) (rfm : loc) (T : DataFrame) (i : nat) :
  heap w !! rfm = Some T ->
  pd.position "Customer_Segment" (pd.columns T) = Some i ->
  segment_counts rfm w =
  (Ok (length (heap w)),
   World (heap w ++
            [Frame None Numeric [("Segment", pd.dtype_at i T); ("Count", Numeric)]
               (pd.indexed (fun j kc => Row (pd.of_nat j) [fst kc; pd.of_nat (snd kc)]) 0
                  (pd.tally (map (pd.at_col i) (rows T))))])
     (page w)).
Proof.
  intros H Hi. unfold segment_counts.
  rewrite (bind_get _ _ _ T) by exact H.
  destruct (getitem_values T _ i Hi) as (s & Hs & Hv & Hd & Hn).
  rewrite bind_new, Hs. cbn [rbind].
  unfold pd.series_reset_index, pd.value_counts. cbn [s_index_name s_name s_dtype s_index_dtype items].
  rewrite Hn, Hd, Hv. cbn [String.eqb Ascii.eqb Bool.eqb].
  rewrite bind_update_fresh.
  unfold pd.set_columns. cbn [schema length Nat.eqb combine map fst snd rows index_name index_dtype].
  rewrite indexed_map. reflexivity.
Qed.

Lemma as_count_of_nat (n : nat) : as_count (pd.of_nat n) = n.
Proof. unfold as_count, pd.of_nat. now rewrite Qfloor_Z, Nat2Z.id. Qed.

Lemma sum_list_perm {A : Type} (f : A -> nat) (l l' : list A) :
  Permutation l l' -> sum_list (map f l) = sum_list (map f l').
Proof.
  induction 1; simpl; lia.
Qed.

Lemma filter_comm {A : Type} (p q : A -> bool) (l : list A) :
  List.filter p (List.filter q l) = List.filter q (List.filter p l).
Proof.
  induction l as [|x t IH]; [reflexivity|]. cbn [List.filter].
  destruct (p x) eqn:Hp, (q x) eqn:Hq; cbn [List.filter]; rewrite ?Hp, ?Hq, IH; reflexivity.
Qed.

Lemma unique_filter_notna (l : list value) :
  pd.unique (List.filter pd.notna l) = List.filter pd.notna (pd.unique l).
Proof.
  induction l as [|x t IH]; [reflexivity|]. cbn [List.filter pd.unique].
  destruct (pd.notna x) eqn:Hx; cbn [pd.unique List.filter]; rewrite ?Hx, IH.
  - f_equal. apply filter_comm.
  - symmetry. apply filter_filter_same.
    intros k Hk. destruct x; try discriminate Hx. now destruct k.
Qed.

(** The counts of the tally add up to the number of values that are not
    missing. *)
Lemma tally_perm {np : pd.numpy} (l : list value) :
  Permutation (pd.tally l)
    (map (fun k => (k, pd.occurrences k (List.filter pd.notna l)))
       (pd.unique (List.filter pd.notna l))).
Proof.
  unfold pd.tally. cbn zeta. rewrite (stable_sort_perm _ _). apply pd.visit_counts_perm.
Qed.

Lemma tally_total {np : pd.numpy} (l : list value) :
  sum_list (map snd (pd.tally l)) = length (List.filter pd.notna l).
Proof.
  rewrite (sum_list_perm snd _ _ (tally_perm l)).
  rewrite List.map_map. cbn [snd]. unfold pd.occurrences.
  rewrite (double_count pd.same_key).
  rewrite (sum_list_ext _ (fun _ => 1)).
  - induction (List.filter pd.notna l) as [|x t IH]; simpl; [reflexivity|].
    now rewrite IH.
  - intros v Hv. now apply unique_one_key.
Qed.

(** Its keys are the distinct values that are not missing. *)
Lemma tally_keys {np : pd.numpy} (l : list value) :
  Permutation (map fst (pd.tally l)) (List.filter pd.notna (pd.unique l)).
Proof.
  rewrite <- unique_filter_notna.
  rewrite (tally_perm l), List.map_map. cbn [fst]. now rewrite List.map_id.
Qed.

(** Every key comes with the number of values equal to it. *)
Lemma tally_counts {np : pd.numpy} (l : list value) (k : value) (n : nat) :
  In (k, n) (pd.tally l) ->
  n = length (List.filter (fun v => pd.value_eqb v k) l).
Proof.
  intros H.
  apply (Permutation_in _ (tally_perm l)) in H.
  apply in_map_iff in H as (k' & E & Hk). injection E as -> <-.
  apply unique_subset, List.filter_In in Hk as [_ Hk].
  unfold pd.occurrences. f_equal.
  induction l as [|x t IH]; simpl; [reflexivity|].
  rewrite value_eqb_same_key, Hk, (same_key_sym x k). cbn [andb].
  destruct (pd.notna x) eqn:Hx; simpl.
  - now rewrite IH.
  - destruct x; try discriminate Hx. destruct k; try discriminate Hk; exact IH.
Qed.

(** C4, as the specification states it, fails: rows without a segment
    are dropped from the counts, so the counts of [example_unsegmented]
    add up to two of its three rows. *)
Lemma segment_counts_drop_unsegmented_rows : let np := exact in
  match outcome (segment_counts 0 (world_of example_unsegmented)) with
  | Ok D => total_count D <> pd.len example_unsegmented
  | Raise _ => False
  end.
Proof. vm_compute. discriminate. Qed.

(** C4, amended.  The table of counts has one entry per distinct segment
    value that is not missing, each with the number of rows of that
    segment; the counts add up to the number of rows that have a segment,
    which is the number of all rows when no segment is missing.  Rows
    without a segment are not counted. *)
Theorem segment_counts_sum_to_segmented_rows {np : pd.numpy} (w : world) (rfm : loc) (T : DataFrame) :
  heap w !! rfm = Some T ->
  pd.has_column "Customer_Segment" (pd.columns T) = true ->
  exists (counts : loc) (w' : world) (D : DataFrame),
    segment_counts rfm w = (Ok counts, w') /\
    heap w' !! counts = Some D /\
    pd.columns D = ["Segment"; "Count"] /\
    Permutation (map (field "Segment" D) (rows D)) (List.filter pd.notna (segments T)) /\
    (forall e, In e (rows D) ->
       as_count (field "Count" D e) =
       length (List.filter (fun r => pd.value_eqb (segment T r) (field "Segment" D e)) (rows T))) /\
    total_count D = length (List.filter (fun r => pd.notna (segment T r)) (rows T)) /\
    ((forall r, In r (rows T) -> segment T r <> NaN) -> total_count D = pd.len T).
Proof.
  intros H Hc. destruct (has_column_position _ _ Hc) as [i Hi].
  rewrite (segment_counts_run w rfm T i H Hi).
  do 3 eexists. split; [reflexivity|]. split; [apply lookup_fresh|].
  assert (Hseg : forall r, segment T r = pd.at_col i r).
  { intros r. unfold segment, field. now rewrite Hi. }
  assert (Hvals : map (segment T) (rows T) = map (pd.at_col i) (rows T)).
  { apply map_ext, Hseg. }
  assert (Htot : total_count
            (Frame None Numeric [("Segment", pd.dtype_at i T); ("Count", Numeric)]
               (pd.indexed (fun j kc => Row (pd.of_nat j) [fst kc; pd.of_nat (snd kc)]) 0
                  (pd.tally (map (pd.at_col i) (rows T))))) =
          length (List.filter (fun r => pd.notna (segment T r)) (rows T))).
  { unfold total_count. cbn [rows].
    rewrite (map_indexed _ _ snd) by (intros; apply as_count_of_nat).
    rewrite tally_total, <- Hvals. symmetry. apply filter_map_length. }
  split; [reflexivity|]. split; [|split; [|split]].
  - cbn [rows]. rewrite (map_indexed _ _ fst) by reflexivity.
    unfold segments. rewrite Hvals. apply tally_keys.
  - cbn [rows]. intros e He.
    apply indexed_in in He as (j & [k n] & Hin & ->). cbn [fst snd].
    destruct (field_of_counts (pd.dtype_at i T)
                (pd.indexed (fun j kc => Row (pd.of_nat j) [fst kc; pd.of_nat (snd kc)]) 0
                   (pd.tally (map (pd.at_col i) (rows T))))
                (pd.of_nat j) k (pd.of_nat n)) as [-> ->].
    rewrite as_count_of_nat, (tally_counts _ _ _ Hin).
    symmetry. rewrite <- (filter_map_length (pd.at_col i) (fun v => pd.value_eqb v k)).
    f_equal. apply List.filter_ext. intros r. now rewrite Hseg.
  - exact Htot.
  - intros Hna. rewrite Htot. now apply filter_notna_all.
Qed.

Lemma segment_counts_sum_to_segmented_rows_witness : let np := exact in
  exists (counts : loc) (w' : world) (D : DataFrame),
    segment_counts 0 (world_of example_unsegmented) = (Ok counts, w') /\
    heap w' !! counts = Some D /\
    pd.columns D = ["Segment"; "Count"] /\
    Permutation (map (field "Segment" D) (rows D))
      (List.filter pd.notna (segments example_unsegmented)) /\
    (forall e, In e (rows D) ->
       as_count (field "Count" D e) =
       length (List.filter
                 (fun r => pd.value_eqb (segment example_unsegmented r) (field "Segment" D e))
                 (rows example_unsegmented))) /\
    total_count D =
      length (List.filter (fun r => pd.notna (segment example_unsegmented r))
                (rows example_unsegmented)) /\
    ((forall r, In r (rows example_unsegmented) -> segment example_unsegmented r <> NaN) ->
     total_count D = pd.len example_unsegmented).
Proof.
  exact (segment_counts_sum_to_segmented_rows
           (world_of example_unsegmented) 0 example_unsegmented eq_refl eq_refl).
Defined.

(** ** Revenue by segment *)

Lemma StronglySorted_indexed {A B : Type} (R : A -> A -> Prop) (R' : B -> B -> Prop)
    (f : nat -> A -> B) (i : nat) (l : list A) :
  (forall j j' x y, R x y -> R' (f j x) (f j' y)) ->
  StronglySorted R l -> StronglySorted R' (pd.indexed f i l).
Proof.
  intros Hf Hl. revert i. induction Hl as [|x t Ht IH Hx]; intros i; simpl.
  - constructor.
  - constructor; [apply IH|].
    clear IH Ht. generalize (S i). induction Hx as [|y t Hy _ IHx]; intros j; simpl.
    + constructor.
    + constructor; [now apply Hf|apply IHx].
Qed.

(** The groups of a table by column [i]: the sorted distinct values that
    are not missing, each with its rows. *)
Lemma groupby_run (T : DataFrame) (c : string) (i : nat) :
  pd.position c (pd.columns T) = Some i ->
  pd.groupby c T =
  Ok (pd.MkGroupBy c (pd.dtype_at i T) T
        (map (fun k => (k, List.filter (fun r => pd.same_key k (pd.at_col i r)) (rows T)))
           (pd.stable_sort pd.value_leb
              (pd.unique (List.filter pd.notna (map (pd.at_col i) (rows T))))))).
Proof. intros H. unfold pd.groupby. now rewrite H. Qed.

Lemma segment_revenue_run {np : pd.numpy} (w : world) (rfm : loc) (T : DataFrame) (i m : nat) :
  heap w !! rfm = Some T ->
  pd.position "Customer_Segment" (pd.columns T) = Some i ->
  pd.position "Monetary" (pd.columns T) = Some m ->
  pd.dtype_at m T = Numeric \/ (pd.dtype_at m T = Object /\ rows T = []) ->
  segment_revenue rfm w =
  (Ok (length (heap w)), World (heap w ++ [revenue_frame i m T]) (page w)).
Proof.
  intros H Hi Hm Hd. unfold segment_revenue.
  rewrite (bind_get _ _ _ T) by exact H.
  rewrite bind_new, (groupby_run T _ i Hi). cbn [rbind].
  unfold pd.group_sum. cbn [pd.source pd.groups pd.by_name pd.by_dtype].
  rewrite Hm.
  assert (Hred : pd.reducible pd.Sum (pd.dtype_at m T)
            (map (pd.at_col m)
               (pd.grouped
                  (pd.MkGroupBy "Customer_Segment" (pd.dtype_at i T) T
                     (map (fun k => (k, List.filter (fun r => pd.same_key k (pd.at_col i r))
                                          (rows T)))
                        (pd.stable_sort pd.value_leb
                           (pd.unique (List.filter pd.notna (map (pd.at_col i) (rows T))))))))) =
          true).
  { destruct Hd as [->|[-> Hrows]]; [reflexivity|]. now rewrite Hrows. }
  rewrite Hred. cbn [rbind].
  unfold pd.series_reset_index, pd.series_sort_values.
  cbn [s_index_name s_name s_dtype s_index_dtype items String.eqb Ascii.eqb Bool.eqb].
  rewrite bind_update_fresh.
  unfold pd.set_columns. cbn [schema length Nat.eqb combine map fst snd rows index_name index_dtype].
  unfold revenue_frame, revenue_items. now rewrite List.map_map.
Qed.

Lemma dtype_of_position (c : string) (T : DataFrame) (d : dtype) :
  pd.dtype_of c T = Some d ->
  exists i, pd.position c (pd.columns T) = Some i /\ pd.dtype_at i T = d.
Proof.
  unfold pd.dtype_of. destruct (pd.position c (pd.columns T)) as [i|]; simpl; [|easy].
  intros [= <-]. eauto.
Qed.




Lemma monetary_order_total (m : nat) (a b : row) :
  pd.desc_before (pd.at_col m a) (pd.at_col m b) = true \/
  pd.desc_before (pd.at_col m b) (pd.at_col m a) = true.
Proof. apply desc_before_total. Qed.

Lemma monetary_order_trans (m : nat) (a b c : row) :
  pd.desc_before (pd.at_col m a) (pd.at_col m b) = true ->
  pd.desc_before (pd.at_col m b) (pd.at_col m c) = true ->
  pd.desc_before (pd.at_col m a) (pd.at_col m c) = true.
Proof. apply desc_before_trans. Qed.

Lemma addable_position (c : string) (T : DataFrame) :
  addable c T ->
  exists m, pd.position c (pd.columns T) = Some m /\
            (pd.dtype_at m T = Numeric \/ (pd.dtype_at m T = Object /\ rows T = [])).
Proof.
  intros [Hd|[Hd Hrows]]; destruct (dtype_of_position _ _ _ Hd) as (m & Hm & Hdm); eauto.
Qed.




(** ** The customers with the largest monetary value *)

Lemma schema_nth (c : string) (T : DataFrame) (m : nat) (d : dtype) :
  pd.position c (pd.columns T) = Some m ->
  pd.dtype_at m T = d ->
  nth m (schema T) ("", Object) = (c, d).
Proof.
  intros Hm Hd. apply position_nth in Hm.
  unfold pd.columns in Hm. unfold pd.dtype_at in Hd.
  change "" with (fst ("", Object)) in Hm. rewrite map_nth in Hm.
  change Object with (snd ("", Object)) in Hd. rewrite map_nth in Hd.
  destruct (nth m (schema T) ("", Object)). simpl in *. congruence.
Qed.

Lemma top_n_customers_run (w : world) (rfm : loc) (T : DataFrame) (n m : nat) :
  heap w !! rfm = Some T ->
  pd.position "Monetary" (pd.columns T) = Some m ->
  pd.dtype_at m T = Numeric ->
  top_n_customers n rfm w =
  (Ok (length (heap w)), World (heap w ++ [top_frame n m T]) (page w)).
Proof.
  intros H Hm Hd. unfold top_n_customers.
  rewrite (bind_get _ _ _ T) by exact H.
  rewrite bind_new. unfold pd.nlargest. rewrite Hm, Hd. cbn [rbind].
  unfold pd.getitem_list, pd.positions.
  change (pd.columns (Frame (index_name T) (index_dtype T) (schema T)
                        (firstn n (pd.sort_rows m (rows T))))) with (pd.columns T).
  rewrite Hm. cbn [rbind schema rows index_name index_dtype map].
  rewrite (schema_nth _ _ _ _ Hm Hd).
  rewrite bind_get_fresh, bind_update_fresh.
  unfold pd.setitem, pd.reset_index_drop, pd.len, pd.range_index.
  cbn [rows schema index_name index_dtype].
  rewrite indexed_map. cbn [cells].
  rewrite length_map, length_seq, Nat.eqb_refl.
  cbn [pd.columns schema map fst pd.position String.eqb Ascii.eqb Bool.eqb option_map app].
  reflexivity.
Qed.




Lemma customer_labels_length (n : nat) : length (customer_labels n) = n.
Proof. unfold customer_labels. now rewrite length_map, length_seq. Qed.




(** ** The key metrics *)

Lemma typed_column (F : DataFrame) (c : string) :
  rfm_typed F -> In c rfm_columns ->
  pd.has_column c (pd.columns F) = true ->
  exists s, pd.getitem F c = Ok s /\ pd.values s = column c F /\ s_dtype s = Numeric.
Proof.
  intros Ht Hc Hh. destruct (dtype_of_position _ _ _ (Ht c Hc Hh)) as (i & Hi & Hd).
  destruct (getitem_values F c i Hi) as (s & Hs & Hv & Hds & _).
  exists s. split; [exact Hs|]. split; [|congruence].
  rewrite Hv. unfold column, field. now rewrite Hi.
Qed.

Lemma rfm_typed_data (F : DataFrame) : rfm_typed F -> rfm_data F.
Proof. intros Ht c Hc Hh. left. now apply Ht. Qed.

(** The reductions of a column of the data: its mean and its sum are
    defined. *)
Lemma data_column {np : pd.numpy} (F : DataFrame) (c : string) :
  rfm_data F -> In c rfm_columns ->
  pd.has_column c (pd.columns F) = true ->
  exists s, pd.getitem F c = Ok s /\
            pd.series_mean s = Ok (pd.mean (column c F)) /\
            pd.series_sum s = Ok (pd.sum (column c F)).
Proof.
  intros Ht Hc Hh.
  destruct (addable_position _ _ (Ht c Hc Hh)) as (i & Hi & Hd).
  destruct (getitem_values F c i Hi) as (s & Hs & Hv & Hds & _).
  assert (Hcol : pd.values s = column c F).
  { rewrite Hv. unfold column, field. now rewrite Hi. }
  exists s. split; [exact Hs|]. unfold pd.series_mean, pd.series_sum. rewrite Hds, Hcol.
  destruct Hd as [->|[-> Hrows]]; [now split|].
  unfold column. rewrite Hrows. now split.
Qed.

Lemma mean_metric_run {np : pd.numpy} {A : Type} (F : DataFrame) (c : string) (present absent : string)
    (k : unit -> M A) (w : world) :
  rfm_data F -> In c rfm_columns ->
  bind (if pd.has_column c (pd.columns F)
        then bind (lift (rbind (pd.getitem F c) pd.series_mean))
               (fun m => emit (st_metric present (Fixed1 m)))
        else emit (st_metric absent (Text "N/A"))) k w =
  k tt (World (heap w)
          (page w ++ [if pd.has_column c (pd.columns F)
                      then st_metric present (Fixed1 (pd.mean (column c F)))
                      else st_metric absent (Text "N/A")])).
Proof.
  intros Ht Hc. destruct (pd.has_column c (pd.columns F)) eqn:Hh; [|reflexivity].
  destruct (data_column F c Ht Hc Hh) as (s & Hs & Hmean & _).
  unfold bind at 1. rewrite bind_lift, Hs. cbn [rbind].
  rewrite Hmean. reflexivity.
Qed.

Lemma key_metrics_data_run {np : pd.numpy} (w : world) (f : loc) (F : DataFrame) :
  heap w !! f = Some F ->
  rfm_data F ->
  key_metrics f w =
  (Ok tt,
   World (heap w)
     (page w ++ [st_header "📈 Key Metrics";
                 st_metric "Total Customers" (Grouped (pd.len F));
                 recency_metric F; frequency_metric F; revenue_metric F;
                 st_markdown "---"])).
Proof.
  intros H Ht. unfold key_metrics. rewrite bind_emit.
  rewrite (bind_get _ _ _ F) by exact H. rewrite bind_emit.
  rewrite (mean_metric_run F "Recency") by (auto; cbn; auto).
  rewrite (mean_metric_run F "Frequency") by (auto; cbn; auto).
  cbn [heap page]. rewrite <- !app_assoc. cbn [app].
  unfold recency_metric, frequency_metric, revenue_metric.
  destruct (pd.has_column "Monetary" (pd.columns F)) eqn:Hh.
  - destruct (data_column F "Monetary" Ht) as (s & Hs & _ & Hsum); [cbn; auto|exact Hh|].
    unfold bind at 1. rewrite bind_lift, Hs. cbn [rbind].
    rewrite Hsum.
    unfold emit. cbn [heap page]. now rewrite <- !app_assoc.
  - rewrite bind_emit. unfold emit. cbn [heap page]. now rewrite <- !app_assoc.
Qed.

Lemma key_metrics_run {np : pd.numpy} (w : world) (f : loc) (F : DataFrame) :
  heap w !! f = Some F ->
  rfm_typed F ->
  key_metrics f w =
  (Ok tt,
   World (heap w)
     (page w ++ [st_header "📈 Key Metrics";
                 st_metric "Total Customers" (Grouped (pd.len F));
                 recency_metric F; frequency_metric F; revenue_metric F;
                 st_markdown "---"])).
Proof. intros H Ht. now apply key_metrics_data_run, rfm_typed_data. Qed.

(** C8. The key metrics never raise, whatever the number of rows, for a
    table of the data (numeric RFM columns, or the table without rows of
    a file with a header only): the block shows the number of rows and
    three derived metrics.  A derived metric is computed when its column
    exists and is "N/A" otherwise.  For a table without rows the means
    are the missing value (NaN) and the total is 0. *)
Theorem summary_metrics_never_crash
    {np : pd.numpy} (w : world) (f : loc) (F : DataFrame) :
  heap w !! f = Some F ->
  rfm_data F ->
  exists (recency frequency revenue : widget) (w' : world),
    key_metrics f w = (Ok tt, w') /\
    heap w' = heap w /\
    rendered w w' = [st_header "📈 Key Metrics";
                     st_metric "Total Customers" (Grouped (pd.len F));
                     recency; frequency; revenue; st_markdown "---"] /\
    recency = (if pd.has_column "Recency" (pd.columns F)
               then st_metric "Avg Recency (Days)" (Fixed1 (pd.mean (column "Recency" F)))
               else st_metric "Avg Recency" (Text "N/A")) /\
    frequency = (if pd.has_column "Frequency" (pd.columns F)
                 then st_metric "Avg Frequency" (Fixed1 (pd.mean (column "Frequency" F)))
                 else st_metric "Avg Frequency" (Text "N/A")) /\
    revenue = (if pd.has_column "Monetary" (pd.columns F)
               then st_metric "Total Revenue" (Dollars (pd.sum (column "Monetary" F)))
               else st_metric "Total Revenue" (Text "N/A")) /\
    (pd.len F = 0 ->
     pd.mean (column "Recency" F) = NaN /\
     pd.mean (column "Frequency" F) = NaN /\
     pd.sum (column "Monetary" F) = 0%Q).
Proof.
  intros H Ht. rewrite (key_metrics_data_run w f F H Ht).
  exists (recency_metric F), (frequency_metric F), (revenue_metric F). eexists.
  split; [reflexivity|]. split; [reflexivity|]. split.
  { unfold rendered. cbn [page]. now rewrite drop_app_length. }
  repeat split; try reflexivity;
    unfold column, pd.len in *; destruct (rows F); simpl in *; easy.
Qed.

Lemma example_empty_typed : rfm_typed example_empty.
Proof.
  intros c Hc _. cbn in Hc.
  destruct Hc as [<-|[<-|[<-|[]]]]; reflexivity.
Qed.

Lemma example_header_only_data : rfm_data example_header_only.
Proof.
  intros c Hc _. cbn in Hc. right.
  destruct Hc as [<-|[<-|[<-|[]]]]; split; reflexivity.
Qed.

(** The table that is loaded from a file with a header only. *)
Lemma load_header_only :
  load_rfm (with_rfm header_only_csv) empty_world =
  (Ok 0, world_of example_header_only).
Proof. reflexivity. Qed.

Lemma summary_metrics_never_crash_witness :
  let np := exact in
  exists (recency frequency revenue : widget) (w' : world),
    key_metrics 0 (world_of example_header_only) = (Ok tt, w') /\
    heap w' = heap (world_of example_header_only) /\
    rendered (world_of example_header_only) w' =
      [st_header "📈 Key Metrics";
       st_metric "Total Customers" (Grouped (pd.len example_header_only));
       recency; frequency; revenue; st_markdown "---"] /\
    recency = (if pd.has_column "Recency" (pd.columns example_header_only)
               then st_metric "Avg Recency (Days)"
                      (Fixed1 (pd.mean (column "Recency" example_header_only)))
               else st_metric "Avg Recency" (Text "N/A")) /\
    frequency = (if pd.has_column "Frequency" (pd.columns example_header_only)
                 then st_metric "Avg Frequency"
                        (Fixed1 (pd.mean (column "Frequency" example_header_only)))
                 else st_metric "Avg Frequency" (Text "N/A")) /\
    revenue = (if pd.has_column "Monetary" (pd.columns example_header_only)
               then st_metric "Total Revenue"
                      (Dollars (pd.sum (column "Monetary" example_header_only)))
               else st_metric "Total Revenue" (Text "N/A")) /\
    (pd.len example_header_only = 0 ->
     pd.mean (column "Recency" example_header_only) = NaN /\
     pd.mean (column "Frequency" example_header_only) = NaN /\
     pd.sum (column "Monetary" example_header_only) = 0%Q).
Proof.
  exact (summary_metrics_never_crash (world_of example_header_only) 0 example_header_only
           eq_refl example_header_only_data).
Defined.

(** On the table of a file with a header only the metrics are the
    missing mean, twice, and the total 0. *)
Example key_metrics_of_header_only :
  let np := exact in
  rendered (world_of example_header_only)
    (snd (key_metrics 0 (world_of example_header_only))) =
  [st_header "📈 Key Metrics";
   st_metric "Total Customers" (Grouped 0);
   st_metric "Avg Recency (Days)" (Fixed1 NaN);
   st_metric "Avg Frequency" (Fixed1 NaN);
   st_metric "Total Revenue" (Dollars 0);
   st_markdown "---"].
Proof. reflexivity. Qed.

(** ** Computations that leave the loaded objects alone *)

Section Keeps.
Context (h0 : list DataFrame) (P : list widget -> Prop).

Lemma keeps_ret {A : Type} (a : A) (Q : A -> Prop) :
  Q a -> keeps h0 P (ret a) Q.
Proof. intros Ha w Hw. split; [exact Hw|]. now intros b [= <-]. Qed.

Lemma keeps_bind {A B : Type} (m : M A) (k : A -> M B) (R : A -> Prop) (Q : B -> Prop) :
  keeps h0 P m R ->
  (forall a, R a -> keeps h0 P (k a) Q) ->
  keeps h0 P (bind m k) Q.
Proof.
  intros Hm Hk w Hw. unfold bind. destruct (Hm w Hw) as [Hi Hr].
  destruct (m w) as [[a|e] w1]; cbn [fst snd] in *.
  - apply (Hk a); auto.
  - split; [exact Hi|easy].
Qed.

Lemma keeps_weaken {A : Type} (m : M A) (R Q : A -> Prop) :
  keeps h0 P m R -> (forall a, R a -> Q a) -> keeps h0 P m Q.
Proof.
  intros Hm HQ w Hw. destruct (Hm w Hw) as [Hi Hr]. split; [exact Hi|]. auto.
Qed.

Lemma keeps_lift {A : Type} (r : result A) :
  keeps h0 P (lift r) (fun _ => True).
Proof. intros w Hw. split; [exact Hw|easy]. Qed.

Lemma keeps_get (l : loc) : keeps h0 P (get l) (fun _ => True).
Proof.
  intros w Hw. unfold get. destruct (heap w !! l); (split; [exact Hw|easy]).
Qed.

Lemma keeps_new (r : result DataFrame) :
  keeps h0 P (new r) (fun l => length h0 <= l).
Proof.
  intros w [[hs Hh] Hp]. unfold new. destruct r as [d|e]; cbn [fst snd].
  - split.
    + split; [|exact Hp]. exists (hs ++ [d]). cbn [heap]. now rewrite Hh, app_assoc.
    + intros a [= <-]. rewrite Hh, length_app. lia.
  - split; [|easy]. split; eauto.
Qed.

Lemma keeps_update (l : loc) (f : DataFrame -> result DataFrame) :
  length h0 <= l -> keeps h0 P (update l f) (fun _ => True).
Proof.
  intros Hl w [[hs Hh] Hp]. unfold update.
  destruct (heap w !! l) as [d|]; [|split; [split; eauto|easy]].
  destruct (f d) as [d'|e]; [|split; [split; eauto|easy]].
  cbn [fst snd]. split; [|easy]. split; [|exact Hp].
  cbn [heap]. rewrite Hh, insert_app_r_alt by exact Hl. eauto.
Qed.

Lemma keeps_emit (x : widget) :
  (forall p, P p -> P (p ++ [x])) -> keeps h0 P (emit x) (fun _ => True).
Proof.
  intros Hx w [Hh Hp]. cbn. split; [|easy]. split; [exact Hh|]. now apply Hx.
Qed.

Lemma keeps_if {A : Type} (b : bool) (m1 m2 : M A) (Q : A -> Prop) :
  keeps h0 P m1 Q -> keeps h0 P m2 Q -> keeps h0 P (if b then m1 else m2) Q.
Proof. now destruct b. Qed.

End Keeps.

(** One step of a proof that a block keeps the loaded objects. *)
Ltac keeps_step :=
  lazymatch goal with
  | |- keeps _ _ (bind _ _) _ => eapply keeps_bind; [|intros ? ?]
  | |- keeps _ _ (ret _) _ => apply keeps_ret
  | |- keeps _ _ (if _ then _ else _) _ => apply keeps_if
  | |- keeps _ _ (get _) _ => apply keeps_get
  | |- keeps _ _ (lift _) _ => apply keeps_lift
  | |- keeps _ _ (new _) _ => apply keeps_new
  | |- keeps _ _ (update _ _) _ => apply keeps_update; try assumption
  | |- keeps _ _ (emit _) _ => apply keeps_emit; try easy
  end.

Ltac keeps_block := repeat keeps_step; auto.

Section Frame.
Context (h0 : list DataFrame).

Lemma rfm_filtered_framed (rfm : loc) (choice : value) :
  keeps h0 (fun _ => True) (rfm_filtered rfm choice) (fun _ => True).
Proof. unfold rfm_filtered. keeps_block. Qed.

Lemma key_metrics_framed {np : pd.numpy} (f : loc) :
  keeps h0 (fun _ => True) (key_metrics f) (fun _ => True).
Proof. unfold key_metrics. keeps_block. Qed.

Lemma segment_counts_framed {np : pd.numpy} (rfm : loc) :
  keeps h0 (fun _ => True) (segment_counts rfm) (fun l => length h0 <= l).
Proof. unfold segment_counts. keeps_block. Qed.

Lemma segment_rfm_framed {np : pd.numpy} (rfm : loc) :
  keeps h0 (fun _ => True) (segment_rfm rfm) (fun l => length h0 <= l).
Proof. unfold segment_rfm. keeps_block. Qed.

Lemma segment_revenue_framed {np : pd.numpy} (rfm : loc) :
  keeps h0 (fun _ => True) (segment_revenue rfm) (fun l => length h0 <= l).
Proof. unfold segment_revenue. keeps_block. Qed.

Lemma top_n_customers_framed (n : nat) (rfm : loc) :
  keeps h0 (fun _ => True) (top_n_customers n rfm) (fun l => length h0 <= l).
Proof. unfold top_n_customers. keeps_block. Qed.

Lemma segment_summary_framed {np : pd.numpy} (rfm : loc) :
  keeps h0 (fun _ => True) (segment_summary rfm) (fun l => length h0 <= l).
Proof. unfold segment_summary. keeps_block. Qed.

Lemma render_framed {np : pd.numpy} (rfm df : loc) (choice : value) :
  keeps h0 (fun _ => True) (render rfm df choice) (fun _ => True).
Proof.
  unfold render, debug_info, segment_distribution, rfm_analysis, revenue_analysis,
    distributions, segment_details, raw_data_sample, footer, top_customers.
  repeat first
    [ apply rfm_filtered_framed | apply key_metrics_framed
    | apply segment_counts_framed | apply segment_rfm_framed
    | apply segment_revenue_framed | apply top_n_customers_framed
    | apply segment_summary_framed
    | keeps_step ]; auto.
Qed.

End Frame.

(** ** A derived table depends on the loaded table only *)

(** Evaluation of an operation on two worlds that hold the same table. *)
Ltac twin_split :=
  match goal with
  | |- context [match ?r with Ok _ => _ | Raise _ => _ end] =>
      lazymatch r with
      | Ok _ => fail
      | Raise _ => fail
      | _ => destruct r eqn:?
      end
  | |- context [if ?b then _ else _] =>
      lazymatch b with
      | true => fail
      | false => fail
      | _ => destruct b eqn:?
      end
  end.

Ltac twin_step :=
  first
    [ rewrite bind_ret | rewrite bind_emit | rewrite bind_new | rewrite bind_lift
    | rewrite bind_get_fresh | rewrite bind_update_fresh
    | progress cbn [heap page fst snd rbind negb]
    | twin_split ].

Ltac twin_eval H1 H2 T :=
  let l1 := match type of H1 with _ !! ?l = _ => l end in
  let l2 := match type of H2 with _ !! ?l = _ => l end in
  repeat first
    [ rewrite (bind_get l1 _ _ T) by exact H1
    | rewrite (bind_get l2 _ _ T) by exact H2
    | twin_step ].

Ltac twin_outcome :=
  unfold outcome, ret; cbn [fst snd heap];
  rewrite ?lookup_fresh; try reflexivity.

Section Local.
Context (T : DataFrame) (w1 w2 : world) (l1 l2 : loc).
Hypothesis (H1 : heap w1 !! l1 = Some T) (H2 : heap w2 !! l2 = Some T).

Lemma segment_counts_local {np : pd.numpy} :
  outcome (segment_counts l1 w1) = outcome (segment_counts l2 w2).
Proof. unfold segment_counts. twin_eval H1 H2 T; twin_outcome. Qed.

Lemma segment_rfm_local {np : pd.numpy} :
  outcome (segment_rfm l1 w1) = outcome (segment_rfm l2 w2).
Proof.
  unfold segment_rfm.
  rewrite (bind_get l1 _ _ T) by exact H1. rewrite (bind_get l2 _ _ T) by exact H2.
  unfold new. twin_split; twin_outcome.
Qed.

Lemma segment_revenue_local {np : pd.numpy} :
  outcome (segment_revenue l1 w1) = outcome (segment_revenue l2 w2).
Proof. unfold segment_revenue. twin_eval H1 H2 T; twin_outcome. Qed.

Lemma top_n_customers_local (n : nat) :
  outcome (top_n_customers n l1 w1) = outcome (top_n_customers n l2 w2).
Proof. unfold top_n_customers. twin_eval H1 H2 T; twin_outcome. Qed.

Lemma segment_summary_local {np : pd.numpy} :
  outcome (segment_summary l1 w1) = outcome (segment_summary l2 w2).
Proof.
  unfold segment_summary. twin_eval H1 H2 T; try twin_outcome.
  unfold new. destruct (pd.sort_values _ _); twin_outcome.
Qed.

Lemma filter_by_segment_local (s : value) :
  filter_by_segment w1 l1 s = filter_by_segment w2 l2 s.
Proof.
  unfold filter_by_segment.
  rewrite (rfm_filtered_run w1 l1 T s H1), (rfm_filtered_run w2 l2 T s H2). cbn zeta.
  repeat twin_split; cbn [heap]; rewrite ?lookup_fresh; congruence.
Qed.

Lemma key_metrics_local {np : pd.numpy} :
  fst (key_metrics l1 w1) = fst (key_metrics l2 w2) /\
  rendered w1 (snd (key_metrics l1 w1)) = rendered w2 (snd (key_metrics l2 w2)).
Proof.
  unfold key_metrics. rewrite !bind_emit.
  rewrite (bind_get l1 _ _ T) by exact H1. rewrite (bind_get l2 _ _ T) by exact H2.
  rewrite !bind_emit. cbn [heap page].
  unfold bind, lift, emit, rendered.
  repeat twin_split; cbn [fst snd heap page];
    rewrite <- ?app_assoc, !drop_app_length; split; reflexivity.
Qed.

End Local.

(** ** The loaded tables are never changed *)

Lemma keeps_lookup {A : Type} (m : M A) (Q : A -> Prop) (w : world) (l : loc) (d : DataFrame) :
  keeps (heap w) (fun _ => True) m Q ->
  heap w !! l = Some d ->
  heap (snd (m w)) !! l = Some d.
Proof.
  intros Hm Hl. destruct (Hm w) as [[[hs Hh] _] _].
  - split; [|exact I]. exists []. now rewrite app_nil_r.
  - rewrite Hh. now apply lookup_kept.
Qed.

(** C9. Every operation of the aggregator, and the page as a whole,
    leaves every object that was on the heap before it as it was, in
    particular the loaded table; what it computes is a new object.  Run a
    second time, on the world that the first run has left, an operation
    yields the same table, or raises the same exception, and the key
    metrics show the same widgets. *)
Theorem aggregator_leaves_loaded_tables_unchanged {np : pd.numpy}
    (w : world) (rfm df f : loc) (T F : DataFrame) (choice : value) (n : nat) :
  heap w !! rfm = Some T ->
  heap w !! f = Some F ->
  (forall (l : loc) (d : DataFrame), heap w !! l = Some d ->
     heap (snd (rfm_filtered rfm choice w)) !! l = Some d /\
     heap (snd (key_metrics f w)) !! l = Some d /\
     heap (snd (segment_counts rfm w)) !! l = Some d /\
     heap (snd (segment_rfm rfm w)) !! l = Some d /\
     heap (snd (segment_revenue rfm w)) !! l = Some d /\
     heap (snd (top_n_customers n rfm w)) !! l = Some d /\
     heap (snd (segment_summary rfm w)) !! l = Some d /\
     heap (snd (render rfm df choice w)) !! l = Some d) /\
  filter_by_segment (snd (rfm_filtered rfm choice w)) rfm choice =
    filter_by_segment w rfm choice /\
  (fst (key_metrics f (snd (key_metrics f w))) = fst (key_metrics f w) /\
   rendered (snd (key_metrics f w)) (snd (key_metrics f (snd (key_metrics f w)))) =
     rendered w (snd (key_metrics f w))) /\
  outcome (segment_counts rfm (snd (segment_counts rfm w))) = outcome (segment_counts rfm w) /\
  outcome (segment_rfm rfm (snd (segment_rfm rfm w))) = outcome (segment_rfm rfm w) /\
  outcome (segment_revenue rfm (snd (segment_revenue rfm w))) =
    outcome (segment_revenue rfm w) /\
  outcome (top_n_customers n rfm (snd (top_n_customers n rfm w))) =
    outcome (top_n_customers n rfm w) /\
  outcome (segment_summary rfm (snd (segment_summary rfm w))) =
    outcome (segment_summary rfm w).
Proof.
  intros H Hf.
  assert (Hkept : forall (l : loc) (d : DataFrame), heap w !! l = Some d ->
     heap (snd (rfm_filtered rfm choice w)) !! l = Some d /\
     heap (snd (key_metrics f w)) !! l = Some d /\
     heap (snd (segment_counts rfm w)) !! l = Some d /\
     heap (snd (segment_rfm rfm w)) !! l = Some d /\
     heap (snd (segment_revenue rfm w)) !! l = Some d /\
     heap (snd (top_n_customers n rfm w)) !! l = Some d /\
     heap (snd (segment_summary rfm w)) !! l = Some d /\
     heap (snd (render rfm df choice w)) !! l = Some d).
  { intros l d Hl. repeat split.
    - apply (keeps_lookup _ _ _ _ _ (rfm_filtered_framed _ rfm choice) Hl).
    - apply (keeps_lookup _ _ _ _ _ (key_metrics_framed _ f) Hl).
    - apply (keeps_lookup _ _ _ _ _ (segment_counts_framed _ rfm) Hl).
    - apply (keeps_lookup _ _ _ _ _ (segment_rfm_framed _ rfm) Hl).
    - apply (keeps_lookup _ _ _ _ _ (segment_revenue_framed _ rfm) Hl).
    - apply (keeps_lookup _ _ _ _ _ (top_n_customers_framed _ n rfm) Hl).
    - apply (keeps_lookup _ _ _ _ _ (segment_summary_framed _ rfm) Hl).
    - apply (keeps_lookup _ _ _ _ _ (render_framed _ rfm df choice) Hl). }
  split; [exact Hkept|].
  destruct (Hkept rfm T H) as (K1 & _ & K3 & K4 & K5 & K6 & K7 & _).
  destruct (Hkept f F Hf) as (_ & K2 & _).
  split; [apply (filter_by_segment_local T); assumption|].
  split; [apply (key_metrics_local F); assumption|].
  split; [apply (segment_counts_local T); assumption|].
  split; [apply (segment_rfm_local T); assumption|].
  split; [apply (segment_revenue_local T); assumption|].
  split; [apply (top_n_customers_local T); assumption|].
  apply (segment_summary_local T); assumption.
Qed.

Lemma aggregator_leaves_loaded_tables_unchanged_witness : let np := exact in
  heap (snd (render 0 0 (Str "A") (world_of example_rfm))) !! 0 = Some example_rfm /\
  outcome (segment_summary 0 (snd (segment_summary 0 (world_of example_rfm)))) =
    outcome (segment_summary 0 (world_of example_rfm)).
Proof.
  cbv zeta.
  destruct (aggregator_leaves_loaded_tables_unchanged (np := exact)
              (world_of example_rfm) 0 0 0 example_rfm example_rfm (Str "A") 10
              eq_refl eq_refl) as (Hk & _ & _ & _ & _ & _ & _ & Hs).
  split; [apply (Hk 0 example_rfm eq_refl)|exact Hs].
Defined.

(** ** Loading *)

Lemma parse_with_raises (read : string -> option Z) (l : list value) (text : string) :
  In (Str text) l -> read text = None ->
  exists e, pd.parse_with read l = Raise e.
Proof.
  intros Hin Hp. induction l as [|v t IH]; [easy|]. cbn [pd.parse_with].
  destruct Hin as [->|Hin].
  - rewrite Hp. cbn [rbind]. eauto.
  - destruct (IH Hin) as [e He]. rewrite He.
    destruct v; cbn [rbind]; eauto.
    destruct (read s); cbn [rbind]; eauto.
Qed.

Lemma parse_all_raises (parse : pd.date_parser) (l : list value) (text : string) :
  In (Str text) l -> pd.reader parse l text = None ->
  exists e, pd.parse_all parse l = Raise e.
Proof. apply parse_with_raises. Qed.

Lemma read_csv_rows (lab : nat -> value) (records : list (list value)) (i : nat) :
  map (pd.at_col i) (pd.indexed (fun j r => Row (lab j) r) 0 records) =
  map (fun r => nth i r NaN) records.
Proof. now apply map_indexed. Qed.

(** The transactions fail to load when their file is missing, has no
    column "InvoiceDate", or holds a date that does not parse. *)
Lemma load_transactions_raises (fs : pd.filesystem) (parse : pd.date_parser) (w : world) :
  fs transactions_path = None \/
  (exists tx, fs transactions_path = Some tx /\
     (pd.position "InvoiceDate" (map fst (pd.header tx)) = None \/
      exists i record text,
        pd.position "InvoiceDate" (map fst (pd.header tx)) = Some i /\
        In record (pd.records tx) /\ nth i record NaN = Str text /\
        pd.reader parse (map (fun r => nth i r NaN) (pd.records tx)) text = None)) ->
  exists e, fst (load_transactions fs parse w) = Raise e.
Proof.
  intros Hf. unfold load_transactions. rewrite bind_new. unfold pd.read_csv.
  destruct Hf as [->|(tx & -> & Hf)]; [cbn; eauto|].
  destruct (pd.header tx) as [|c cs] eqn:Hh; [cbn; eauto|].
  rewrite bind_get_fresh, bind_lift.
  destruct Hf as [Hn|(i & record & text & Hi & Hin & Hnth & Hp)].
  - rewrite (getitem_missing
               (Frame None (pd.index_dtype_of tx) (c :: cs)
                  (pd.indexed (fun j r => Row (pd.label_at tx j) r) 0 (pd.records tx)))
               "InvoiceDate" Hn).
    cbn. eauto.
  - destruct (getitem_values
                (Frame None (pd.index_dtype_of tx) (c :: cs)
                   (pd.indexed (fun j r => Row (pd.label_at tx j) r) 0 (pd.records tx)))
                "InvoiceDate" i Hi) as (s & Hs & Hv & _).
    rewrite Hs. cbn [rbind]. unfold pd.to_datetime.
    cbn [rows] in Hv. rewrite (read_csv_rows (pd.label_at tx)) in Hv.
    destruct (parse_all_raises parse (pd.values s) text) as [e He].
    + rewrite Hv. apply in_map_iff. exists record. auto.
    + now rewrite Hv.
    + rewrite He. cbn. eauto.
Qed.

Lemma load_rfm_raises (fs : pd.filesystem) (w : world) :
  fs rfm_path = None \/ (exists f, fs rfm_path = Some f /\ pd.header f = []) ->
  exists e, fst (load_rfm fs w) = Raise e.
Proof.
  intros Hf. unfold load_rfm. rewrite bind_new. unfold pd.read_csv.
  destruct Hf as [->|(f & -> & ->)]; cbn; eauto.
Qed.

Lemma fst_bind_raise_l {A B : Type} (m : M A) (k : A -> M B) (w : world) (e : exn) :
  fst (m w) = Raise e -> fst (bind m k w) = Raise e.
Proof. unfold bind. destruct (m w) as [[a|e'] w1]; cbn; congruence. Qed.

Lemma fst_bind_raise_r {A B : Type} (m : M A) (k : A -> M B) (w : world) :
  (forall a w1, exists e, fst (k a w1) = Raise e) ->
  exists e, fst (bind m k w) = Raise e.
Proof.
  intros Hk. unfold bind. destruct (m w) as [[a|e'] w1]; cbn; eauto.
Qed.

Lemma load_rfm_quiet (fs : pd.filesystem) (h0 : list DataFrame) (p0 : list widget) :
  keeps h0 (eq p0) (load_rfm fs) (fun _ => True).
Proof. unfold load_rfm. keeps_block. Qed.

Lemma load_transactions_quiet (fs : pd.filesystem) (parse : pd.date_parser)
    (h0 : list DataFrame) (p0 : list widget) :
  keeps h0 (eq p0) (load_transactions fs parse) (fun _ => True).
Proof. unfold load_transactions. keeps_block. Qed.

(** C1. Loading yields both tables or neither, and never raises: its
    result is a pair of two tables, with nothing shown, or the pair
    (None, None), with one error message shown.  Whenever a step of the
    loading fails (a file is missing, the RFM file has no columns, the
    transactions have no date column, or a single date does not parse),
    the result is (None, None). *)
Theorem load_returns_both_tables_or_neither
    (fs : pd.filesystem) (parse : pd.date_parser) (w : world) :
  ((exists (rfm df : loc) (w' : world),
      load_data fs parse w = (Ok (Some rfm, Some df), w') /\ rendered w w' = []) \/
   (exists (w' : world) (msg : string),
      load_data fs parse w = (Ok (None, None), w') /\ rendered w w' = [st_error msg])) /\
  (load_failure fs parse ->
   exists (w' : world) (msg : string),
     load_data fs parse w = (Ok (None, None), w') /\ rendered w w' = [st_error msg]).
Proof.
  assert (Hquiet : keeps (heap w) (eq (page w))
            (bind (load_rfm fs) (fun rfm =>
             bind (load_transactions fs parse) (fun df => ret (Some rfm, Some df))))
            (fun a => exists rfm df, a = (Some rfm, Some df))).
  { eapply keeps_bind; [apply load_rfm_quiet|]. intros rfm _.
    eapply keeps_bind; [apply load_transactions_quiet|]. intros df _.
    apply keeps_ret. eauto. }
  destruct (Hquiet w) as [[_ Hpage] Hval].
  { split; [|reflexivity]. exists []. now rewrite app_nil_r. }
  unfold load_data, try_except.
  destruct (bind (load_rfm fs) _ w) as [[a|e] w1] eqn:Hbody; cbn [fst snd] in *.
  - destruct (Hval a eq_refl) as (rfm & df & ->).
    assert (Hshown : rendered w w1 = []).
    { unfold rendered. rewrite <- Hpage. apply drop_all. }
    split; [left; eauto|].
    intros Hfail. exfalso.
    assert (Hraise : exists e, fst (bind (load_rfm fs) (fun rfm =>
              bind (load_transactions fs parse) (fun df => ret (Some rfm, Some df))) w)
              = Raise e).
    { destruct Hfail as [Hm|f Hf Hh|Ht|tx Ht Hn|tx i record text Ht Hi Hin Hnth Hp].
      - destruct (load_rfm_raises fs w) as [e He]; [auto|].
        exists e. now apply fst_bind_raise_l.
      - destruct (load_rfm_raises fs w) as [e He]; [eauto|].
        exists e. now apply fst_bind_raise_l.
      - apply fst_bind_raise_r. intros l0 w2.
        destruct (load_transactions_raises fs parse w2) as [e He]; [auto|].
        exists e. now apply fst_bind_raise_l.
      - apply fst_bind_raise_r. intros l0 w2.
        destruct (load_transactions_raises fs parse w2) as [e He]; [eauto|].
        exists e. now apply fst_bind_raise_l.
      - apply fst_bind_raise_r. intros l0 w2.
        destruct (load_transactions_raises fs parse w2) as [e He];
          [right; exists tx; split; [exact Ht|right; eauto 10]|].
        exists e. now apply fst_bind_raise_l. }
    destruct Hraise as [e He]. rewrite Hbody in He. discriminate He.
  - assert (Hshown : rendered w (World (heap w1)
               (page w1 ++ [st_error (String.append "Error loading data: " (describe e))])) =
             [st_error (String.append "Error loading data: " (describe e))]).
    { unfold rendered. cbn [page]. rewrite <- Hpage. apply drop_app_length. }
    split; [right|intros _]; do 2 eexists; (split; [reflexivity|exact Hshown]).
Qed.

Lemma load_returns_both_tables_or_neither_witness :
  exists (w' : world) (msg : string),
    load_data bad_files example_parse empty_world = (Ok (None, None), w') /\
    rendered empty_world w' = [st_error msg].
Proof.
  apply (proj2 (load_returns_both_tables_or_neither bad_files example_parse empty_world)).
  apply (invoice_date_unparseable _ _ (example_transactions_csv "2010-13-45") 1
           [Num 536366; Str "2010-13-45"] "2010-13-45");
    [reflexivity|reflexivity|cbn; auto|reflexivity|reflexivity].
Defined.

Example load_bad_date :
  fst (load_data bad_files example_parse empty_world) = Ok (None, None) /\
  page (snd (load_data bad_files example_parse empty_world)) =
    [st_error "Error loading data: Unknown datetime string format: 2010-13-45"].
Proof. split; reflexivity. Qed.

Example load_good_files :
  fst (load_data good_files example_parse empty_world) = Ok (Some 0, Some 1) /\
  page (snd (load_data good_files example_parse empty_world)) = [].
Proof. split; reflexivity. Qed.

Lemma rename_columns (old new : string) (T : DataFrame) :
  pd.columns (pd.rename old new T) =
  map (fun c => if String.eqb c old then new else c) (pd.columns T).
Proof.
  unfold pd.columns, pd.rename. cbn [schema]. rewrite !List.map_map.
  apply map_ext. intros [c d]. cbn [fst]. now destruct (String.eqb c old).
Qed.

Lemma renamed_column_gone (old new : string) (cols : list string) :
  old <> new ->
  pd.has_column old (map (fun c => if String.eqb c old then new else c) cols) = false.
Proof.
  intros Hne. induction cols as [|c t IH]; [reflexivity|].
  cbn [map pd.has_column existsb]. fold (pd.has_column old).
  change (existsb (String.eqb old)) with (pd.has_column old). rewrite IH.
  destruct (String.eqb_spec c old) as [->|Hc].
  - apply orb_false_iff. split; [|reflexivity]. now apply String.eqb_neq.
  - apply orb_false_iff. split; [|reflexivity]. apply String.eqb_neq. congruence.
Qed.

(** The RFM table of a file whose first column has a sentinel name. *)
Lemma load_rfm_sentinel (fs : pd.filesystem) (w : world) (f : pd.csv)
    (s : string) (d0 : dtype) (rest : list (string * dtype)) :
  fs rfm_path = Some f ->
  pd.header f = (s, d0) :: rest ->
  s = "Unnamed: 0" \/ s = "index" ->
  load_rfm fs w =
  (Ok (length (heap w)),
   World (heap w ++
            [pd.rename s "CustomerID"
               (Frame None (pd.index_dtype_of f) ((s, d0) :: rest)
                  (pd.indexed (fun i r => Row (pd.label_at f i) r) 0 (pd.records f)))])
     (page w)).
Proof.
  intros Hf Hh Hs. unfold load_rfm. rewrite bind_new. unfold pd.read_csv.
  rewrite Hf, Hh. rewrite bind_get_fresh, bind_lift.
  cbn [pd.columns schema map fst].
  assert (Hsent : pd.has_column s ["Unnamed: 0"; "index"] = true).
  { destruct Hs as [->| ->]; reflexivity. }
  rewrite Hsent. rewrite bind_update_fresh. rewrite bind_get_fresh.
  rewrite rename_columns. cbn [pd.columns schema map fst].
  rewrite String.eqb_refl. cbn [pd.has_column existsb String.eqb Ascii.eqb Bool.eqb orb negb].
  reflexivity.
Qed.

(** C2. When the first column of the RFM file is named "Unnamed: 0" (or
    "index"), a successful load yields an RFM table whose first column is
    the customer identifier (the column "CustomerID" of the script, the
    field customer_id of the data model), and which has no column of the
    sentinel name; the records are those of the file. *)
Theorem sentinel_first_column_renamed_to_customer_id
    (fs : pd.filesystem) (parse : pd.date_parser) (w w' : world) (f : pd.csv)
    (s : string) (d0 : dtype) (rest : list (string * dtype)) (rfm df : loc) :
  fs rfm_path = Some f ->
  pd.header f = (s, d0) :: rest ->
  s = "Unnamed: 0" \/ s = "index" ->
  load_data fs parse w = (Ok (Some rfm, Some df), w') ->
  exists T,
    heap w' !! rfm = Some T /\
    (exists others, pd.columns T = "CustomerID" :: others /\ length others = length rest) /\
    pd.has_column "CustomerID" (pd.columns T) = true /\
    pd.has_column s (pd.columns T) = false /\
    map cells (rows T) = pd.records f.
Proof.
  intros Hf Hh Hs Hload.
  exists (pd.rename s "CustomerID"
            (Frame None (pd.index_dtype_of f) ((s, d0) :: rest)
               (pd.indexed (fun i r => Row (pd.label_at f i) r) 0 (pd.records f)))).
  split.
  - unfold load_data, try_except, bind in Hload.
    rewrite (load_rfm_sentinel fs w f s d0 rest Hf Hh Hs) in Hload.
    destruct (load_transactions_quiet fs parse
                (heap w ++ [pd.rename s "CustomerID"
                   (Frame None (pd.index_dtype_of f) ((s, d0) :: rest)
                      (pd.indexed (fun i r => Row (pd.label_at f i) r) 0 (pd.records f)))])
                (page w)
                (World (heap w ++ [pd.rename s "CustomerID"
                   (Frame None (pd.index_dtype_of f) ((s, d0) :: rest)
                      (pd.indexed (fun i r => Row (pd.label_at f i) r) 0 (pd.records f)))])
                   (page w))) as [[[hs Hh2] _] _].
    { split; [|reflexivity]. exists []. now rewrite app_nil_r. }
    destruct (load_transactions fs parse _) as [[l|e] w2]; cbn in Hload, Hh2.
    + injection Hload as <- <- <-. rewrite Hh2. apply lookup_kept, lookup_fresh.
    + discriminate Hload.
  - split; [|split; [|split]].
    + rewrite rename_columns. cbn [pd.columns schema map fst]. rewrite String.eqb_refl.
      eexists. split; [reflexivity|]. now rewrite !length_map.
    + rewrite rename_columns. cbn [pd.columns schema map fst]. now rewrite String.eqb_refl.
    + rewrite rename_columns. apply renamed_column_gone.
      destruct Hs as [->| ->]; discriminate.
    + unfold pd.rename. cbn [rows].
      rewrite (map_indexed _ _ (fun r => r)) by reflexivity. apply List.map_id.
Qed.

Lemma sentinel_first_column_renamed_to_customer_id_witness :
  exists T,
    heap (snd (load_data good_files example_parse empty_world)) !! 0 = Some T /\
    (exists others, pd.columns T = "CustomerID" :: others /\ length others = 4) /\
    pd.has_column "CustomerID" (pd.columns T) = true /\
    pd.has_column "Unnamed: 0" (pd.columns T) = false /\
    map cells (rows T) = pd.records example_rfm_csv.
Proof.
  exact (sentinel_first_column_renamed_to_customer_id
           good_files example_parse empty_world
           (snd (load_data good_files example_parse empty_world))
           example_rfm_csv "Unnamed: 0" Numeric
           [("Recency", Numeric); ("Frequency", Numeric);
            ("Monetary", Numeric); ("Customer_Segment", Object)]
           0 1 eq_refl eq_refl (or_introl eq_refl) eq_refl).
Defined.

(** ** The page for a loaded table *)

Lemma shows_seq (rfm f : loc) (T F : DataFrame) (m1 m2 : M unit) (ws1 ws2 : list widget) :
  shows rfm f T F m1 ws1 -> shows rfm f T F m2 ws2 ->
  shows rfm f T F (bind m1 (fun _ => m2)) (ws1 ++ ws2).
Proof.
  intros H1 H2 w Hr Hf. destruct (H1 w Hr Hf) as [hs1 E1].
  unfold bind. rewrite E1.
  destruct (H2 (World (heap w ++ hs1) (page w ++ ws1))) as [hs2 E2].
  - now apply lookup_kept.
  - now apply lookup_kept.
  - rewrite E2. cbn [heap page]. exists (hs1 ++ hs2). now rewrite !app_assoc.
Qed.

Lemma shows_emit (rfm f : loc) (T F : DataFrame) (x : widget) :
  shows rfm f T F (emit x) [x].
Proof. intros w _ _. exists []. unfold emit. now rewrite app_nil_r. Qed.

Lemma shows_nothing (rfm f : loc) (T F : DataFrame) :
  shows rfm f T F (ret tt) [].
Proof. intros [h p] _ _. exists []. unfold ret. cbn [heap page]. now rewrite !app_nil_r. Qed.

Lemma rfm_positions (T : DataFrame) :
  has_rfm_columns T = true -> rfm_typed T ->
  exists r f m,
    (pd.position "Recency" (pd.columns T) = Some r /\ pd.dtype_at r T = Numeric) /\
    (pd.position "Frequency" (pd.columns T) = Some f /\ pd.dtype_at f T = Numeric) /\
    (pd.position "Monetary" (pd.columns T) = Some m /\ pd.dtype_at m T = Numeric).
Proof.
  unfold has_rfm_columns, rfm_columns. cbn [forallb]. rewrite !andb_true_iff.
  intros (Hr & Hf & Hm & _) Ht.
  destruct (dtype_of_position _ _ _ (Ht "Recency" (or_introl eq_refl) Hr)) as (r & ?).
  destruct (dtype_of_position _ _ _
              (Ht "Frequency" (or_intror (or_introl eq_refl)) Hf)) as (f & ?).
  destruct (dtype_of_position _ _ _
              (Ht "Monetary" (or_intror (or_intror (or_introl eq_refl))) Hm)) as (m & ?).
  exists r, f, m. auto.
Qed.

Lemma monetary_position (T : DataFrame) :
  pd.has_column "Monetary" (pd.columns T) = true -> rfm_typed T ->
  exists m, pd.position "Monetary" (pd.columns T) = Some m /\ pd.dtype_at m T = Numeric.
Proof.
  intros Hm Ht.
  destruct (dtype_of_position _ _ _
              (Ht "Monetary" (or_intror (or_intror (or_introl eq_refl))) Hm)) as (m & ?).
  eauto.
Qed.

(** The mean RFM values by segment are computed for a typed table that
    has the columns. *)
Lemma segment_rfm_run {np : pd.numpy} (T : DataFrame) :
  pd.has_column "Customer_Segment" (pd.columns T) = true ->
  has_rfm_columns T = true -> rfm_typed T ->
  exists D, forall w rfm, heap w !! rfm = Some T ->
    segment_rfm rfm w = (Ok (length (heap w)), World (heap w ++ [D]) (page w)).
Proof.
  intros Hc Hcols Ht. destruct (has_column_position _ _ Hc) as [i Hi].
  destruct (rfm_positions T Hcols Ht) as (r & f & m & [Hr Hdr] & [Hf Hdf] & [Hm Hdm]).
  eexists. intros w rfm H. unfold segment_rfm.
  rewrite (bind_get _ _ _ T) by exact H. unfold new.
  rewrite (groupby_run T _ i Hi). cbn [rbind].
  unfold pd.group_mean, pd.agg, rfm_columns. cbn [map pd.agg_plan pd.source].
  rewrite Hr, Hf, Hm, Hdr, Hdf, Hdm. cbn [pd.reducible rbind]. reflexivity.
Qed.

(** So is the segment summary: the aggregated table and its sorted
    copy. *)
Lemma segment_summary_run {np : pd.numpy} (T : DataFrame) :
  pd.has_column "Customer_Segment" (pd.columns T) = true ->
  has_rfm_columns T = true -> rfm_typed T ->
  exists D D', forall w rfm, heap w !! rfm = Some T ->
    segment_summary rfm w =
    (Ok (S (length (heap w))), World (heap w ++ [D; D']) (page w)).
Proof.
  intros Hc Hcols Ht. destruct (has_column_position _ _ Hc) as [i Hi].
  destruct (rfm_positions T Hcols Ht) as (r & f & m & [Hr Hdr] & [Hf Hdf] & [Hm Hdm]).
  do 2 eexists. intros w rfm H. unfold segment_summary.
  rewrite (bind_get _ _ _ T) by exact H. rewrite bind_new.
  rewrite (groupby_run T _ i Hi). cbn [rbind].
  unfold pd.agg. cbn [pd.agg_plan pd.source].
  rewrite Hr, Hf, Hm, Hdr, Hdf, Hdm. cbn [pd.reducible rbind].
  rewrite bind_update_fresh. unfold pd.set_columns, pd.round.
  cbn [schema length map Nat.eqb combine fst snd rows index_name index_dtype].
  rewrite bind_get_fresh. unfold new, pd.sort_values.
  cbn [pd.columns schema map fst pd.position String.eqb Ascii.eqb Bool.eqb option_map
       heap page index_name index_dtype rows].
  rewrite length_app, Nat.add_comm, <- app_assoc. cbn [length app Nat.add]. reflexivity.
Qed.

Ltac page_done :=
  unfold emit, ret; cbn [heap page]; rewrite <- ?app_assoc; cbn [app];
  first [reflexivity | rewrite ?app_nil_r; reflexivity].

Lemma debug_info_shows (rfm f : loc) (T F : DataFrame) :
  shows rfm f T F (debug_info rfm)
    [st_write_columns (pd.columns T);
     st_write_shape (pd.len T) (length (pd.columns T));
     st_write_frame (pd.head 1 T)].
Proof.
  intros w Hr _. exists []. unfold debug_info.
  rewrite (bind_get _ _ _ T) by exact Hr. rewrite !bind_emit. page_done.
Qed.

Lemma key_metrics_shows {np : pd.numpy} (rfm f : loc) (T F : DataFrame) :
  rfm_typed F ->
  shows rfm f T F (key_metrics f)
    [st_header "📈 Key Metrics";
     st_metric "Total Customers" (Grouped (pd.len F));
     recency_metric F; frequency_metric F; revenue_metric F;
     st_markdown "---"].
Proof.
  intros Ht w _ Hf. exists []. rewrite (key_metrics_run w f F Hf Ht).
  now rewrite app_nil_r.
Qed.

Lemma segment_distribution_shows {np : pd.numpy} (T : DataFrame) :
  exists ws, forall rfm f F, shows rfm f T F (segment_distribution rfm) ws.
Proof.
  destruct (pd.has_column "Customer_Segment" (pd.columns T)) eqn:Hc.
  - destruct (has_column_position _ _ Hc) as [i Hi].
    eexists. intros rfm f F w Hr _. eexists. unfold segment_distribution.
    rewrite (bind_get _ _ _ T) by exact Hr. rewrite Hc, bind_emit.
    unfold bind at 1.
    rewrite (segment_counts_run (World (heap w) _) rfm T i Hr Hi). cbn [heap page].
    rewrite bind_get_fresh, bind_emit. cbn [heap page].
    rewrite bind_get_fresh, bind_emit. page_done.
  - exists []. intros rfm f F w Hr _. exists []. unfold segment_distribution.
    rewrite (bind_get _ _ _ T) by exact Hr. rewrite Hc.
    destruct w. page_done.
Qed.

Lemma rfm_analysis_shows {np : pd.numpy} (T : DataFrame) :
  rfm_typed T ->
  exists heat, forall rfm f F, pd.columns F = pd.columns T ->
    shows rfm f T F (rfm_analysis rfm f)
      (if has_rfm_columns T
       then [st_header "🔍 RFM Analysis"] ++ heat ++
            [st_plotly_chart (Scatter3d (pd.has_column "Customer_Segment" (pd.columns T)))
               "3D RFM Visualization" F;
             st_markdown "---"]
       else []).
Proof.
  intros Ht. destruct (has_rfm_columns T) eqn:Hcols.
  - destruct (pd.has_column "Customer_Segment" (pd.columns T)) eqn:Hc.
    + destruct (segment_rfm_run T Hc Hcols Ht) as [D HD].
      exists [st_plotly_chart Heatmap "Average RFM Values by Segment" D].
      intros rfm f F HF w Hr Hf. eexists. unfold rfm_analysis.
      rewrite (bind_get _ _ _ T) by exact Hr. rewrite Hcols, Hc, bind_emit.
      unfold bind at 1. unfold bind at 1. rewrite (HD (World (heap w) _) rfm Hr). cbn [heap page].
      rewrite bind_get_fresh. unfold emit at 1. cbn [heap page].
      rewrite (bind_get_kept f _ (heap w) [D] F _ Hf), bind_emit, HF, Hc. page_done.
    + exists []. intros rfm f F HF w Hr Hf. exists []. unfold rfm_analysis.
      rewrite (bind_get _ _ _ T) by exact Hr. rewrite Hcols, Hc, bind_emit.
      rewrite bind_ret. rewrite (bind_get f _ _ F) by exact Hf.
      rewrite bind_emit, HF, Hc. page_done.
  - exists []. intros rfm f F HF w Hr _. exists []. unfold rfm_analysis.
    rewrite (bind_get _ _ _ T) by exact Hr. rewrite Hcols. destruct w. page_done.
Qed.

Lemma revenue_analysis_shows {np : pd.numpy} (T : DataFrame) :
  rfm_typed T ->
  exists ws, forall rfm f F, shows rfm f T F (revenue_analysis rfm) ws.
Proof.
  intros Ht. destruct (pd.has_column "Monetary" (pd.columns T)) eqn:Hm.
  - destruct (monetary_position T Hm Ht) as (m & Hpm & Hdm).
    destruct (pd.has_column "Customer_Segment" (pd.columns T)) eqn:Hc.
    + destruct (has_column_position _ _ Hc) as [i Hi].
      eexists. intros rfm f F w Hr _. eexists. unfold revenue_analysis, top_customers.
      rewrite (bind_get _ _ _ T) by exact Hr. rewrite Hm, Hc, bind_emit.
      unfold bind at 1. unfold bind at 1.
      rewrite (segment_revenue_run (World (heap w) _) rfm T i m Hr Hi Hpm (or_introl Hdm)).
      cbn [heap page].
      rewrite bind_get_fresh. unfold emit at 1. cbn [heap page].
      unfold bind at 1.
      rewrite (top_n_customers_run (World (heap w ++ _) _) rfm T 10 m
                 (lookup_kept _ _ _ _ Hr) Hpm Hdm).
      cbn [heap page]. rewrite bind_get_fresh, bind_emit. page_done.
    + eexists. intros rfm f F w Hr _. eexists. unfold revenue_analysis, top_customers.
      rewrite (bind_get _ _ _ T) by exact Hr. rewrite Hm, Hc, bind_emit, bind_ret.
      unfold bind at 1.
      rewrite (top_n_customers_run (World (heap w) _) rfm T 10 m Hr Hpm Hdm).
      cbn [heap page]. rewrite bind_get_fresh, bind_emit. page_done.
  - exists []. intros rfm f F w Hr _. exists []. unfold revenue_analysis.
    rewrite (bind_get _ _ _ T) by exact Hr. rewrite Hm. destruct w. page_done.
Qed.

Lemma distributions_shows (rfm f : loc) (T F : DataFrame) :
  shows rfm f T F (distributions f)
    (if has_rfm_columns F
     then [st_header "📊 RFM Distributions";
           st_plotly_chart (Histogram "Recency") "Recency Distribution" F;
           st_plotly_chart (Histogram "Frequency") "Frequency Distribution" F;
           st_plotly_chart (Histogram "Monetary") "Monetary Distribution" F;
           st_markdown "---"]
     else []).
Proof.
  intros w _ Hf. exists []. unfold distributions.
  rewrite (bind_get _ _ _ F) by exact Hf.
  destruct (has_rfm_columns F).
  - rewrite !bind_emit. page_done.
  - destruct w. page_done.
Qed.

Lemma segment_details_shows {np : pd.numpy} (T : DataFrame) :
  rfm_typed T ->
  exists ws, forall rfm f F, shows rfm f T F (segment_details rfm) ws.
Proof.
  intros Ht.
  destruct (pd.has_column "Customer_Segment" (pd.columns T) && has_rfm_columns T) eqn:Hg.
  - apply andb_true_iff in Hg as Hg'. destruct Hg' as [Hc Hcols].
    destruct (segment_summary_run T Hc Hcols Ht) as (D & D' & HD).
    eexists. intros rfm f F w Hr _. eexists. unfold segment_details.
    rewrite (bind_get _ _ _ T) by exact Hr. rewrite Hg, bind_emit.
    unfold bind at 1. rewrite (HD (World (heap w) _) rfm Hr). cbn [heap page].
    rewrite (bind_get (S (length (heap w))) _ _ D').
    + rewrite bind_emit. page_done.
    + cbn [heap]. change [D; D'] with ([D] ++ [D']). rewrite app_assoc.
      replace (S (length (heap w))) with (length (heap w ++ [D]))
        by (rewrite length_app; cbn; lia).
      apply lookup_fresh.
  - exists []. intros rfm f F w Hr _. exists []. unfold segment_details.
    rewrite (bind_get _ _ _ T) by exact Hr. rewrite Hg. destruct w. page_done.
Qed.

Lemma raw_data_sample_shows (rfm f : loc) (T F : DataFrame) :
  shows rfm f T F (raw_data_sample f)
    [st_header "📄 Raw Data Sample"; st_dataframe (pd.head 20 F)].
Proof.
  intros w _ Hf. exists []. unfold raw_data_sample. rewrite bind_emit.
  rewrite (bind_get _ _ _ F) by exact Hf. page_done.
Qed.

Lemma footer_shows (rfm f : loc) (T F : DataFrame) :
  shows rfm f T F footer
    [st_markdown "---";
     st_markdown "**Created by:** Your Name | **Data Source:** UCI Online Retail Dataset";
     st_markdown "**Tech Stack:** Python, Pandas, Scikit-learn, Plotly, Streamlit"].
Proof.
  intros w _ _. exists []. unfold footer. rewrite !bind_emit. page_done.
Qed.

Lemma selected_view_columns (T : DataFrame) (choice : value) :
  pd.columns (selected_view T choice) = pd.columns T.
Proof. unfold selected_view. now destruct (_ && _). Qed.

Lemma selected_view_typed (T : DataFrame) (choice : value) :
  rfm_typed T -> rfm_typed (selected_view T choice).
Proof.
  unfold selected_view. destruct (_ && _); [|easy].
  intros Ht c Hc Hh. exact (Ht c Hc Hh).
Qed.

(** The page after the sidebar. *)
Lemma blocks_show {np : pd.numpy} (T : DataFrame) :
  rfm_typed T ->
  exists counts heat revenue summary, forall rfm f F,
    rfm_typed F -> pd.columns F = pd.columns T ->
    shows rfm f T F
      (bind (key_metrics f) (fun _ =>
       bind (segment_distribution rfm) (fun _ =>
       bind (rfm_analysis rfm f) (fun _ =>
       bind (revenue_analysis rfm) (fun _ =>
       bind (distributions f) (fun _ =>
       bind (segment_details rfm) (fun _ =>
       bind (raw_data_sample f) (fun _ => footer))))))))
      (page_body T F counts heat revenue summary).
Proof.
  intros Ht.
  destruct (segment_distribution_shows T) as [counts Hcounts].
  destruct (rfm_analysis_shows T Ht) as [heat Hheat].
  destruct (revenue_analysis_shows T Ht) as [revenue Hrevenue].
  destruct (segment_details_shows T Ht) as [summary Hsummary].
  exists counts, heat, revenue, summary. intros rfm f F HtF HF.
  unfold page_body.
  repeat (apply shows_seq; [first
    [ now apply key_metrics_shows | apply Hcounts | now apply Hheat | apply Hrevenue
    | apply distributions_shows | apply Hsummary | apply raw_data_sample_shows ]|]).
  apply footer_shows.
Qed.

(** The whole page, for a typed table: the widgets of the blocks that
    aggregate the whole table are the same for every selection. *)
Lemma render_shows {np : pd.numpy} (T : DataFrame) :
  rfm_typed T ->
  exists counts heat revenue summary, forall w rfm df choice,
    heap w !! rfm = Some T ->
    exists hs,
      render rfm df choice w =
      (Ok tt,
       World (heap w ++ hs)
         (page w ++ layout T (selected_view T choice) counts heat revenue summary)).
Proof.
  intros Ht. destruct (blocks_show T Ht) as (counts & heat & revenue & summary & Hblocks).
  exists counts, heat, revenue, summary. intros w rfm df choice H.
  assert (Hrun : forall f w2,
            heap w2 !! rfm = Some T ->
            heap w2 !! f = Some (selected_view T choice) ->
            exists hs,
              bind (key_metrics f) (fun _ =>
              bind (segment_distribution rfm) (fun _ =>
              bind (rfm_analysis rfm f) (fun _ =>
              bind (revenue_analysis rfm) (fun _ =>
              bind (distributions f) (fun _ =>
              bind (segment_details rfm) (fun _ =>
              bind (raw_data_sample f) (fun _ => footer))))))) w2 =
              (Ok tt,
               World (heap w2 ++ hs)
                 (page w2 ++ page_body T (selected_view T choice) counts heat revenue summary))).
  { intros f w2. apply Hblocks.
    - now apply selected_view_typed.
    - apply selected_view_columns. }
  unfold render.
  destruct (debug_info_shows rfm rfm T T w H H) as [hs0 E0].
  unfold bind at 1. rewrite E0. unfold bind at 1.
  rewrite (rfm_filtered_run (World (heap w ++ hs0) _) rfm T choice
             (lookup_kept _ hs0 _ _ H)). cbn zeta.
  unfold layout, page_head, sidebar_widgets, segments.
  destruct (pd.has_column "Customer_Segment" (pd.columns T)) eqn:Hc;
    [destruct (pd.value_eqb choice (Str "All")) eqn:Ha|]; cbn [fst heap page].
  - destruct (Hrun rfm (World (heap w ++ hs0)
                 (((page w ++ [st_write_columns (pd.columns T);
                               st_write_shape (pd.len T) (length (pd.columns T));
                               st_write_frame (pd.head 1 T)]) ++
                   [st_sidebar_header "🔍 Filters"]) ++
                  [st_sidebar_selectbox "Select Customer Segment"
                     (Str "All" :: pd.unique (map (segment T) (rows T)))])))
      as [hs E].
    + now apply lookup_kept.
    + unfold selected_view. rewrite Hc, Ha. now apply lookup_kept.
    + rewrite E. cbn [heap page]. exists (hs0 ++ hs).
      rewrite <- !app_assoc. reflexivity.
  - destruct (Hrun (length (heap w ++ hs0))
                (World ((heap w ++ hs0) ++
                          [Frame (index_name T) (index_dtype T) (schema T)
                             (List.filter (fun r => pd.value_eqb (segment T r) choice) (rows T))])
                 (((page w ++ [st_write_columns (pd.columns T);
                               st_write_shape (pd.len T) (length (pd.columns T));
                               st_write_frame (pd.head 1 T)]) ++
                   [st_sidebar_header "🔍 Filters"]) ++
                  [st_sidebar_selectbox "Select Customer Segment"
                     (Str "All" :: pd.unique (map (segment T) (rows T)))])))
      as [hs E].
    + now apply lookup_kept, lookup_kept.
    + unfold selected_view. rewrite Hc, Ha. apply lookup_fresh.
    + rewrite E. cbn [heap page]. eexists.
      rewrite <- !app_assoc. reflexivity.
  - destruct (Hrun rfm (World (heap w ++ hs0)
                 (((page w ++ [st_write_columns (pd.columns T);
                               st_write_shape (pd.len T) (length (pd.columns T));
                               st_write_frame (pd.head 1 T)]) ++
                   [st_sidebar_header "🔍 Filters"]) ++
                  [st_warning "Customer_Segment column not found. Showing all data."])))
      as [hs E].
    + now apply lookup_kept.
    + unfold selected_view. rewrite Hc. now apply lookup_kept.
    + rewrite E. cbn [heap page]. exists (hs0 ++ hs).
      rewrite <- !app_assoc. reflexivity.
Qed.

(** ** The aggregates do not depend on the selection *)

Lemma aggregates_app (st : bool) (l1 l2 : list widget) :
  aggregates st (l1 ++ l2) = aggregates st l1 ++ aggregates (summary_open st l1) l2 /\
  summary_open st (l1 ++ l2) = summary_open (summary_open st l1) l2.
Proof.
  revert st. induction l1 as [|x t IH]; intros st; [easy|].
  destruct x; cbn [aggregates summary_open app]; try apply IH.
  - destruct (aggregate_title title); cbn [app]; destruct (IH st) as [-> ->]; easy.
  - destruct st; cbn [app]; destruct (IH true) as [E1 E2], (IH false) as [E3 E4];
      rewrite ?E1, ?E2, ?E3, ?E4; easy.
Qed.

Lemma same_aggregates_refl (l : list widget) : same_aggregates l l.
Proof. now intros st. Qed.

Lemma same_aggregates_app (l1 l1' l2 l2' : list widget) :
  same_aggregates l1 l1' -> same_aggregates l2 l2' ->
  same_aggregates (l1 ++ l2) (l1' ++ l2').
Proof.
  intros H1 H2 st.
  destruct (aggregates_app st l1 l2) as [-> ->].
  destruct (aggregates_app st l1' l2') as [-> ->].
  destruct (H1 st) as [-> ->].
  destruct (H2 (summary_open st l1')) as [-> ->]. easy.
Qed.

Lemma metrics_same_aggregates {np : pd.numpy} (F1 F2 : DataFrame) :
  same_aggregates
    [st_header "📈 Key Metrics"; st_metric "Total Customers" (Grouped (pd.len F1));
     recency_metric F1; frequency_metric F1; revenue_metric F1; st_markdown "---"]
    [st_header "📈 Key Metrics"; st_metric "Total Customers" (Grouped (pd.len F2));
     recency_metric F2; frequency_metric F2; revenue_metric F2; st_markdown "---"].
Proof.
  intros st. unfold recency_metric, frequency_metric, revenue_metric.
  repeat match goal with
         | |- context [if ?b then _ else _] => destruct b
         end; split; reflexivity.
Qed.

Lemma has_rfm_columns_same (F T : DataFrame) :
  pd.columns F = pd.columns T -> has_rfm_columns F = has_rfm_columns T.
Proof. intros H. unfold has_rfm_columns. now rewrite H. Qed.

Lemma layout_same_aggregates {np : pd.numpy} (T F1 F2 : DataFrame) (counts heat revenue summary : list widget) :
  pd.columns F1 = pd.columns T ->
  pd.columns F2 = pd.columns T ->
  same_aggregates (layout T F1 counts heat revenue summary)
                  (layout T F2 counts heat revenue summary).
Proof.
  intros H1 H2. unfold layout, page_body.
  rewrite (has_rfm_columns_same F1 T H1), (has_rfm_columns_same F2 T H2).
  apply same_aggregates_app; [apply same_aggregates_refl|].
  apply same_aggregates_app; [apply metrics_same_aggregates|].
  apply same_aggregates_app; [apply same_aggregates_refl|].
  apply same_aggregates_app.
  { destruct (has_rfm_columns T); [|apply same_aggregates_refl].
    apply same_aggregates_app; [apply same_aggregates_refl|].
    apply same_aggregates_app; [apply same_aggregates_refl|].
    intros st. split; reflexivity. }
  apply same_aggregates_app; [apply same_aggregates_refl|].
  apply same_aggregates_app.
  { destruct (has_rfm_columns T); [|apply same_aggregates_refl].
    intros st. split; reflexivity. }
  apply same_aggregates_app; [apply same_aggregates_refl|].
  apply same_aggregates_app; [|apply same_aggregates_refl].
  intros st. split; reflexivity.
Qed.

(** C10. For a loaded table and any two selections of the filter, the
    page is rendered without an exception and shows the same aggregates:
    the charts of the segment counts, of the mean RFM values by segment,
    of the revenue by segment and of the top ten customers, and the
    segment summary table, are identical in the two runs.  (The selection
    reaches the key metrics, the 3D scatter, the histograms and the raw
    data sample only.) *)
Theorem aggregates_do_not_depend_on_selection {np : pd.numpy}
    (w : world) (rfm df : loc) (T : DataFrame) (choice1 choice2 : value) :
  heap w !! rfm = Some T ->
  rfm_typed T ->
  fst (render rfm df choice1 w) = Ok tt /\
  fst (render rfm df choice2 w) = Ok tt /\
  aggregates false (rendered w (snd (render rfm df choice1 w))) =
  aggregates false (rendered w (snd (render rfm df choice2 w))).
Proof.
  intros H Ht.
  destruct (render_shows T Ht) as (counts & heat & revenue & summary & Hrun).
  destruct (Hrun w rfm df choice1 H) as [hs1 E1].
  destruct (Hrun w rfm df choice2 H) as [hs2 E2].
  rewrite E1, E2. cbn [fst snd]. split; [reflexivity|]. split; [reflexivity|].
  unfold rendered. cbn [page]. rewrite !drop_app_length.
  apply layout_same_aggregates; apply selected_view_columns.
Qed.

Lemma example_rfm_typed : rfm_typed example_rfm.
Proof.
  intros c Hc _. cbn in Hc.
  destruct Hc as [<-|[<-|[<-|[]]]]; reflexivity.
Qed.

Lemma aggregates_do_not_depend_on_selection_witness : let np := exact in
  fst (render 0 0 (Str "All") (world_of example_rfm)) = Ok tt /\
  fst (render 0 0 (Str "B") (world_of example_rfm)) = Ok tt /\
  aggregates false
    (rendered (world_of example_rfm) (snd (render 0 0 (Str "All") (world_of example_rfm)))) =
  aggregates false
    (rendered (world_of example_rfm) (snd (render 0 0 (Str "B") (world_of example_rfm)))).
Proof.
  exact (aggregates_do_not_depend_on_selection
           (world_of example_rfm) 0 0 example_rfm (Str "All") (Str "B")
           eq_refl example_rfm_typed).
Defined.

(** On the example the aggregates are five charts and the summary
    table, and the key metrics do depend on the selection. *)
Example example_aggregates : let np := exact in
  length (aggregates false
            (rendered (world_of example_rfm)
               (snd (render 0 0 (Str "B") (world_of example_rfm))))) = 6 /\
  nth_error (page (snd (render 0 0 (Str "All") (world_of example_rfm)))) 6
    = Some (st_metric "Total Customers" (Grouped 3)) /\
  nth_error (page (snd (render 0 0 (Str "B") (world_of example_rfm)))) 6
    = Some (st_metric "Total Customers" (Grouped 1)).
Proof. repeat split; reflexivity. Qed.

(** * Further properties of the script *)

(** ** The outcomes of loading *)

Lemma load_data_loaded (fs : pd.filesystem) (parse : pd.date_parser)
    (w w1 w2 : world) (l l' : loc) :
  load_rfm fs w = (Ok l, w1) ->
  load_transactions fs parse w1 = (Ok l', w2) ->
  load_data fs parse w = (Ok (Some l, Some l'), w2).
Proof.
  intros H1 H2. unfold load_data, try_except, bind. now rewrite H1, H2.
Qed.

Lemma load_data_rfm_raised (fs : pd.filesystem) (parse : pd.date_parser)
    (w w1 : world) (e : exn) :
  load_rfm fs w = (Raise e, w1) ->
  load_data fs parse w =
  (Ok (None, None),
   World (heap w1) (page w1 ++ [st_error (String.append "Error loading data: " (describe e))])).
Proof.
  intros H1. unfold load_data, try_except, bind. now rewrite H1.
Qed.

Lemma load_data_transactions_raised (fs : pd.filesystem) (parse : pd.date_parser)
    (w w1 w2 : world) (l : loc) (e : exn) :
  load_rfm fs w = (Ok l, w1) ->
  load_transactions fs parse w1 = (Raise e, w2) ->
  load_data fs parse w =
  (Ok (None, None),
   World (heap w2) (page w2 ++ [st_error (String.append "Error loading data: " (describe e))])).
Proof.
  intros H1 H2. unfold load_data, try_except, bind. now rewrite H1, H2.
Qed.

(** The RFM table of a successful load is the one that [load_rfm] has
    built. *)
Lemma load_data_rfm_table (fs : pd.filesystem) (parse : pd.date_parser)
    (w w1 w' : world) (l rfm df : loc) (T : DataFrame) :
  load_rfm fs w = (Ok l, w1) ->
  heap w1 !! l = Some T ->
  load_data fs parse w = (Ok (Some rfm, Some df), w') ->
  rfm = l /\ heap w' !! rfm = Some T.
Proof.
  intros H1 HT Hload.
  destruct (load_transactions_quiet fs parse (heap w1) (page w1) w1) as [[[hs Hh] _] _].
  { split; [|reflexivity]. exists []. now rewrite app_nil_r. }
  destruct (load_transactions fs parse w1) as [[l'|e] w2] eqn:H2.
  - rewrite (load_data_loaded fs parse w w1 w2 l l' H1 H2) in Hload.
    injection Hload as <- <- <-. split; [reflexivity|].
    cbn [snd] in Hh. rewrite Hh. now apply lookup_kept.
  - rewrite (load_data_transactions_raised fs parse w w1 w2 l e H1 H2) in Hload.
    discriminate Hload.
Qed.

Lemma load_body_raises (fs : pd.filesystem) (parse : pd.date_parser) (w : world) :
  load_failure fs parse ->
  exists e,
    fst (bind (load_rfm fs) (fun rfm =>
         bind (load_transactions fs parse) (fun df => ret (Some rfm, Some df))) w) = Raise e.
Proof.
  intros [Hm|f Hf Hh|Ht|tx Ht Hn|tx i record text Ht Hi Hin Hnth Hp].
  - destruct (load_rfm_raises fs w) as [e He]; [auto|].
    exists e. now apply fst_bind_raise_l.
  - destruct (load_rfm_raises fs w) as [e He]; [eauto|].
    exists e. now apply fst_bind_raise_l.
  - apply fst_bind_raise_r. intros l0 w2.
    destruct (load_transactions_raises fs parse w2) as [e He]; [auto|].
    exists e. now apply fst_bind_raise_l.
  - apply fst_bind_raise_r. intros l0 w2.
    destruct (load_transactions_raises fs parse w2) as [e He]; [eauto|].
    exists e. now apply fst_bind_raise_l.
  - apply fst_bind_raise_r. intros l0 w2.
    destruct (load_transactions_raises fs parse w2) as [e He];
      [right; exists tx; split; [exact Ht|right; eauto 10]|].
    exists e. now apply fst_bind_raise_l.
Qed.

(** A failed load leaves one message on the page. *)
Lemma load_data_failure (fs : pd.filesystem) (parse : pd.date_parser) (w : world) :
  load_failure fs parse ->
  exists e h,
    load_data fs parse w =
    (Ok (None, None),
     World h (page w ++ [st_error (String.append "Error loading data: " (describe e))])).
Proof.
  intros Hfail.
  assert (Hquiet : keeps (heap w) (eq (page w))
            (bind (load_rfm fs) (fun rfm =>
             bind (load_transactions fs parse) (fun df => ret (Some rfm, Some df))))
            (fun _ => True)).
  { eapply keeps_bind; [apply load_rfm_quiet|]. intros rfm _.
    eapply keeps_bind; [apply load_transactions_quiet|]. intros df _.
    now apply keeps_ret. }
  destruct (Hquiet w) as [[_ Hpage] _].
  { split; [|reflexivity]. exists []. now rewrite app_nil_r. }
  destruct (load_body_raises fs parse w Hfail) as [e He].
  unfold load_data, try_except.
  destruct (bind (load_rfm fs) _ w) as [[a|e'] w1]; cbn [fst snd] in *; [discriminate He|].
  injection He as ->. exists e, (heap w1). unfold bind, emit, ret. cbn [heap page].
  now rewrite Hpage.
Qed.

Lemma banner_run (w : world) :
  banner w =
  (Ok tt,
   World (heap w)
     (page w ++ [st_title "📊 Customer Segmentation Analysis Dashboard";
                 st_markdown "### RFM-Based Customer Segmentation for E-Commerce";
                 st_markdown "---"])).
Proof. unfold banner. rewrite !bind_emit. page_done. Qed.

(** X1. When loading fails, the script ends normally and the page is the
    banner, the message of the failed load and the closing error message;
    no metric, chart or table is rendered. *)
Theorem dashboard_on_failed_load_shows_only_errors {np : pd.numpy}
    (fs : pd.filesystem) (parse : pd.date_parser) (choice : value) (w : world) :
  load_failure fs parse ->
  exists (w' : world) (e : exn),
    dashboard fs parse choice w = (Ok tt, w') /\
    rendered w w' =
      [st_title "📊 Customer Segmentation Analysis Dashboard";
       st_markdown "### RFM-Based Customer Segmentation for E-Commerce";
       st_markdown "---";
       st_error (String.append "Error loading data: " (describe e));
       st_error "❌ Could not load data files. Please check that 'rfm_analysis.csv' and 'cleaned_online_retail.csv' exist in the 'data' folder."].
Proof.
  intros Hfail. unfold dashboard. unfold bind at 1. rewrite banner_run.
  unfold bind at 1.
  match goal with
  | |- context [load_data fs parse ?w1] =>
      destruct (load_data_failure fs parse w1 Hfail) as (e & h & E); rewrite E
  end.
  eexists. exists e. split; [reflexivity|].
  unfold rendered, emit. cbn [snd page]. rewrite <- !app_assoc. cbn [app].
  apply drop_app_length.
Qed.

Lemma dashboard_on_failed_load_shows_only_errors_witness : let np := exact in
  exists (w' : world) (e : exn),
    dashboard bad_files example_parse (Str "All") empty_world = (Ok tt, w') /\
    rendered empty_world w' =
      [st_title "📊 Customer Segmentation Analysis Dashboard";
       st_markdown "### RFM-Based Customer Segmentation for E-Commerce";
       st_markdown "---";
       st_error (String.append "Error loading data: " (describe e));
       st_error "❌ Could not load data files. Please check that 'rfm_analysis.csv' and 'cleaned_online_retail.csv' exist in the 'data' folder."].
Proof.
  apply (dashboard_on_failed_load_shows_only_errors bad_files example_parse).
  apply (invoice_date_unparseable _ _ (example_transactions_csv "2010-13-45") 1
           [Num 536366; Str "2010-13-45"] "2010-13-45");
    [reflexivity|reflexivity|cbn; auto|reflexivity|reflexivity].
Defined.

(** ** The customer identifier of the RFM table *)

Lemma indexed_compose {A B C : Type} (g : B -> C) (f : nat -> A -> B) (i : nat) (l : list A) :
  map g (pd.indexed f i l) = pd.indexed (fun j x => g (f j x)) i l.
Proof.
  revert i. induction l as [|x t IH]; intros i; simpl; [reflexivity|]. now rewrite IH.
Qed.

Lemma indexed_indexed {A B C : Type} (g : nat -> B -> C) (f : nat -> A -> B)
    (i : nat) (l : list A) :
  pd.indexed g i (pd.indexed f i l) = pd.indexed (fun j x => g j (f j x)) i l.
Proof.
  revert i. induction l as [|x t IH]; intros i; simpl; [reflexivity|]. now rewrite IH.
Qed.

Lemma rename_absent (old new : string) (cols : list string) :
  pd.has_column old cols = false ->
  map (fun c => if String.eqb c old then new else c) cols = cols.
Proof.
  induction cols as [|c t IH]; [reflexivity|]. cbn [pd.has_column existsb map].
  intros H. apply orb_false_iff in H as [Hc Ht].
  rewrite String.eqb_sym, Hc. f_equal. now apply IH.
Qed.

Lemma bind_get_at {A : Type} (l : loc) (k : DataFrame -> M A)
    (h : list DataFrame) (p : list widget) (d : DataFrame) :
  h !! l = Some d -> bind (get l) k (World h p) = k d (World h p).
Proof. intros H. now apply bind_get. Qed.

Lemma bind_update_at {A : Type} (l : loc) (f : DataFrame -> result DataFrame)
    (k : unit -> M A) (h : list DataFrame) (p : list widget) (d : DataFrame) :
  h !! l = Some d ->
  bind (update l f) k (World h p) =
  match f d with
  | Ok d' => k tt (World (<[l := d']> h) p)
  | Raise e => (Raise e, World h p)
  end.
Proof. intros H. now apply bind_update. Qed.

(** A file that has a column "CustomerID", and whose first column has no
    sentinel name, is taken as it is. *)
Lemma load_rfm_labelled (fs : pd.filesystem) (w : world) (f : pd.csv)
    (c0 : string) (d0 : dtype) (rest : list (string * dtype)) :
  fs rfm_path = Some f ->
  pd.header f = (c0, d0) :: rest ->
  pd.has_column c0 ["Unnamed: 0"; "index"] = false ->
  pd.has_column "CustomerID" (map fst (pd.header f)) = true ->
  load_rfm fs w = (Ok (length (heap w)), World (heap w ++ [file_table f]) (page w)).
Proof.
  intros Hf Hh Hs Hc. unfold load_rfm, file_table. rewrite bind_new. unfold pd.read_csv.
  rewrite Hf. rewrite Hh in *. rewrite bind_get_fresh, bind_lift.
  cbn [pd.columns schema map fst]. rewrite Hs, bind_ret, bind_get_fresh.
  change (pd.columns (Frame None (pd.index_dtype_of f) ((c0, d0) :: rest)
            (pd.indexed (fun i r => Row (pd.label_at f i) r) 0 (pd.records f))))
    with (map fst ((c0, d0) :: rest)).
  now rewrite Hc.
Qed.

(** A file without a column "CustomerID", whose first column has no
    sentinel name: the index becomes a column, named "index", or
    "level_0" when the file has a column "index" already; then the
    column "index" is renamed. *)
Lemma load_rfm_unlabelled (fs : pd.filesystem) (w : world) (f : pd.csv)
    (c0 : string) (d0 : dtype) (rest : list (string * dtype)) :
  fs rfm_path = Some f ->
  pd.header f = (c0, d0) :: rest ->
  pd.has_column c0 ["Unnamed: 0"; "index"] = false ->
  pd.has_column "CustomerID" (map fst (pd.header f)) = false ->
  pd.has_column (if pd.has_column "index" (map fst (pd.header f)) then "level_0" else "index")
    (map fst (pd.header f)) = false ->
  load_rfm fs w =
  (Ok (S (length (heap w))),
   World (heap w ++
            [file_table f;
             pd.rename "index" "CustomerID"
               (Frame None Numeric
                  ((if pd.has_column "index" (map fst (pd.header f)) then "level_0" else "index",
                    pd.index_dtype_of f) :: pd.header f)
                  (pd.indexed (fun i r => Row (pd.of_nat i) (pd.label_at f i :: r)) 0
                     (pd.records f)))])
     (page w)).
Proof.
  intros Hf Hh Hs Hc Hn. unfold load_rfm, file_table. rewrite bind_new. unfold pd.read_csv.
  rewrite Hf. rewrite Hh in *. rewrite bind_get_fresh, bind_lift.
  cbn [pd.columns schema map fst] in *. rewrite Hs, bind_ret, bind_get_fresh.
  change (pd.columns (Frame None (pd.index_dtype_of f) ((c0, d0) :: rest)
            (pd.indexed (fun i r => Row (pd.label_at f i) r) 0 (pd.records f))))
    with (c0 :: map fst rest).
  rewrite Hc. cbn [negb]. rewrite bind_new. unfold pd.reset_index.
  cbn [index_name index_dtype schema rows pd.columns map fst].
  rewrite Hn. cbn [heap page].
  replace (length (heap w ++ [Frame None (pd.index_dtype_of f) ((c0, d0) :: rest)
             (pd.indexed (fun i r => Row (pd.label_at f i) r) 0 (pd.records f))]))
    with (S (length (heap w))) by (rewrite length_app; cbn; lia).
  rewrite <- app_assoc. cbn [app].
  assert (Hrows :
    pd.range_index
      (map (fun r => Row (label r) (label r :: cells r))
         (pd.indexed (fun i r => Row (pd.label_at f i) r) 0 (pd.records f))) =
    pd.indexed (fun i r => Row (pd.of_nat i) (pd.label_at f i :: r)) 0 (pd.records f)).
  { unfold pd.range_index. rewrite indexed_compose, indexed_indexed. reflexivity. }
  rewrite Hrows.
  assert (Hlook : forall d : DataFrame,
    (heap w ++ [Frame None (pd.index_dtype_of f) ((c0, d0) :: rest)
                  (pd.indexed (fun i r => Row (pd.label_at f i) r) 0 (pd.records f)); d])
      !! S (length (heap w)) = Some d).
  { intros d. rewrite lookup_app_r by lia.
    replace (S (length (heap w)) - length (heap w)) with 1 by lia. reflexivity. }
  rewrite (bind_get_at _ _ _ _ _ (Hlook _)).
  assert (Hidx : pd.has_column "index"
            (pd.columns (Frame None Numeric
               ((if pd.has_column "index" (c0 :: map fst rest) then "level_0" else "index",
                 pd.index_dtype_of f) :: (c0, d0) :: rest)
               (pd.indexed (fun i r => Row (pd.of_nat i) (pd.label_at f i :: r)) 0
                  (pd.records f)))) = true).
  { cbn [pd.columns schema map fst].
    destruct (pd.has_column "index" (c0 :: map fst rest)) eqn:Hi.
    - cbn [pd.has_column existsb] in *. rewrite Hi. apply orb_true_r.
    - reflexivity. }
  rewrite Hidx. rewrite (bind_update_at _ _ _ _ _ _ (Hlook _)).
  unfold ret. do 2 f_equal.
  rewrite insert_app_r_alt by lia.
  replace (S (length (heap w)) - length (heap w)) with 1 by lia. reflexivity.
Qed.

(** The same file with both a column "index" and a column "level_0":
    the index cannot become a column. *)
Lemma load_rfm_index_clash (fs : pd.filesystem) (w : world) (f : pd.csv)
    (c0 : string) (d0 : dtype) (rest : list (string * dtype)) :
  fs rfm_path = Some f ->
  pd.header f = (c0, d0) :: rest ->
  pd.has_column c0 ["Unnamed: 0"; "index"] = false ->
  pd.has_column "CustomerID" (map fst (pd.header f)) = false ->
  pd.has_column "index" (map fst (pd.header f)) = true ->
  pd.has_column "level_0" (map fst (pd.header f)) = true ->
  exists w1,
    load_rfm fs w = (Raise (ValueError "cannot insert index, already exists"), w1) /\
    page w1 = page w.
Proof.
  intros Hf Hh Hs Hc Hi Hl. unfold load_rfm. rewrite bind_new. unfold pd.read_csv.
  rewrite Hf. rewrite Hh in *. rewrite bind_get_fresh, bind_lift.
  cbn [pd.columns schema map fst] in *. rewrite Hs, bind_ret, bind_get_fresh.
  change (pd.columns (Frame None (pd.index_dtype_of f) ((c0, d0) :: rest)
            (pd.indexed (fun i r => Row (pd.label_at f i) r) 0 (pd.records f))))
    with (c0 :: map fst rest).
  rewrite Hc. cbn [negb]. rewrite bind_new. unfold pd.reset_index.
  cbn [index_name index_dtype schema rows pd.columns map fst].
  rewrite Hi, Hl. eexists. split; reflexivity.
Qed.

Lemma lookup_second (h : list DataFrame) (a b : DataFrame) :
  (h ++ [a; b]) !! S (length h) = Some b.
Proof.
  rewrite lookup_app_r by lia.
  replace (S (length h) - length h) with 1 by lia. reflexivity.
Qed.

Lemma indexed_seq {A : Type} (g : nat -> value) (j : nat) (l : list A) :
  pd.indexed (fun i _ => g i) j l = map g (seq j (length l)).
Proof.
  revert j. induction l as [|x t IH]; intros j; simpl; [reflexivity|]. now rewrite IH.
Qed.

Lemma map_nth_seq (firsts : list value) :
  map (fun i => nth i firsts NaN) (seq 0 (length firsts)) = firsts.
Proof.
  induction firsts as [|x t IH]; [reflexivity|]. cbn [length seq map nth]. f_equal.
  rewrite <- seq_shift, List.map_map. exact IH.
Qed.

(** X2. An RFM file without a column "CustomerID" or "index", whose first
    column has no sentinel name: in the loaded table the customer
    identifier is a new first column that holds the index that pandas
    has read, and the columns of the file follow unchanged.  For a file
    saved with its index, whose lines have one field more than the
    header, these are the first fields of the lines; for a file without
    an index they are the positions of the records, 0, 1, 2, ... *)
Theorem unlabelled_rfm_gets_index_as_customer_id
    (fs : pd.filesystem) (parse : pd.date_parser) (w w' : world) (f : pd.csv)
    (c0 : string) (d0 : dtype) (rest : list (string * dtype)) (rfm df : loc) :
  fs rfm_path = Some f ->
  pd.header f = (c0, d0) :: rest ->
  pd.has_column c0 ["Unnamed: 0"; "index"] = false ->
  pd.has_column "CustomerID" (map fst (pd.header f)) = false ->
  pd.has_column "index" (map fst (pd.header f)) = false ->
  load_data fs parse w = (Ok (Some rfm, Some df), w') ->
  exists T,
    heap w' !! rfm = Some T /\
    pd.columns T = "CustomerID" :: map fst (pd.header f) /\
    map cells (rows T) =
      pd.indexed (fun i record => pd.label_at f i :: record) 0 (pd.records f) /\
    (forall d firsts, pd.index_col f = Some (d, firsts) ->
       length firsts = length (pd.records f) ->
       column "CustomerID" T = firsts) /\
    (pd.index_col f = None ->
     column "CustomerID" T = map pd.of_nat (seq 0 (length (pd.records f)))).
Proof.
  intros Hf Hh Hs Hc Hi Hload.
  pose proof (load_rfm_unlabelled fs w f c0 d0 rest Hf Hh Hs Hc) as Hrun.
  rewrite Hi in Hrun. specialize (Hrun Hi).
  assert (Hcol : column "CustomerID"
            (pd.rename "index" "CustomerID"
               (Frame None Numeric (("index", pd.index_dtype_of f) :: pd.header f)
                  (pd.indexed (fun i r => Row (pd.of_nat i) (pd.label_at f i :: r)) 0
                     (pd.records f)))) =
          map (pd.label_at f) (seq 0 (length (pd.records f)))).
  { unfold column, field. rewrite rename_columns.
    cbn [pd.columns schema map fst String.eqb Ascii.eqb Bool.eqb pd.position].
    unfold pd.rename. cbn [rows]. rewrite indexed_compose.
    rewrite <- (indexed_seq (pd.label_at f) 0 (pd.records f)). reflexivity. }
  eexists. split; [|split; [|split; [|split]]].
  - eapply (load_data_rfm_table fs parse w _ w' _ rfm df); [exact Hrun| |exact Hload].
    apply lookup_second.
  - rewrite rename_columns. cbn [pd.columns schema map fst String.eqb Ascii.eqb Bool.eqb].
    f_equal. now apply rename_absent.
  - unfold pd.rename. cbn [rows]. apply indexed_compose.
  - intros d firsts Hidx Hlen. rewrite Hcol. unfold pd.label_at. rewrite Hidx, <- Hlen.
    apply map_nth_seq.
  - intros Hidx. rewrite Hcol. unfold pd.label_at. now rewrite Hidx.
Qed.

Lemma unlabelled_rfm_gets_index_as_customer_id_witness :
  exists T,
    heap (snd (load_data (with_rfm indexed_csv) example_parse empty_world)) !! 1 = Some T /\
    pd.columns T = "CustomerID" :: map fst (pd.header indexed_csv) /\
    map cells (rows T) =
      pd.indexed (fun i record => pd.label_at indexed_csv i :: record) 0
        (pd.records indexed_csv) /\
    (forall d firsts, pd.index_col indexed_csv = Some (d, firsts) ->
       length firsts = length (pd.records indexed_csv) ->
       column "CustomerID" T = firsts) /\
    (pd.index_col indexed_csv = None ->
     column "CustomerID" T = map pd.of_nat (seq 0 (length (pd.records indexed_csv)))).
Proof.
  exact (unlabelled_rfm_gets_index_as_customer_id
           (with_rfm indexed_csv) example_parse empty_world
           (snd (load_data (with_rfm indexed_csv) example_parse empty_world))
           indexed_csv "Recency" Numeric [("Monetary", Numeric)] 1 2
           eq_refl eq_refl eq_refl eq_refl eq_refl eq_refl).
Defined.

(** On the examples: the identifiers of a file saved with its index, and
    the row numbers of a file saved without. *)
Example customer_id_of_example_files :
  (exists T,
     heap (snd (load_data (with_rfm indexed_csv) example_parse empty_world)) !! 1 = Some T /\
     column "CustomerID" T = [Num 17850; Num 13047]) /\
  (exists T,
     heap (snd (load_data (with_rfm unlabelled_csv) example_parse empty_world)) !! 1 = Some T /\
     column "CustomerID" T = [Num 0; Num 1]).
Proof. split; eexists; split; reflexivity. Qed.

(** X3. An RFM file that has a column "CustomerID", and whose first
    column has no sentinel name, is loaded as it is: the same columns and
    the same records. *)
Theorem labelled_rfm_is_loaded_unchanged
    (fs : pd.filesystem) (parse : pd.date_parser) (w w' : world) (f : pd.csv)
    (c0 : string) (d0 : dtype) (rest : list (string * dtype)) (rfm df : loc) :
  fs rfm_path = Some f ->
  pd.header f = (c0, d0) :: rest ->
  pd.has_column c0 ["Unnamed: 0"; "index"] = false ->
  pd.has_column "CustomerID" (map fst (pd.header f)) = true ->
  load_data fs parse w = (Ok (Some rfm, Some df), w') ->
  exists T,
    heap w' !! rfm = Some T /\
    schema T = pd.header f /\
    map cells (rows T) = pd.records f.
Proof.
  intros Hf Hh Hs Hc Hload.
  pose proof (load_rfm_labelled fs w f c0 d0 rest Hf Hh Hs Hc) as Hrun.
  exists (file_table f). split; [|split].
  - eapply (load_data_rfm_table fs parse w _ w' _ rfm df); [exact Hrun| |exact Hload].
    apply lookup_fresh.
  - reflexivity.
  - unfold file_table. cbn [rows]. rewrite indexed_compose. cbn [cells].
    generalize 0. induction (pd.records f) as [|r t IH]; intros i; simpl; [reflexivity|].
    now rewrite IH.
Qed.

Lemma labelled_rfm_is_loaded_unchanged_witness :
  exists T,
    heap (snd (load_data (with_rfm labelled_csv) example_parse empty_world)) !! 0 = Some T /\
    schema T = pd.header labelled_csv /\
    map cells (rows T) = pd.records labelled_csv.
Proof.
  exact (labelled_rfm_is_loaded_unchanged
           (with_rfm labelled_csv) example_parse empty_world
           (snd (load_data (with_rfm labelled_csv) example_parse empty_world))
           labelled_csv "Recency" Numeric [("CustomerID", Numeric)] 0 1
           eq_refl eq_refl eq_refl eq_refl eq_refl).
Defined.

(** X4. An RFM file without a column "CustomerID" that has a column
    "index" which is not the first one (and no column "level_0"): the
    index that pandas has read (the first fields of the lines of a file
    saved with its index, else the positions of the records) becomes a
    first column "level_0", and it is the file's own column "index" that
    is renamed to "CustomerID". *)
Theorem rfm_with_inner_index_column_renames_that_column
    (fs : pd.filesystem) (parse : pd.date_parser) (w w' : world) (f : pd.csv)
    (c0 : string) (d0 : dtype) (rest : list (string * dtype)) (rfm df : loc) :
  fs rfm_path = Some f ->
  pd.header f = (c0, d0) :: rest ->
  pd.has_column c0 ["Unnamed: 0"; "index"] = false ->
  pd.has_column "CustomerID" (map fst (pd.header f)) = false ->
  pd.has_column "index" (map fst (pd.header f)) = true ->
  pd.has_column "level_0" (map fst (pd.header f)) = false ->
  load_data fs parse w = (Ok (Some rfm, Some df), w') ->
  exists T,
    heap w' !! rfm = Some T /\
    pd.columns T =
      "level_0" :: map (fun c => if String.eqb c "index" then "CustomerID" else c)
                     (map fst (pd.header f)) /\
    pd.has_column "index" (pd.columns T) = false /\
    map cells (rows T) =
      pd.indexed (fun i record => pd.label_at f i :: record) 0 (pd.records f).
Proof.
  intros Hf Hh Hs Hc Hi Hl Hload.
  pose proof (load_rfm_unlabelled fs w f c0 d0 rest Hf Hh Hs Hc) as Hrun.
  rewrite Hi in Hrun. specialize (Hrun Hl).
  eexists. split; [|split; [|split]].
  - eapply (load_data_rfm_table fs parse w _ w' _ rfm df); [exact Hrun| |exact Hload].
    apply lookup_second.
  - rewrite rename_columns. reflexivity.
  - rewrite rename_columns. now apply renamed_column_gone.
  - unfold pd.rename. cbn [rows]. apply indexed_compose.
Qed.

Lemma rfm_with_inner_index_column_renames_that_column_witness :
  exists T,
    heap (snd (load_data (with_rfm index_inside_csv) example_parse empty_world)) !! 1 = Some T /\
    pd.columns T =
      "level_0" :: map (fun c => if String.eqb c "index" then "CustomerID" else c)
                     (map fst (pd.header index_inside_csv)) /\
    pd.has_column "index" (pd.columns T) = false /\
    map cells (rows T) =
      pd.indexed (fun i record => pd.label_at index_inside_csv i :: record) 0
        (pd.records index_inside_csv).
Proof.
  exact (rfm_with_inner_index_column_renames_that_column
           (with_rfm index_inside_csv) example_parse empty_world
           (snd (load_data (with_rfm index_inside_csv) example_parse empty_world))
           index_inside_csv "Recency" Numeric [("index", Numeric)] 1 2
           eq_refl eq_refl eq_refl eq_refl eq_refl eq_refl eq_refl).
Defined.

(** X5. An RFM file without a column "CustomerID" that has both a column
    "index" (not the first) and a column "level_0" cannot be loaded: the
    index finds no free name, and the load yields neither table and one
    error message, whatever the transactions are. *)
Theorem rfm_with_index_and_level_0_fails_to_load
    (fs : pd.filesystem) (parse : pd.date_parser) (w : world) (f : pd.csv)
    (c0 : string) (d0 : dtype) (rest : list (string * dtype)) :
  fs rfm_path = Some f ->
  pd.header f = (c0, d0) :: rest ->
  pd.has_column c0 ["Unnamed: 0"; "index"] = false ->
  pd.has_column "CustomerID" (map fst (pd.header f)) = false ->
  pd.has_column "index" (map fst (pd.header f)) = true ->
  pd.has_column "level_0" (map fst (pd.header f)) = true ->
  exists (w' : world) (msg : string),
    load_data fs parse w = (Ok (None, None), w') /\
    rendered w w' = [st_error msg].
Proof.
  intros Hf Hh Hs Hc Hi Hl.
  destruct (load_rfm_index_clash fs w f c0 d0 rest Hf Hh Hs Hc Hi Hl) as (w1 & Hrun & Hp).
  rewrite (load_data_rfm_raised fs parse w w1 _ Hrun).
  do 2 eexists. split; [reflexivity|].
  unfold rendered. cbn [page]. rewrite Hp. apply drop_app_length.
Qed.

Lemma rfm_with_index_and_level_0_fails_to_load_witness :
  exists (w' : world) (msg : string),
    load_data (with_rfm index_clash_csv) example_parse empty_world = (Ok (None, None), w') /\
    rendered empty_world w' = [st_error msg].
Proof.
  exact (rfm_with_index_and_level_0_fails_to_load
           (with_rfm index_clash_csv) example_parse empty_world
           index_clash_csv "Recency" Numeric [("index", Numeric); ("level_0", Numeric)]
           eq_refl eq_refl eq_refl eq_refl eq_refl eq_refl).
Defined.

(** ** The transactions *)

Lemma parse_with_inv (parse : string -> option Z) (l vs : list value) :
  pd.parse_with parse l = Ok vs ->
  vs = map (to_stamp parse) l /\
  forall text, In (Str text) l -> exists t, parse text = Some t.
Proof.
  revert vs. induction l as [|v t IH]; intros vs; cbn [pd.parse_with].
  - intros [= <-]. split; [reflexivity|easy].
  - destruct (pd.parse_with parse t) as [r|e] eqn:Ht.
    + destruct (IH r eq_refl) as [-> Hall].
      destruct v as [q|s|ts|]; cbn [rbind].
      * intros [= <-]. split; [reflexivity|]. intros text [[=]|Hin]. now apply Hall.
      * destruct (parse s) as [ts|] eqn:Hs; cbn [rbind]; [|discriminate].
        intros [= <-]. split; [cbn; now rewrite Hs|].
        intros text [[= <-]|Hin]; [eauto|now apply Hall].
      * intros [= <-]. split; [reflexivity|]. intros text [[=]|Hin]. now apply Hall.
      * intros [= <-]. split; [reflexivity|]. intros text [[=]|Hin]. now apply Hall.
    + destruct v as [q|s|ts|]; cbn [rbind]; try discriminate.
      destruct (parse s); cbn [rbind]; discriminate.
Qed.

Lemma map_snd_combine {A B : Type} (a : list A) (b : list B) :
  length a = length b -> map snd (combine a b) = b.
Proof.
  revert b. induction a as [|x t IH]; intros [|y u]; simpl; try easy.
  intros [= H]. now rewrite IH.
Qed.

Lemma setitem_rows (i : nat) (f : nat -> list value -> row) (g : list value -> value)
    (j : nat) (l : list (list value)) :
  (forall k r, cells (f k r) = r) ->
  map (fun rv : row * value => Row (label (fst rv)) (pd.replace_nth i (snd rv) (cells (fst rv))))
    (combine (pd.indexed f j l) (map g l)) =
  pd.indexed (fun k r => Row (label (f k r)) (pd.replace_nth i (g r) r)) j l.
Proof.
  intros Hf. revert j. induction l as [|r t IH]; intros j; simpl; [reflexivity|].
  now rewrite IH, Hf.
Qed.

Lemma replace_nth_names (c : string) (d : dtype) (h : list (string * dtype)) (i : nat) :
  pd.position c (map fst h) = Some i ->
  map fst (pd.replace_nth i (c, d) h) = map fst h /\
  nth i (map snd (pd.replace_nth i (c, d) h)) Object = d.
Proof.
  revert i. induction h as [|[c' d'] t IH]; intros i; cbn [map fst pd.position]; [easy|].
  destruct (String.eqb_spec c c') as [<-|Hne].
  - intros [= <-]. now cbn.
  - destruct (pd.position c (map fst t)) as [j|] eqn:Hj; cbn [option_map]; [|easy].
    intros [= <-]. destruct (IH j eq_refl) as [E1 E2]. cbn. now rewrite E1, E2.
Qed.

(** What a successful load of the transactions has built. *)
Lemma load_transactions_result (fs : pd.filesystem) (parse : pd.date_parser)
    (w w' : world) (tx : pd.csv) (df : loc) :
  fs transactions_path = Some tx ->
  load_transactions fs parse w = (Ok df, w') ->
  exists i,
    pd.position "InvoiceDate" (map fst (pd.header tx)) = Some i /\
    (forall record text, In record (pd.records tx) -> nth i record NaN = Str text ->
       exists t, date_reader parse tx i text = Some t) /\
    df = length (heap w) /\
    w' = World (heap w ++
                  [Frame None (pd.index_dtype_of tx)
                     (pd.replace_nth i ("InvoiceDate", Datetime) (pd.header tx))
                     (pd.indexed
                        (fun k r => Row (pd.label_at tx k)
                                      (pd.replace_nth i
                                         (to_stamp (date_reader parse tx i) (nth i r NaN)) r))
                        0 (pd.records tx))])
           (page w).
Proof.
  intros Hf. unfold load_transactions. rewrite bind_new. unfold pd.read_csv. rewrite Hf.
  destruct (pd.header tx) as [|c cs] eqn:Hh; [discriminate|].
  rewrite bind_get_fresh, bind_lift.
  destruct (pd.position "InvoiceDate" (map fst (c :: cs))) as [i|] eqn:Hi.
  - destruct (getitem_values
                (Frame None (pd.index_dtype_of tx) (c :: cs)
                   (pd.indexed (fun j r => Row (pd.label_at tx j) r) 0 (pd.records tx)))
                "InvoiceDate" i Hi) as (s & Hs & Hv & _).
    rewrite Hs. cbn [rbind]. unfold pd.to_datetime.
    cbn [rows] in Hv. rewrite (read_csv_rows (pd.label_at tx)) in Hv.
    destruct (pd.parse_all parse (pd.values s)) as [vs|e] eqn:Hp; cbn [rbind]; [|discriminate].
    unfold pd.parse_all in Hp. rewrite Hv in Hp. fold (date_reader parse tx i) in Hp.
    destruct (parse_with_inv _ _ _ Hp) as [-> Hall].
    assert (Hitems : length (map fst (items s)) =
                     length (map (to_stamp (date_reader parse tx i))
                               (map (fun r => nth i r NaN) (pd.records tx)))).
    { rewrite <- Hv. unfold pd.values. now rewrite !length_map. }
    rewrite bind_update_fresh. unfold pd.setitem.
    unfold pd.values. cbn [items].
    rewrite !(map_snd_combine _ _ Hitems). cbn [rows].
    rewrite !length_map, indexed_length, Nat.eqb_refl.
    change (pd.columns (Frame None (pd.index_dtype_of tx) (c :: cs)
              (pd.indexed (fun j r => Row (pd.label_at tx j) r) 0 (pd.records tx))))
      with (map fst (c :: cs)).
    rewrite Hi. cbn [index_name index_dtype schema rows]. rewrite List.map_map.
    rewrite (setitem_rows i (fun j r => Row (pd.label_at tx j) r)
               (fun r => to_stamp (date_reader parse tx i) (nth i r NaN)) 0 (pd.records tx))
      by reflexivity.
    cbn [label]. unfold ret. intros [= <- <-]. exists i.
    split; [reflexivity|]. split; [|split; reflexivity].
    intros record text Hin Hnth. apply Hall. rewrite <- Hnth.
    apply in_map_iff. eauto.
  - rewrite (getitem_missing
               (Frame None (pd.index_dtype_of tx) (c :: cs)
                  (pd.indexed (fun j r => Row (pd.label_at tx j) r) 0 (pd.records tx)))
               "InvoiceDate" Hi).
    cbn [rbind]. discriminate.
Qed.

(** X6. After a successful load the transactions table has the columns
    and the records of the file, record for record; its column
    "InvoiceDate" has the datetime dtype, and in every record the cell of
    that column, and no other, is replaced by its timestamp: a text by
    its reading in the format of the first text of the column, a number
    by its integer part.  Every date text of the file has been read in
    that format. *)
Theorem loaded_transactions_keep_records_and_parse_dates
    (fs : pd.filesystem) (parse : pd.date_parser) (w w' : world) (tx : pd.csv)
    (rfm df : loc) :
  fs transactions_path = Some tx ->
  load_data fs parse w = (Ok (Some rfm, Some df), w') ->
  exists (i : nat) (D : DataFrame),
    pd.position "InvoiceDate" (map fst (pd.header tx)) = Some i /\
    heap w' !! df = Some D /\
    pd.columns D = map fst (pd.header tx) /\
    pd.dtype_of "InvoiceDate" D = Some Datetime /\
    map cells (rows D) =
      map (fun record =>
             pd.replace_nth i (to_stamp (date_reader parse tx i) (nth i record NaN)) record)
        (pd.records tx) /\
    (forall record text, In record (pd.records tx) -> nth i record NaN = Str text ->
       exists t, date_reader parse tx i text = Some t).
Proof.
  intros Hf Hload. unfold load_data, try_except, bind in Hload.
  destruct (load_rfm fs w) as [[l|e] w1]; [|discriminate Hload].
  destruct (load_transactions fs parse w1) as [[l'|e] w2] eqn:Htx; [|discriminate Hload].
  injection Hload as <- <- <-.
  destruct (load_transactions_result fs parse w1 w2 tx l' Hf Htx) as (i & Hi & Hall & -> & ->).
  exists i. eexists. split; [exact Hi|]. split; [apply lookup_fresh|].
  destruct (replace_nth_names "InvoiceDate" Datetime (pd.header tx) i Hi) as [Hn Hd].
  split; [exact Hn|]. split; [|split; [|exact Hall]].
  - unfold pd.dtype_of, pd.columns, pd.dtype_at. cbn [schema]. rewrite Hn, Hi. cbn [option_map].
    now rewrite Hd.
  - cbn [rows]. now apply map_indexed.
Qed.

Lemma loaded_transactions_keep_records_and_parse_dates_witness :
  exists (i : nat) (D : DataFrame),
    pd.position "InvoiceDate"
      (map fst (pd.header (example_transactions_csv "2010-12-01 08:28:00"))) = Some i /\
    heap (snd (load_data good_files example_parse empty_world)) !! 1 = Some D /\
    pd.columns D = map fst (pd.header (example_transactions_csv "2010-12-01 08:28:00")) /\
    pd.dtype_of "InvoiceDate" D = Some Datetime /\
    map cells (rows D) =
      map (fun record =>
             pd.replace_nth i
               (to_stamp
                  (date_reader example_parse (example_transactions_csv "2010-12-01 08:28:00") i)
                  (nth i record NaN)) record)
        (pd.records (example_transactions_csv "2010-12-01 08:28:00")) /\
    (forall record text,
       In record (pd.records (example_transactions_csv "2010-12-01 08:28:00")) ->
       nth i record NaN = Str text ->
       exists t,
         date_reader example_parse (example_transactions_csv "2010-12-01 08:28:00") i text =
         Some t).
Proof.
  exact (loaded_transactions_keep_records_and_parse_dates
           good_files example_parse empty_world
           (snd (load_data good_files example_parse empty_world))
           (example_transactions_csv "2010-12-01 08:28:00") 0 1 eq_refl eq_refl).
Defined.

(** ** The counts, the revenue and the filtered views agree *)

Lemma count_order_total (a b : value * nat) :
  Nat.leb (snd b) (snd a) = true \/ Nat.leb (snd a) (snd b) = true.
Proof. rewrite !Nat.leb_le. lia. Qed.

Lemma count_order_trans (a b c : value * nat) :
  Nat.leb (snd b) (snd a) = true -> Nat.leb (snd c) (snd b) = true ->
  Nat.leb (snd c) (snd a) = true.
Proof. rewrite !Nat.leb_le. lia. Qed.

(** X7. The table of customer counts lists the segments in descending
    order of their count. *)
Theorem segment_counts_in_descending_order {np : pd.numpy} (w : world) (rfm : loc) (T : DataFrame) :
  heap w !! rfm = Some T ->
  pd.has_column "Customer_Segment" (pd.columns T) = true ->
  exists (counts : loc) (w' : world) (D : DataFrame),
    segment_counts rfm w = (Ok counts, w') /\
    heap w' !! counts = Some D /\
    StronglySorted
      (fun a b => as_count (field "Count" D b) <= as_count (field "Count" D a)) (rows D).
Proof.
  intros H Hc. destruct (has_column_position _ _ Hc) as [i Hi].
  rewrite (segment_counts_run w rfm T i H Hi).
  do 3 eexists. split; [reflexivity|]. split; [apply lookup_fresh|]. cbn [rows].
  eapply StronglySorted_indexed;
    [|apply (stable_sort_sorted _ count_order_total count_order_trans)].
  intros j j' [k n] [k' n'] Hxy. unfold sorted_by in Hxy. cbn [fst snd] in *.
  destruct (field_of_counts (pd.dtype_at i T)
              (pd.indexed (fun j kc => Row (pd.of_nat j) [fst kc; pd.of_nat (snd kc)]) 0
                 (pd.tally (map (pd.at_col i) (rows T))))
              (pd.of_nat j) k (pd.of_nat n)) as [_ ->].
  destruct (field_of_counts (pd.dtype_at i T)
              (pd.indexed (fun j kc => Row (pd.of_nat j) [fst kc; pd.of_nat (snd kc)]) 0
                 (pd.tally (map (pd.at_col i) (rows T))))
              (pd.of_nat j') k' (pd.of_nat n')) as [_ ->].
  rewrite !as_count_of_nat. now apply Nat.leb_le.
Qed.

Lemma segment_counts_in_descending_order_witness : let np := exact in
  exists (counts : loc) (w' : world) (D : DataFrame),
    segment_counts 0 (world_of example_rfm) = (Ok counts, w') /\
    heap w' !! counts = Some D /\
    StronglySorted
      (fun a b => as_count (field "Count" D b) <= as_count (field "Count" D a)) (rows D).
Proof.
  exact (segment_counts_in_descending_order (world_of example_rfm) 0 example_rfm
           eq_refl eq_refl).
Defined.

(** X8. The count that the table of customer counts gives for a segment
    is the number of rows of the view that the sidebar filter yields when
    that segment is selected (for a segment that is not labelled
    "All"). *)
Theorem segment_count_is_size_of_filtered_view {np : pd.numpy}
    (w : world) (rfm : loc) (T D : DataFrame) (e : row) :
  heap w !! rfm = Some T ->
  pd.has_column "Customer_Segment" (pd.columns T) = true ->
  outcome (segment_counts rfm w) = Ok D ->
  In e (rows D) ->
  field "Segment" D e <> Str "All" ->
  count_rows (filter_by_segment w rfm (field "Segment" D e)) = as_count (field "Count" D e).
Proof.
  intros H Hc HD He Hall. destruct (has_column_position _ _ Hc) as [i Hi].
  rewrite (segment_counts_run w rfm T i H Hi) in HD.
  unfold outcome in HD. cbn [fst snd heap] in HD. rewrite lookup_fresh in HD.
  injection HD as <-. cbn [rows] in He.
  apply indexed_in in He as (j & [k n] & Hin & ->). cbn [fst snd] in *.
  destruct (field_of_counts (pd.dtype_at i T)
              (pd.indexed (fun j kc => Row (pd.of_nat j) [fst kc; pd.of_nat (snd kc)]) 0
                 (pd.tally (map (pd.at_col i) (rows T))))
              (pd.of_nat j) k (pd.of_nat n)) as [Ek En].
  rewrite Ek in *. rewrite En, as_count_of_nat.
  rewrite (filter_by_segment_rows w rfm T k H Hc).
  - unfold count_rows, pd.len. cbn [rows]. rewrite (tally_counts _ _ _ Hin).
    rewrite <- (filter_map_length (pd.at_col i) (fun v => pd.value_eqb v k)).
    f_equal. apply List.filter_ext. intros r. unfold segment, field. now rewrite Hi.
  - destruct (pd.value_eqb k (Str "All")) eqn:Ha; [|reflexivity].
    apply value_eqb_all in Ha. contradiction.
Qed.

Lemma segment_count_is_size_of_filtered_view_witness :
  count_rows (filter_by_segment (world_of example_rfm) 0 (Str "A")) = 2.
Proof.
  exact (segment_count_is_size_of_filtered_view (np := exact)
           (world_of example_rfm) 0 example_rfm
           (Frame None Numeric [("Segment", Object); ("Count", Numeric)]
              [Row (Num 0) [Str "A"; Num 2]; Row (Num 1) [Str "B"; Num 1]])
           (Row (Num 0) [Str "A"; Num 2])
           eq_refl eq_refl eq_refl (or_introl eq_refl) ltac:(discriminate)).
Defined.

Lemma sorted_keys_present (l : list value) (k : value) :
  In k (pd.stable_sort pd.value_leb (pd.unique (List.filter pd.notna l))) ->
  pd.notna k = true /\ In k l.
Proof.
  intros Hk. apply (Permutation_in _ (stable_sort_perm _ _)) in Hk.
  apply unique_subset, List.filter_In in Hk. tauto.
Qed.

(** X10. The two charts by segment list the same segments: each distinct
    segment value of the table that is not missing, once. *)
Theorem counts_and_revenue_list_the_same_segments {np : pd.numpy} (w : world) (rfm : loc) (T : DataFrame) :
  heap w !! rfm = Some T ->
  pd.has_column "Customer_Segment" (pd.columns T) = true ->
  pd.dtype_of "Monetary" T = Some Numeric ->
  exists C R : DataFrame,
    outcome (segment_counts rfm w) = Ok C /\
    outcome (segment_revenue rfm w) = Ok R /\
    Permutation (column "Segment" C) (List.filter pd.notna (segments T)) /\
    Permutation (column "Segment" R) (List.filter pd.notna (segments T)).
Proof.
  intros H Hc Hd.
  destruct (has_column_position _ _ Hc) as [i Hi].
  destruct (dtype_of_position _ _ _ Hd) as (m & Hm & Hdm).
  assert (Hseg : map (segment T) (rows T) = map (pd.at_col i) (rows T)).
  { apply map_ext. intros r. unfold segment, field. now rewrite Hi. }
  unfold segments. rewrite Hseg.
  rewrite (segment_counts_run w rfm T i H Hi).
  rewrite (segment_revenue_run w rfm T i m H Hi Hm (or_introl Hdm)).
  unfold outcome. cbn [fst snd heap]. rewrite !lookup_fresh.
  do 2 eexists. split; [reflexivity|]. split; [reflexivity|].
  unfold column, revenue_frame. cbn [rows]. split.
  - rewrite (map_indexed _ _ fst) by reflexivity. apply tally_keys.
  - rewrite (map_indexed _ _ fst) by reflexivity.
    rewrite (stable_sort_perm _ _), (pd.visit_items_perm _). unfold revenue_items.
    rewrite List.map_map. cbn [fst]. rewrite List.map_id.
    rewrite (stable_sort_perm _ _). now rewrite unique_filter_notna.
Qed.

Lemma counts_and_revenue_list_the_same_segments_witness : let np := exact in
  exists C R : DataFrame,
    outcome (segment_counts 0 (world_of example_unsegmented)) = Ok C /\
    outcome (segment_revenue 0 (world_of example_unsegmented)) = Ok R /\
    Permutation (column "Segment" C) (List.filter pd.notna (segments example_unsegmented)) /\
    Permutation (column "Segment" R) (List.filter pd.notna (segments example_unsegmented)).
Proof.
  exact (counts_and_revenue_list_the_same_segments (world_of example_unsegmented) 0
           example_unsegmented eq_refl eq_refl eq_refl).
Defined.

(** ** The select box *)

(** X11. With a segment column, the sidebar shows its header and the
    select box, whatever is selected; the box offers "All" first and then
    every segment value of the table once, a missing value included, and
    nothing else. *)
Theorem select_box_offers_all_then_each_segment_once
    (w : world) (rfm : loc) (T : DataFrame) (choice : value) :
  heap w !! rfm = Some T ->
  pd.has_column "Customer_Segment" (pd.columns T) = true ->
  exists offered : list value,
    rendered w (snd (rfm_filtered rfm choice w)) =
      [st_sidebar_header "🔍 Filters";
       st_sidebar_selectbox "Select Customer Segment" (Str "All" :: offered)] /\
    (forall r, In r (rows T) ->
       length (List.filter (fun o => pd.same_key o (segment T r)) offered) = 1) /\
    (forall o, In o offered -> exists r, In r (rows T) /\ segment T r = o).
Proof.
  intros H Hc. exists (pd.unique (map (segment T) (rows T))). split; [|split].
  - rewrite (rfm_filtered_run w rfm T choice H). cbn zeta. rewrite Hc.
    destruct (pd.value_eqb choice (Str "All")); unfold rendered; cbn [snd page];
      rewrite <- app_assoc; cbn [app]; apply drop_app_length.
  - intros r Hr. apply unique_one_key. now apply in_map.
  - intros o Ho. apply unique_subset, in_map_iff in Ho as (r & E & Hr). eauto.
Qed.

Lemma select_box_offers_all_then_each_segment_once_witness :
  exists offered : list value,
    rendered (world_of example_unsegmented)
      (snd (rfm_filtered 0 (Str "A") (world_of example_unsegmented))) =
      [st_sidebar_header "🔍 Filters";
       st_sidebar_selectbox "Select Customer Segment" (Str "All" :: offered)] /\
    (forall r, In r (rows example_unsegmented) ->
       length (List.filter (fun o => pd.same_key o (segment example_unsegmented r)) offered) = 1) /\
    (forall o, In o offered ->
       exists r, In r (rows example_unsegmented) /\ segment example_unsegmented r = o).
Proof.
  exact (select_box_offers_all_then_each_segment_once (world_of example_unsegmented) 0
           example_unsegmented (Str "A") eq_refl eq_refl).
Defined.

(** ** A table without segments *)

Lemma segment_distribution_absent {np : pd.numpy} (rfm f : loc) (T F : DataFrame) :
  pd.has_column "Customer_Segment" (pd.columns T) = false ->
  shows rfm f T F (segment_distribution rfm) [].
Proof.
  intros Hc w Hr _. exists []. unfold segment_distribution.
  rewrite (bind_get _ _ _ T) by exact Hr. rewrite Hc. destruct w. page_done.
Qed.

Lemma rfm_analysis_absent {np : pd.numpy} (rfm f : loc) (T F : DataFrame) :
  pd.has_column "Customer_Segment" (pd.columns T) = false ->
  pd.columns F = pd.columns T ->
  shows rfm f T F (rfm_analysis rfm f)
    (if has_rfm_columns T
     then [st_header "🔍 RFM Analysis"] ++ [] ++
          [st_plotly_chart (Scatter3d (pd.has_column "Customer_Segment" (pd.columns T)))
             "3D RFM Visualization" F;
           st_markdown "---"]
     else []).
Proof.
  intros Hc HF w Hr Hf. exists []. unfold rfm_analysis.
  rewrite (bind_get _ _ _ T) by exact Hr.
  destruct (has_rfm_columns T).
  - rewrite Hc, bind_emit, bind_ret. rewrite (bind_get f _ _ F) by exact Hf.
    rewrite bind_emit, HF, Hc. page_done.
  - destruct w. page_done.
Qed.

Lemma revenue_analysis_absent {np : pd.numpy} (rfm f : loc) (T F : DataFrame) :
  pd.has_column "Customer_Segment" (pd.columns T) = false ->
  rfm_typed T ->
  shows rfm f T F (revenue_analysis rfm) (top_customers_block T).
Proof.
  intros Hc Ht. unfold top_customers_block.
  destruct (pd.has_column "Monetary" (pd.columns T)) eqn:Hm.
  - destruct (monetary_position T Hm Ht) as (m & Hpm & Hdm). rewrite Hpm.
    intros w Hr _. eexists. unfold revenue_analysis, top_customers.
    rewrite (bind_get _ _ _ T) by exact Hr. rewrite Hm, Hc, bind_emit, bind_ret.
    unfold bind at 1.
    rewrite (top_n_customers_run (World (heap w) _) rfm T 10 m Hr Hpm Hdm).
    cbn [heap page]. rewrite bind_get_fresh, bind_emit. page_done.
  - destruct (pd.position "Monetary" (pd.columns T)) as [m|] eqn:Hpm.
    { rewrite (position_has_column _ _ _ Hpm) in Hm. discriminate Hm. }
    intros w Hr _. exists []. unfold revenue_analysis.
    rewrite (bind_get _ _ _ T) by exact Hr. rewrite Hm. destruct w. page_done.
Qed.

Lemma segment_details_absent {np : pd.numpy} (rfm f : loc) (T F : DataFrame) :
  pd.has_column "Customer_Segment" (pd.columns T) = false ->
  shows rfm f T F (segment_details rfm) [].
Proof.
  intros Hc w Hr _. exists []. unfold segment_details.
  rewrite (bind_get _ _ _ T) by exact Hr. rewrite Hc. cbn [andb].
  destruct w. page_done.
Qed.

(** X12. For a table without the column of the segments (and with
    numeric RFM columns where it has them) the page is rendered without an
    exception and is the same for every selection: the warning stands in
    place of the select box, every block shows the whole table, and of
    the charts and tables by segment only the chart of the top ten
    customers is left. *)
Theorem page_without_segment_column_ignores_selection {np : pd.numpy}
    (w : world) (rfm df : loc) (T : DataFrame) (choice : value) :
  heap w !! rfm = Some T ->
  pd.has_column "Customer_Segment" (pd.columns T) = false ->
  rfm_typed T ->
  exists hs,
    render rfm df choice w =
    (Ok tt,
     World (heap w ++ hs) (page w ++ layout T T [] [] (top_customers_block T) [])) /\
    In (st_warning "Customer_Segment column not found. Showing all data.")
       (layout T T [] [] (top_customers_block T) []).
Proof.
  intros H Hc Ht.
  assert (Hblocks : shows rfm rfm T T
      (bind (key_metrics rfm) (fun _ =>
       bind (segment_distribution rfm) (fun _ =>
       bind (rfm_analysis rfm rfm) (fun _ =>
       bind (revenue_analysis rfm) (fun _ =>
       bind (distributions rfm) (fun _ =>
       bind (segment_details rfm) (fun _ =>
       bind (raw_data_sample rfm) (fun _ => footer))))))))
      (page_body T T [] [] (top_customers_block T) [])).
  { unfold page_body.
    repeat (apply shows_seq; [first
      [ now apply key_metrics_shows | now apply segment_distribution_absent
      | now apply rfm_analysis_absent | now apply revenue_analysis_absent
      | apply distributions_shows | now apply segment_details_absent
      | apply raw_data_sample_shows ]|]).
    apply footer_shows. }
  unfold render.
  destruct (debug_info_shows rfm rfm T T w H H) as [hs0 E0].
  unfold bind at 1. rewrite E0. unfold bind at 1.
  rewrite (rfm_filtered_run (World (heap w ++ hs0) _) rfm T choice
             (lookup_kept _ hs0 _ _ H)). cbn zeta.
  unfold layout, page_head, sidebar_widgets. rewrite Hc. cbn [fst heap page].
  destruct (Hblocks (World (heap w ++ hs0)
                 (((page w ++ [st_write_columns (pd.columns T);
                               st_write_shape (pd.len T) (length (pd.columns T));
                               st_write_frame (pd.head 1 T)]) ++
                   [st_sidebar_header "🔍 Filters"]) ++
                  [st_warning "Customer_Segment column not found. Showing all data."])))
    as [hs E].
  - now apply lookup_kept.
  - now apply lookup_kept.
  - rewrite E. cbn [heap page]. exists (hs0 ++ hs). split.
    + rewrite <- !app_assoc. reflexivity.
    + cbn [app]. do 4 right. now left.
Qed.

Lemma example_plain_typed : rfm_typed example_plain.
Proof.
  intros c Hc _. cbn in Hc.
  destruct Hc as [<-|[<-|[<-|[]]]]; reflexivity.
Qed.

Lemma page_without_segment_column_ignores_selection_witness : let np := exact in
  exists hs,
    render 0 0 (Str "A") (world_of example_plain) =
    (Ok tt,
     World (heap (world_of example_plain) ++ hs)
       (page (world_of example_plain) ++
        layout example_plain example_plain [] [] (top_customers_block example_plain) [])) /\
    In (st_warning "Customer_Segment column not found. Showing all data.")
       (layout example_plain example_plain [] [] (top_customers_block example_plain) []).
Proof.
  exact (page_without_segment_column_ignores_selection (world_of example_plain) 0 0
           example_plain (Str "A") eq_refl eq_refl example_plain_typed).
Defined.

(** ** The page after a successful load *)

Lemma load_data_success_page (fs : pd.filesystem) (parse : pd.date_parser)
    (w w1 : world) (rfm df : loc) :
  load_data fs parse w = (Ok (Some rfm, Some df), w1) -> page w1 = page w.
Proof.
  intros Hload.
  assert (Hquiet : keeps (heap w) (eq (page w))
            (bind (load_rfm fs) (fun rfm =>
             bind (load_transactions fs parse) (fun df => ret (Some rfm, Some df))))
            (fun _ => True)).
  { eapply keeps_bind; [apply load_rfm_quiet|]. intros l _.
    eapply keeps_bind; [apply load_transactions_quiet|]. intros l' _.
    now apply keeps_ret. }
  destruct (Hquiet w) as [[_ Hpage] _].
  { split; [|reflexivity]. exists []. now rewrite app_nil_r. }
  unfold load_data, try_except in Hload.
  destruct (bind (load_rfm fs) _ w) as [[a|e] w2]; cbn [snd] in Hpage.
  - injection Hload as _ <-. now symmetry.
  - unfold bind, emit, ret in Hload. discriminate Hload.
Qed.

(** X13. When both files load and the RFM columns of the loaded table
    are numeric, the script ends without an exception for every
    selection, and the page is the banner followed by the debug
    information, the sidebar and the blocks of the view of the selection;
    the widgets of the blocks that aggregate the whole table are the same
    for every selection. *)
Theorem dashboard_renders_page_after_successful_load {np : pd.numpy}
    (fs : pd.filesystem) (parse : pd.date_parser) (w w1 : world)
    (rfm df : loc) (T : DataFrame) :
  load_data fs parse (snd (banner w)) = (Ok (Some rfm, Some df), w1) ->
  heap w1 !! rfm = Some T ->
  rfm_typed T ->
  exists counts heat revenue summary : list widget,
    forall choice : value,
      fst (dashboard fs parse choice w) = Ok tt /\
      rendered w (snd (dashboard fs parse choice w)) =
        [st_title "📊 Customer Segmentation Analysis Dashboard";
         st_markdown "### RFM-Based Customer Segmentation for E-Commerce";
         st_markdown "---"] ++
        layout T (selected_view T choice) counts heat revenue summary.
Proof.
  intros Hload HT Ht.
  destruct (render_shows T Ht) as (counts & heat & revenue & summary & Hrun).
  exists counts, heat, revenue, summary. intros choice.
  pose proof (load_data_success_page _ _ _ _ _ _ Hload) as Hpage.
  destruct (Hrun w1 rfm df choice HT) as [hs E].
  assert (Hrun' : dashboard fs parse choice w =
            (Ok tt,
             World (heap w1 ++ hs)
               (page w1 ++ layout T (selected_view T choice) counts heat revenue summary))).
  { unfold dashboard. unfold bind at 1. unfold bind at 1.
    destruct (banner w) as [[[]|e] w0] eqn:Hb; rewrite banner_run in Hb;
      [|discriminate Hb].
    cbn [snd] in Hload. now rewrite Hload. }
  rewrite Hrun'. cbn [fst snd]. split; [reflexivity|].
  unfold rendered. rewrite banner_run in Hpage. cbn [snd page] in *.
  rewrite Hpage, <- app_assoc. apply drop_app_length.
Qed.

Lemma dashboard_renders_page_after_successful_load_witness : let np := exact in
  exists counts heat revenue summary : list widget,
    forall choice : value,
      fst (dashboard good_files example_parse choice empty_world) = Ok tt /\
      rendered empty_world (snd (dashboard good_files example_parse choice empty_world)) =
        [st_title "📊 Customer Segmentation Analysis Dashboard";
         st_markdown "### RFM-Based Customer Segmentation for E-Commerce";
         st_markdown "---"] ++
        layout (pd.rename "Unnamed: 0" "CustomerID" (file_table example_rfm_csv))
          (selected_view (pd.rename "Unnamed: 0" "CustomerID" (file_table example_rfm_csv)) choice)
          counts heat revenue summary.
Proof.
  apply (dashboard_renders_page_after_successful_load good_files example_parse empty_world
           (snd (load_data good_files example_parse (snd (banner empty_world)))) 0 1).
  - reflexivity.
  - reflexivity.
  - intros c Hc _. cbn in Hc. destruct Hc as [<-|[<-|[<-|[]]]]; reflexivity.
Defined.

(** ** The mean values and the summary by segment *)

Lemma segment_rfm_table {np : pd.numpy} (w : world) (rfm : loc) (T : DataFrame) (i r f m : nat) :
  heap w !! rfm = Some T ->
  pd.position "Customer_Segment" (pd.columns T) = Some i ->
  pd.position "Recency" (pd.columns T) = Some r -> pd.dtype_at r T = Numeric ->
  pd.position "Frequency" (pd.columns T) = Some f -> pd.dtype_at f T = Numeric ->
  pd.position "Monetary" (pd.columns T) = Some m -> pd.dtype_at m T = Numeric ->
  segment_rfm rfm w =
  (Ok (length (heap w)), World (heap w ++ [means_frame i r f m T]) (page w)).
Proof.
  intros H Hi Hr Hdr Hf Hdf Hm Hdm. unfold segment_rfm.
  rewrite (bind_get _ _ _ T) by exact H. unfold new.
  rewrite (groupby_run T _ i Hi). cbn [rbind].
  unfold pd.group_mean, pd.agg, rfm_columns. cbn [map pd.agg_plan pd.source].
  rewrite Hr, Hf, Hm, Hdr, Hdf, Hdm. cbn [pd.reducible rbind].
  unfold pd.round, means_frame, segment_keys, segment_rows.
  cbn [rows index_name index_dtype schema pd.groups pd.by_name pd.by_dtype map fst snd].
  rewrite ?Hdr, ?Hdf, ?Hdm. cbn [pd.agg_dtype pd.aggregate].
  rewrite !List.map_map. reflexivity.
Qed.

Lemma segment_summary_table {np : pd.numpy} (w : world) (rfm : loc) (T : DataFrame) (i r f m : nat) :
  heap w !! rfm = Some T ->
  pd.position "Customer_Segment" (pd.columns T) = Some i ->
  pd.position "Recency" (pd.columns T) = Some r -> pd.dtype_at r T = Numeric ->
  pd.position "Frequency" (pd.columns T) = Some f -> pd.dtype_at f T = Numeric ->
  pd.position "Monetary" (pd.columns T) = Some m -> pd.dtype_at m T = Numeric ->
  exists D,
    segment_summary rfm w =
    (Ok (S (length (heap w))), World (heap w ++ [D; summary_frame i r f m T]) (page w)).
Proof.
  intros H Hi Hr Hdr Hf Hdf Hm Hdm. eexists. unfold segment_summary.
  rewrite (bind_get _ _ _ T) by exact H. rewrite bind_new.
  rewrite (groupby_run T _ i Hi). cbn [rbind].
  unfold pd.agg. cbn [pd.agg_plan pd.source].
  rewrite Hr, Hf, Hm, Hdr, Hdf, Hdm. cbn [pd.reducible rbind].
  rewrite bind_update_fresh. unfold pd.set_columns, pd.round.
  cbn [schema length map Nat.eqb combine fst snd rows index_name index_dtype].
  rewrite bind_get_fresh. unfold new, pd.sort_values.
  cbn [pd.columns schema map fst pd.position String.eqb Ascii.eqb Bool.eqb option_map
       heap page index_name index_dtype rows].
  rewrite length_app, Nat.add_comm, <- app_assoc. cbn [length app Nat.add].
  unfold summary_frame, summary_rows, segment_keys, segment_rows.
  cbn [pd.groups pd.by_name pd.by_dtype]. rewrite ?Hdr, ?Hdf, ?Hdm.
  cbn [pd.agg_dtype pd.aggregate]. rewrite !List.map_map. reflexivity.
Qed.

Lemma StronglySorted_map {A B : Type} (R : A -> A -> Prop) (R' : B -> B -> Prop)
    (g : A -> B) (l : list A) :
  (forall x y, R x y -> R' (g x) (g y)) ->
  StronglySorted R l -> StronglySorted R' (map g l).
Proof.
  intros Hg. induction 1 as [|x t Ht IH Hx]; simpl; constructor; [exact IH|].
  clear IH Ht. induction Hx as [|y t Hy _ IHx]; simpl; constructor; auto.
Qed.

(** A column of the view of a segment holds the values of the rows of
    the group of that segment. *)
Lemma view_column (T : DataFrame) (i j : nat) (c : string) (k : value) :
  pd.position "Customer_Segment" (pd.columns T) = Some i ->
  pd.position c (pd.columns T) = Some j ->
  pd.notna k = true ->
  column c (Frame (index_name T) (index_dtype T) (schema T)
              (List.filter (fun r => pd.value_eqb (segment T r) k) (rows T))) =
  map (pd.at_col j) (segment_rows i k T).
Proof.
  intros Hi Hj Hk. unfold column, segment_rows. cbn [rows].
  assert (Hseg : forall r, pd.value_eqb (segment T r) k = pd.same_key k (pd.at_col i r)).
  { intros r. rewrite value_eqb_same_key, Hk, same_key_sym. unfold segment, field.
    now rewrite Hi. }
  rewrite (List.filter_ext _ _ Hseg). apply map_ext. intros r. unfold field.
  change (pd.columns (Frame (index_name T) (index_dtype T) (schema T)
            (List.filter (fun r0 => pd.same_key k (pd.at_col i r0)) (rows T))))
    with (pd.columns T).
  now rewrite Hj.
Qed.

Lemma not_all (k : value) : k <> Str "All" -> pd.value_eqb k (Str "All") = false.
Proof.
  intros Hk. destruct (pd.value_eqb k (Str "All")) eqn:Ha; [|reflexivity].
  apply value_eqb_all in Ha. contradiction.
Qed.

(** X15. The table of the heat map has one row per segment that is not
    missing, in ascending order of the segments, and the row of a segment
    holds the group means of the recency, the frequency and the monetary
    values of that segment's view, each rounded to two decimals (for a
    segment that is not labelled "All"). *)
Theorem mean_rfm_by_segment_matches_filtered_views {np : pd.numpy}
    (w : world) (rfm : loc) (T : DataFrame) :
  heap w !! rfm = Some T ->
  pd.has_column "Customer_Segment" (pd.columns T) = true ->
  has_rfm_columns T = true ->
  rfm_typed T ->
  exists D,
    outcome (segment_rfm rfm w) = Ok D /\
    Permutation (map label (rows D)) (List.filter pd.notna (segments T)) /\
    StronglySorted (fun a b => pd.value_leb (label a) (label b) = true) (rows D) /\
    forall e, In e (rows D) -> label e <> Str "All" ->
      exists F,
        filter_by_segment w rfm (label e) = Some F /\
        field "Recency" D e = pd.round2 (pd.group_mean_of Numeric (column "Recency" F)) /\
        field "Frequency" D e = pd.round2 (pd.group_mean_of Numeric (column "Frequency" F)) /\
        field "Monetary" D e = pd.round2 (pd.group_mean_of Numeric (column "Monetary" F)).
Proof.
  intros H Hc Hcols Ht. destruct (has_column_position _ _ Hc) as [i Hi].
  destruct (rfm_positions T Hcols Ht) as (r & f & m & [Hr Hdr] & [Hf Hdf] & [Hm Hdm]).
  rewrite (segment_rfm_table w rfm T i r f m H Hi Hr Hdr Hf Hdf Hm Hdm).
  unfold outcome. cbn [fst snd heap]. rewrite lookup_fresh.
  eexists. split; [reflexivity|]. unfold means_frame at 1 2 3. cbn [rows].
  split; [|split].
  - rewrite List.map_map. cbn [label]. rewrite List.map_id. unfold segment_keys.
    rewrite (stable_sort_perm _ _), unique_filter_notna. unfold segments.
    assert (Hseg : map (segment T) (rows T) = map (pd.at_col i) (rows T)).
    { apply map_ext. intros x. unfold segment, field. now rewrite Hi. }
    now rewrite Hseg.
  - eapply StronglySorted_map;
      [|apply (stable_sort_sorted _ value_leb_total value_leb_trans)].
    intros x y Hxy. exact Hxy.
  - intros e He Hall. apply in_map_iff in He as (k & <- & Hk).
    apply sorted_keys_present in Hk as [Hk _]. cbn [label] in *.
    eexists. split; [apply (filter_by_segment_rows w rfm T k H Hc (not_all k Hall))|].
    rewrite (view_column T i r "Recency" k Hi Hr Hk),
            (view_column T i f "Frequency" k Hi Hf Hk),
            (view_column T i m "Monetary" k Hi Hm Hk).
    repeat split.
Qed.

Lemma mean_rfm_by_segment_matches_filtered_views_witness : let np := exact in
  exists D,
    outcome (segment_rfm 0 (world_of example_rfm)) = Ok D /\
    Permutation (map label (rows D)) (List.filter pd.notna (segments example_rfm)) /\
    StronglySorted (fun a b => pd.value_leb (label a) (label b) = true) (rows D) /\
    forall e, In e (rows D) -> label e <> Str "All" ->
      exists F,
        filter_by_segment (world_of example_rfm) 0 (label e) = Some F /\
        field "Recency" D e = pd.round2 (pd.group_mean_of Numeric (column "Recency" F)) /\
        field "Frequency" D e = pd.round2 (pd.group_mean_of Numeric (column "Frequency" F)) /\
        field "Monetary" D e = pd.round2 (pd.group_mean_of Numeric (column "Monetary" F)).
Proof.
  exact (mean_rfm_by_segment_matches_filtered_views (world_of example_rfm) 0 example_rfm
           eq_refl eq_refl eq_refl example_rfm_typed).
Defined.

(** X16. The segment summary has the five columns "Avg Recency", "Avg
    Frequency", "Avg Monetary", "Total Revenue" and "Customer Count", and
    lists the segments in descending order of their total revenue.  The
    row of a segment holds the group means of the recency, the frequency
    and the monetary values of that segment's view, the group total of
    its monetary values, and the number of its rows that have a monetary
    value, not the number of its rows, each rounded to two decimals (for
    a segment that is not labelled "All"). *)
Theorem segment_summary_sorted_and_matches_filtered_views {np : pd.numpy}
    (w : world) (rfm : loc) (T : DataFrame) :
  heap w !! rfm = Some T ->
  pd.has_column "Customer_Segment" (pd.columns T) = true ->
  has_rfm_columns T = true ->
  rfm_typed T ->
  exists D,
    outcome (segment_summary rfm w) = Ok D /\
    pd.columns D = ["Avg Recency"; "Avg Frequency"; "Avg Monetary";
                    "Total Revenue"; "Customer Count"] /\
    StronglySorted
      (fun a b => value_ge (field "Total Revenue" D a) (field "Total Revenue" D b)) (rows D) /\
    forall e, In e (rows D) -> label e <> Str "All" ->
      exists F,
        filter_by_segment w rfm (label e) = Some F /\
        field "Avg Recency" D e = pd.round2 (pd.group_mean_of Numeric (column "Recency" F)) /\
        field "Avg Frequency" D e =
          pd.round2 (pd.group_mean_of Numeric (column "Frequency" F)) /\
        field "Avg Monetary" D e = pd.round2 (pd.group_mean_of Numeric (column "Monetary" F)) /\
        field "Total Revenue" D e = pd.round2 (Num (pd.group_sum_of (column "Monetary" F))) /\
        field "Customer Count" D e = pd.round2 (pd.of_nat (pd.count (column "Monetary" F))).
Proof.
  intros H Hc Hcols Ht. destruct (has_column_position _ _ Hc) as [i Hi].
  destruct (rfm_positions T Hcols Ht) as (r & f & m & [Hr Hdr] & [Hf Hdf] & [Hm Hdm]).
  destruct (segment_summary_table w rfm T i r f m H Hi Hr Hdr Hf Hdf Hm Hdm) as [D0 E].
  rewrite E. unfold outcome. cbn [fst snd heap]. rewrite lookup_second.
  eexists. split; [reflexivity|]. split; [reflexivity|]. split.
  - exact (stable_sort_sorted _ (monetary_order_total 3) (monetary_order_trans 3)
             (pd.visit_rows 3 (summary_rows i r f m T))).
  - intros e He Hall. unfold summary_frame in He. cbn [rows] in He.
    apply (Permutation_in _ (stable_sort_perm _ _)) in He.
    apply (Permutation_in _ (pd.visit_rows_perm _ _)) in He.
    apply in_map_iff in He as (k & <- & Hk).
    apply sorted_keys_present in Hk as [Hk _]. cbn [label] in *.
    eexists. split; [apply (filter_by_segment_rows w rfm T k H Hc (not_all k Hall))|].
    rewrite (view_column T i r "Recency" k Hi Hr Hk),
            (view_column T i f "Frequency" k Hi Hf Hk),
            (view_column T i m "Monetary" k Hi Hm Hk).
    repeat split.
Qed.

Lemma segment_summary_sorted_and_matches_filtered_views_witness : let np := exact in
  exists D,
    outcome (segment_summary 0 (world_of example_rfm)) = Ok D /\
    pd.columns D = ["Avg Recency"; "Avg Frequency"; "Avg Monetary";
                    "Total Revenue"; "Customer Count"] /\
    StronglySorted
      (fun a b => value_ge (field "Total Revenue" D a) (field "Total Revenue" D b)) (rows D) /\
    forall e, In e (rows D) -> label e <> Str "All" ->
      exists F,
        filter_by_segment (world_of example_rfm) 0 (label e) = Some F /\
        field "Avg Recency" D e = pd.round2 (pd.group_mean_of Numeric (column "Recency" F)) /\
        field "Avg Frequency" D e =
          pd.round2 (pd.group_mean_of Numeric (column "Frequency" F)) /\
        field "Avg Monetary" D e = pd.round2 (pd.group_mean_of Numeric (column "Monetary" F)) /\
        field "Total Revenue" D e = pd.round2 (Num (pd.group_sum_of (column "Monetary" F))) /\
        field "Customer Count" D e = pd.round2 (pd.of_nat (pd.count (column "Monetary" F))).
Proof.
  exact (segment_summary_sorted_and_matches_filtered_views (world_of example_rfm) 0
           example_rfm eq_refl eq_refl eq_refl example_rfm_typed).
Defined.

(** ** The chart of the top customers *)

Lemma top_frame_labels (m : nat) (l : list row) (j : nat) (labels : list value) :
  length labels = length l ->
  map (pd.at_col 1)
    (map (fun rv : row * value => Row (label (fst rv)) (cells (fst rv) ++ [snd rv]))
       (combine (pd.indexed (fun i r => Row (pd.of_nat i) [pd.at_col m r]) j l) labels)) =
  labels.
Proof.
  revert j labels. induction l as [|r t IH]; intros j [|v vs]; simpl; try easy.
  intros [= Hlen]. now rewrite IH.
Qed.

(** X17. The table of the chart of the top customers has the two columns
    "Monetary" and "Customer" only, so the customers' identifiers are not
    carried over: its rows are labelled "Customer 1", "Customer 2", ...
    by their rank. *)
Theorem top_customers_are_labelled_by_rank (w : world) (rfm : loc) (T : DataFrame) :
  heap w !! rfm = Some T ->
  pd.dtype_of "Monetary" T = Some Numeric ->
  exists D,
    outcome (top_customers rfm w) = Ok D /\
    pd.columns D = ["Monetary"; "Customer"] /\
    column "Customer" D =
      map (fun j => Str (String.append "Customer " (str (j + 1)))) (seq 0 (pd.len D)).
Proof.
  intros H Hd. destruct (dtype_of_position _ _ _ Hd) as (m & Hm & Hdm).
  unfold top_customers. rewrite (top_n_customers_run w rfm T 10 m H Hm Hdm).
  unfold outcome. cbn [fst snd heap]. rewrite lookup_fresh.
  eexists. split; [reflexivity|]. split; [reflexivity|].
  unfold column, top_frame, pd.len. cbn [rows].
  rewrite length_map, length_combine, indexed_length, customer_labels_length, Nat.min_id.
  change (map (field "Customer" _)) with (map (pd.at_col 1)).
  rewrite top_frame_labels; [reflexivity|].
  apply customer_labels_length.
Qed.

Lemma top_customers_are_labelled_by_rank_witness :
  exists D,
    outcome (top_customers 0 (world_of example_rfm)) = Ok D /\
    pd.columns D = ["Monetary"; "Customer"] /\
    column "Customer" D =
      map (fun j => Str (String.append "Customer " (str (j + 1)))) (seq 0 (pd.len D)).
Proof.
  exact (top_customers_are_labelled_by_rank (world_of example_rfm) 0 example_rfm
           eq_refl eq_refl).
Defined.

(** ** Customers without a segment *)

(** X18. When a customer has no segment, the select box offers the
    missing value as an entry, but selecting it shows no customer: the
    view of that selection has no rows. *)
Theorem missing_segment_is_offered_but_selects_no_rows
    (w : world) (rfm : loc) (T : DataFrame) (r : row) :
  heap w !! rfm = Some T ->
  pd.has_column "Customer_Segment" (pd.columns T) = true ->
  In r (rows T) ->
  segment T r = NaN ->
  In (st_sidebar_selectbox "Select Customer Segment" (Str "All" :: segments T))
     (rendered w (snd (rfm_filtered rfm NaN w))) /\
  In NaN (segments T) /\
  exists F, filter_by_segment w rfm NaN = Some F /\ rows F = [].
Proof.
  intros H Hc Hr Hs. split; [|split].
  - rewrite (rfm_filtered_run w rfm T NaN H). cbn zeta. rewrite Hc.
    cbn [pd.value_eqb snd page]. unfold rendered. cbn [page].
    rewrite <- app_assoc, drop_app_length. right. now left.
  - pose proof (unique_one_key (map (segment T) (rows T)) NaN) as Hone.
    rewrite <- Hs in Hone at 1. specialize (Hone (in_map _ _ _ Hr)).
    unfold segments.
    destruct (List.filter (fun k => pd.same_key k NaN) (pd.unique (map (segment T) (rows T))))
      as [|k t] eqn:Hf; [discriminate Hone|].
    assert (Hk : In k (k :: t)) by now left.
    rewrite <- Hf in Hk. apply List.filter_In in Hk as [Hk Hn].
    destruct k; try discriminate Hn. exact Hk.
  - rewrite (filter_by_segment_rows w rfm T NaN H Hc eq_refl).
    eexists. split; [reflexivity|]. cbn [rows]. apply filter_none.
    intros x _. now destruct (segment T x).
Qed.

Lemma missing_segment_is_offered_but_selects_no_rows_witness :
  In (st_sidebar_selectbox "Select Customer Segment"
        (Str "All" :: segments example_unsegmented))
     (rendered (world_of example_unsegmented)
        (snd (rfm_filtered 0 NaN (world_of example_unsegmented)))) /\
  In NaN (segments example_unsegmented) /\
  exists F, filter_by_segment (world_of example_unsegmented) 0 NaN = Some F /\ rows F = [].
Proof.
  exact (missing_segment_is_offered_but_selects_no_rows (world_of example_unsegmented) 0
           example_unsegmented (Row (Num 1) [Num 2; Num 5; Num 1; Num 50; NaN])
           eq_refl eq_refl (or_intror (or_introl eq_refl)) eq_refl).
Defined.

(** ** The transactions and the page *)

(** X19. The page depends on the transactions only through their
    loading: two runs in which both files load, and which load the same
    RFM table with numeric RFM columns, render the same page for the same
    selection, whatever the transactions are. *)
Theorem page_does_not_depend_on_loaded_transactions {np : pd.numpy}
    (fs1 fs2 : pd.filesystem) (parse1 parse2 : pd.date_parser) (choice : value)
    (w w1 w2 : world) (rfm1 df1 rfm2 df2 : loc) (T : DataFrame) :
  load_data fs1 parse1 (snd (banner w)) = (Ok (Some rfm1, Some df1), w1) ->
  load_data fs2 parse2 (snd (banner w)) = (Ok (Some rfm2, Some df2), w2) ->
  heap w1 !! rfm1 = Some T ->
  heap w2 !! rfm2 = Some T ->
  rfm_typed T ->
  fst (dashboard fs1 parse1 choice w) = Ok tt /\
  fst (dashboard fs2 parse2 choice w) = Ok tt /\
  rendered w (snd (dashboard fs1 parse1 choice w)) =
  rendered w (snd (dashboard fs2 parse2 choice w)).
Proof.
  intros Hl1 Hl2 HT1 HT2 Ht.
  destruct (render_shows T Ht) as (counts & heat & revenue & summary & Hrun).
  assert (Hdash : forall fs parse rfm df w',
            load_data fs parse (snd (banner w)) = (Ok (Some rfm, Some df), w') ->
            heap w' !! rfm = Some T ->
            fst (dashboard fs parse choice w) = Ok tt /\
            rendered w (snd (dashboard fs parse choice w)) =
              [st_title "📊 Customer Segmentation Analysis Dashboard";
               st_markdown "### RFM-Based Customer Segmentation for E-Commerce";
               st_markdown "---"] ++
              layout T (selected_view T choice) counts heat revenue summary).
  { intros fs parse rfm df w' Hload HT.
    pose proof (load_data_success_page _ _ _ _ _ _ Hload) as Hpage.
    destruct (Hrun w' rfm df choice HT) as [hs E].
    assert (Hrun' : dashboard fs parse choice w =
              (Ok tt,
               World (heap w' ++ hs)
                 (page w' ++ layout T (selected_view T choice) counts heat revenue summary))).
    { unfold dashboard. unfold bind at 1. unfold bind at 1.
      destruct (banner w) as [[[]|e] w0] eqn:Hb; rewrite banner_run in Hb;
        [|discriminate Hb].
      cbn [snd] in Hload. now rewrite Hload. }
    rewrite Hrun'. cbn [fst snd]. split; [reflexivity|].
    unfold rendered. rewrite banner_run in Hpage. cbn [snd page] in *.
    rewrite Hpage, <- app_assoc. apply drop_app_length. }
  destruct (Hdash fs1 parse1 rfm1 df1 w1 Hl1 HT1) as [E1 P1].
  destruct (Hdash fs2 parse2 rfm2 df2 w2 Hl2 HT2) as [E2 P2].
  rewrite E1, E2, P1, P2. auto.
Qed.

Lemma page_does_not_depend_on_loaded_transactions_witness : let np := exact in
  fst (dashboard good_files example_parse (Str "A") empty_world) = Ok tt /\
  fst (dashboard (files "2011-06-30 12:00:00") example_parse (Str "A") empty_world) = Ok tt /\
  rendered empty_world (snd (dashboard good_files example_parse (Str "A") empty_world)) =
  rendered empty_world
    (snd (dashboard (files "2011-06-30 12:00:00") example_parse (Str "A") empty_world)).
Proof.
  apply (page_does_not_depend_on_loaded_transactions
           good_files (files "2011-06-30 12:00:00") example_parse example_parse (Str "A")
           empty_world
           (snd (load_data good_files example_parse (snd (banner empty_world))))
           (snd (load_data (files "2011-06-30 12:00:00") example_parse
                   (snd (banner empty_world))))
           0 1 0 1
           (pd.rename "Unnamed: 0" "CustomerID" (file_table example_rfm_csv))).
  - reflexivity.
  - reflexivity.
  - reflexivity.
  - reflexivity.
  - intros c Hc _. cbn in Hc. destruct Hc as [<-|[<-|[<-|[]]]]; reflexivity.
Defined.
